(** * Reddit Thread to Markdown Scraper: a shallow embedding of the userscript

    The development follows [reddit-thread-to-markdown.user.js].  The file
    holds two revisions of the script: the modular one (utility objects
    [Logger], [DOMUtils], [FileUtils], [MarkdownUtils], [PostExtractor],
    [CommentExtractor] and the functions [addScrapeButton], [scrapeThread],
    [initializeScript]) and the earlier monolithic one ([processComment] and
    an inlined [scrapeThread]).  The modular revision is embedded at top
    level, the monolithic one in [Module Legacy].

    Modelling conventions.
    - A JavaScript string is a [string]: a sequence of code units, of which
      the range 0..255 is represented.  The engine's bound on the length of
      a string is [JS.maxStringLength]; it is enforced where the script
      multiplies a length, in [repeat].
    - A JavaScript number is a double.  Of the doubles the model has [NaN],
      the two infinities and the integers, which is what [parseInt] and a
      multiplication of such numbers produce; [JS.numberOf] rounds an
      integer to the nearest double.  The two zeros are not told apart: the
      script only tests a zero for truth and prints it.
    - A value is [undefined], [null], a number or a string; these are the
      values the attributes and the typed properties of the post element
      are read as.
    - Effectful code lives in a state-and-exception monad over the host
      state (document, console, downloads).  The console and the downloads
      are kept newest first.
    - The log prefix of [Logger.getPrefix] (title, emoji, wall-clock time)
      is left out of console entries: an entry carries the message text.
    - Of the document, the elements and attributes the script reads are
      represented, and the credit bar it adds its button to.  Comment
      elements are trees: a reply is a descendant of the comment it
      answers. *)

From Stdlib Require Import ZArith NArith Bool List Lia.
From Stdlib Require Import Strings.Ascii Strings.String Numbers.DecimalString.
From Stdlib Require Numbers.DecimalZ.
Import ListNotations.

Open Scope Z_scope.
Open Scope list_scope.
Open Scope string_scope.

(* ================================================================== *)
(** * The JavaScript fragment the script relies on *)
(* ================================================================== *)

Module JS.

(** The one-character string ["\n"]. *)
Definition LF : string := String (ascii_of_nat 10) "".

Inductive number : Type :=
| NaN
| Int (z : Z)
| Infinity (negative : bool).

Inductive value : Type :=
| undefined
| null
| Num (n : number)
| Str (s : string).

Inductive exn : Type :=
| RangeError.

(** Result of evaluating an expression that may throw. *)
Inductive completion (A : Type) : Type :=
| Normal (a : A)
| Throw (e : exn).
Arguments Normal {A} a.
Arguments Throw {A} e.

Definition code (c : ascii) : N := N_of_ascii c.

Definition between (lo hi : N) (c : ascii) : bool :=
  ((lo <=? code c) && (code c <=? hi))%N.

(** [\n] and [\r]: the line terminators a regular expression's [.] refuses. *)
Definition isLineTerminator (c : ascii) : bool :=
  ((code c =? 10) || (code c =? 13))%N.

(** White space and line terminators, as [trim] and [parseInt] skip them. *)
Definition isWhiteSpace (c : ascii) : bool :=
  (between 9 13 c || (code c =? 32) || (code c =? 160))%N.

Definition isDigit (c : ascii) : bool := between 48 57 c.
Definition isUpper (c : ascii) : bool := between 65 90 c.
Definition isLower (c : ascii) : bool := between 97 122 c.

(** The class [[a-z0-9]] under the flag [i]. *)
Definition isAlnum (c : ascii) : bool := isLower c || isUpper c || isDigit c.

Fixpoint map (f : ascii -> ascii) (s : string) : string :=
  match s with
  | EmptyString => EmptyString
  | String c s' => String (f c) (map f s')
  end.

Fixpoint repeat_nat (s : string) (n : nat) : string :=
  match n with
  | O => ""
  | S n' => s ++ repeat_nat s n'
  end.

(** ** Numbers *)

(** The decimal numeral of an integer. *)
Definition Z_to_string (z : Z) : string := NilZero.string_of_int (Z.to_int z).

(** [a / 2^e] rounded to the nearest integer, a tie to the even one, for
    [a >= 0] and [e > 0]. *)
Definition roundShift (a e : Z) : Z :=
  let q := Z.shiftr a e in
  let r := a - Z.shiftl q e in
  let half := Z.shiftl 1 (e - 1) in
  if (r <? half)%Z then q
  else if (half <? r)%Z then q + 1
  else if Z.even q then q else q + 1.

(** The Number value for the integer [z]: the nearest double, whose
    significand has 53 bits, a tie going to the even significand; beyond
    the largest double, an infinity. *)
Definition numberOf (z : Z) : number :=
  let a := Z.abs z in
  let e := Z.log2 a - 52 in
  if (e <=? 0)%Z then Int z
  else
    let m := Z.shiftl (roundShift a e) e in
    if (m <? 2 ^ 1024)%Z then Int (Z.sgn z * m) else Infinity (z <? 0)%Z.

(** [v] rounds to the double [x]. *)
Definition isNumber (x v : Z) : bool :=
  match numberOf v with
  | Int y => (y =? x)%Z
  | _ => false
  end.

Definition digitCount (x : Z) : Z := Z.of_nat (length (Z_to_string x)).

(** Number::toString looks for integers [k], [s], [n] with [s] of [k]
    digits and [s * 10^(n-k)] rounding to [x], [k] being as small as
    possible.  The candidates for [s] with a given [k] and [m = n - k] are
    the two integers next to [x / 10^m]. *)
Definition candidatesAt (x k m : Z) : list (Z * Z) :=
  if (m <? 0)%Z then []
  else
    let s := (x / 10 ^ m)%Z in
    List.filter
      (fun c => (10 ^ (k - 1) <=? fst c)%Z && (fst c <? 10 ^ k)%Z
                && isNumber x (fst c * 10 ^ m))
      [(s, m); (s + 1, m)].

Definition candidates (x k : Z) : list (Z * Z) :=
  let d := digitCount x in
  (candidatesAt x k (d - k - 1) ++ candidatesAt x k (d - k)
     ++ candidatesAt x k (d - k + 1))%list.

Definition distance (x : Z) (c : Z * Z) : Z := Z.abs (fst c * 10 ^ snd c - x).

(** Of two candidates the one nearer to [x], of two equally near ones the
    even one. *)
Definition closer (x : Z) (best c : Z * Z) : Z * Z :=
  if (distance x c <? distance x best)%Z then c
  else if (distance x c =? distance x best)%Z && Z.even (fst c) then c
  else best.

Fixpoint shortest (x : Z) (ks : list Z) : option (Z * Z * Z) :=
  match ks with
  | [] => None
  | k :: rest =>
      match candidates x k with
      | [] => shortest x rest
      | c :: cs => Some (List.fold_left (closer x) cs c, k)
      end
  end.

(** Number::toString of a double [x > 0] that is an integer: its shortest
    digits, in positional notation up to 21 digits before the point and in
    exponent notation beyond.  Seventeen digits tell any two doubles
    apart. *)
Definition printPositive (x : Z) : string :=
  match shortest x (List.map Z.of_nat (List.seq 1 17)) with
  | None => Z_to_string x
  | Some (s, m, k) =>
      let n := m + k in
      if (n <=? 21)%Z then Z_to_string s ++ repeat_nat "0" (Z.to_nat m)
      else
        match Z_to_string s with
        | String c EmptyString => String c "e+" ++ Z_to_string (n - 1)
        | String c rest => String c ("." ++ rest) ++ "e+" ++ Z_to_string (n - 1)
        | EmptyString => EmptyString
        end
  end.

Definition number_toString (n : number) : string :=
  match n with
  | NaN => "NaN"
  | Infinity negative => if negative then "-Infinity" else "Infinity"
  | Int z =>
      match numberOf z with
      | Int y =>
          if (y <? 0)%Z then "-" ++ printPositive (- y)
          else if (y =? 0)%Z then "0"
          else printPositive y
      | Infinity negative => if negative then "-Infinity" else "Infinity"
      | NaN => "NaN"
      end
  end.

(** [String(v)], which is what a template literal applies to [${v}]. *)
Definition toString (v : value) : string :=
  match v with
  | undefined => "undefined"
  | null => "null"
  | Num n => number_toString n
  | Str s => s
  end.

(** [Boolean(v)]. *)
Definition toBoolean (v : value) : bool :=
  match v with
  | undefined | null => false
  | Num NaN => false
  | Num (Int z) => negb (z =? 0)%Z
  | Num (Infinity _) => true
  | Str s => negb (s =? "")%string
  end.

(** [a || b]. *)
Definition or (a b : value) : value := if toBoolean a then a else b.

(** [n || 0] for a number [n]. *)
Definition orZero (n : number) : number := if toBoolean (Num n) then n else Int 0.

(** [n < 0]. *)
Definition isNegative (n : number) : bool :=
  match n with
  | NaN => false
  | Int z => (z <? 0)%Z
  | Infinity negative => negative
  end.

(** [a * b]: the product of two integers is rounded to a double. *)
Definition mul (a b : number) : number :=
  match a, b with
  | NaN, _ | _, NaN => NaN
  | Int x, Int y => numberOf (x * y)
  | Int x, Infinity negative | Infinity negative, Int x =>
      if (x =? 0)%Z then NaN else Infinity (xorb negative (x <? 0)%Z)
  | Infinity negative, Infinity negative' => Infinity (xorb negative negative')
  end.

(** ** Strings *)

(** The longest string the engine builds: [2^29 - 24] code units in V8
    (Chrome, Node.js); other engines allow more. *)
Definition maxStringLength : Z := 2 ^ 29 - 24.

Definition fits (s : string) : bool := (Z.of_nat (length s) <=? maxStringLength)%Z.

(** [s.repeat(count)]: [NaN] counts as 0; a negative or infinite count
    throws, and so does a result beyond the engine's bound. *)
Definition repeat (s : string) (count : number) : completion string :=
  match count with
  | NaN => Normal ""
  | Infinity _ => Throw RangeError
  | Int n =>
      if (n <? 0)%Z then Throw RangeError
      else if (maxStringLength <? Z.of_nat (length s) * n)%Z then Throw RangeError
      else Normal (repeat_nat s (Z.to_nat n))
  end.

(** [s.replace(/\n/g, r)], for a replacement [r] without [$]. *)
Fixpoint replaceNewlines (s r : string) : string :=
  match s with
  | EmptyString => EmptyString
  | String c s' =>
      if (code c =? 10)%N then r ++ replaceNewlines s' r
      else String c (replaceNewlines s' r)
  end.

Fixpoint trimStart (s : string) : string :=
  match s with
  | EmptyString => EmptyString
  | String c s' => if isWhiteSpace c then trimStart s' else s
  end.

Fixpoint trimEnd (s : string) : string :=
  match s with
  | EmptyString => EmptyString
  | String c s' =>
      let r := trimEnd s' in
      if isWhiteSpace c && (r =? "")%string then EmptyString else String c r
  end.

(** [s.trim()]. *)
Definition trim (s : string) : string := trimEnd (trimStart s).

Definition lowerChar (c : ascii) : ascii :=
  if isUpper c || (between 192 222 c && negb (code c =? 215)%N)
  then ascii_of_N (code c + 32)
  else c.

(** [s.toLowerCase()]. *)
Definition toLowerCase (s : string) : string := map lowerChar s.

Definition digitValue (c : ascii) : Z := Z.of_N (code c) - 48.

(** The value of the longest run of decimal digits at the start of [s],
    [acc] being the value read so far ([None] when no digit was read). *)
Fixpoint digits (s : string) (acc : option Z) : option Z :=
  match s with
  | EmptyString => acc
  | String c s' =>
      if isDigit c
      then digits s' (Some (10 * match acc with Some a => a | None => 0 end
                            + digitValue c))
      else acc
  end.

(** The number for a sign and the integer the digits denote; [NaN] without
    a digit.  (Past the twentieth significant digit an engine may read
    zeros; the integer is taken as written.) *)
Definition signed (negative : bool) (m : option Z) : number :=
  match m with
  | None => NaN
  | Some m => numberOf (if negative then - m else m)
  end.

(** [parseInt(v, 10)]. *)
Definition parseInt (v : value) : number :=
  match trimStart (toString v) with
  | String "-" s => signed true (digits s None)
  | String "+" s => signed false (digits s None)
  | s => signed false (digits s None)
  end.

End JS.

Export JS (LF).

(* ================================================================== *)
(** * The host: document tree, console, downloads *)
(* ================================================================== *)

Module DOM.

(** The attributes of an element, in order: name and value. *)
Definition attributes : Type := list (string * string).

(** [element.getAttribute(name)]: the value, or [null]. *)
Fixpoint getAttribute (attrs : attributes) (name : string) : JS.value :=
  match attrs with
  | [] => JS.null
  | (n, v) :: rest => if (n =? name)%string then JS.Str v else getAttribute rest name
  end.

(** The only listener the script ever registers is [scrapeThread]. *)
Inductive listener : Type :=
| ScrapeThread.

(** A button, with the listeners registered for its [click] event. *)
Record Button : Type := {
  textContent : string;
  id : string;
  clickListeners : list listener
}.

(** What the script's queries can find below a comment element: a body
    content node, that is a [div] child of an element whose id ends in
    [-comment-rtjson-content], with its rendered text, or a nested
    [shreddit-comment] element. *)
Inductive node (C : Type) : Type :=
| Content (innerText : string)
| Reply (comment : C).
Arguments Content {C} innerText.
Arguments Reply {C} comment.

(** A [shreddit-comment] element: its attributes and, of its descendants,
    those nodes, in document order; the nodes below a nested comment are
    kept with that comment. *)
#[warnings="-register-all"]
Inductive ShredditComment : Type := mkShredditComment {
  commentAttributes : attributes;
  childNodes : list (node ShredditComment)
}.

(** [commentElement.querySelector('[id$="-comment-rtjson-content"] > div')]:
    the rendered text of the first body content node among the descendants
    of the element, in document order; the node may lie in a nested
    comment. *)
Fixpoint contentElement (commentElement : ShredditComment) : option string :=
  (fix first (nodes : list (node ShredditComment)) : option string :=
     match nodes with
     | [] => None
     | Content innerText :: _ => Some innerText
     | Reply comment :: rest =>
         match contentElement comment with
         | Some innerText => Some innerText
         | None => first rest
         end
     end) (childNodes commentElement).

(** The [shreddit-comment] descendants of a comment element, in document
    order. *)
Fixpoint descendants (commentElement : ShredditComment) : list ShredditComment :=
  (fix each (nodes : list (node ShredditComment)) : list ShredditComment :=
     match nodes with
     | [] => []
     | Content _ :: rest => each rest
     | Reply comment :: rest => comment :: descendants comment ++ each rest
     end) (childNodes commentElement).

(** [commentTree.querySelectorAll("shreddit-comment")], the tree being
    given by its top-level comment elements: every comment element below
    it, in document order. *)
Definition querySelectorAll (commentTree : list ShredditComment)
  : list ShredditComment :=
  List.flat_map (fun comment => comment :: descendants comment) commentTree.

(** The [shreddit-post] element: its typed properties, its attributes,
    the rendered text of its [[id$="-post-rtjson-content"]] descendant and
    the children of its [#pdp-credit-bar] descendant, when they exist. *)
Record ShredditPost : Type := {
  postTitle : JS.value;
  author : JS.value;
  subredditName : JS.value;
  score : JS.value;
  postAttributes : attributes;
  postBody : option string;
  creditBar : option (list Button)
}.

(** [titleElement] is the text of the [title] element, [commentTree] the
    top-level [shreddit-comment] elements of the [shreddit-comment-tree]
    element, in document order. *)
Record Document : Type := {
  titleElement : option string;
  shredditPost : option ShredditPost;
  commentTree : option (list ShredditComment)
}.

(** Tab, line feed, form feed, carriage return and space. *)
Definition isAsciiWhitespace (c : ascii) : bool :=
  ((JS.code c =? 9) || (JS.code c =? 10) || (JS.code c =? 12)
   || (JS.code c =? 13) || (JS.code c =? 32))%N.

(** Strip and collapse ASCII white space: every run of it becomes one
    space, and none is left at either end.  [started] says that a character
    has been written, [pending] that white space has been met since. *)
Fixpoint collapse (started pending : bool) (s : string) : string :=
  match s with
  | EmptyString => EmptyString
  | String c s' =>
      if isAsciiWhitespace c then collapse started true s'
      else
        let rest := String c (collapse true false s') in
        if started && pending then String " " rest else rest
  end.

(** [document.title]: the text of the [title] element with its white space
    stripped and collapsed, the empty string without such an element. *)
Definition title (d : Document) : string :=
  collapse false false
    match titleElement d with
    | Some text => text
    | None => ""
    end.

(** The two selectors [document.querySelector] is called with, indexed by
    what they find. *)
Inductive selector : Type -> Type :=
| shreddit_post : selector ShredditPost
| shreddit_comment_tree : selector (list ShredditComment).

Definition selectorText {A : Type} (sel : selector A) : string :=
  match sel with
  | shreddit_post => "shreddit-post"
  | shreddit_comment_tree => "shreddit-comment-tree"
  end.

(** [document.querySelector(selector)]. *)
Definition querySelector {A : Type} (sel : selector A) : Document -> option A :=
  match sel in selector T return Document -> option T with
  | shreddit_post => shredditPost
  | shreddit_comment_tree => commentTree
  end.

End DOM.

Module Console.

(** One call of [console.log], [console.warn], [console.error] or
    [console.dir]; further object arguments of a call are not kept. *)
Inductive entry : Type :=
| log (text : string)
| warn (text : string)
| error (text : string)
| dir (obj : DOM.attributes).

End Console.

Record Blob : Type := {
  parts : string;
  type : string
}.

(** A file handed to the browser's download machinery. *)
Record Download : Type := {
  download : string;
  blob : Blob
}.

Record Host : Type := {
  document : DOM.Document;
  console : list Console.entry;
  downloads : list Download;
  (** what [URL.createObjectURL] answers *)
  objectURL : string
}.

(** ** The monad of host effects *)

Definition M (A : Type) : Type := Host -> JS.completion A * Host.

Definition ret {A : Type} (a : A) : M A := fun h => (JS.Normal a, h).

Definition bind {A B : Type} (m : M A) (k : A -> M B) : M B :=
  fun h =>
    match m h with
    | (JS.Normal a, h') => k a h'
    | (JS.Throw e, h') => (JS.Throw e, h')
    end.

(** A pure computation that may throw, run inside the monad. *)
Definition eval {A : Type} (c : JS.completion A) : M A := fun h => (c, h).

Declare Scope monad_scope.
Delimit Scope monad_scope with monad.
Notation "x <- m ;; k" := (bind m (fun x => k))
  (at level 61, m at next level, right associativity) : monad_scope.
Notation "m ;; k" := (bind m (fun _ => k))
  (at level 61, right associativity) : monad_scope.
Open Scope monad_scope.

Definition getDocument : M DOM.Document := fun h => (JS.Normal (document h), h).

Definition setDocument (d : DOM.Document) : M unit :=
  fun h => (JS.Normal tt,
            {| document := d; console := console h;
               downloads := downloads h; objectURL := objectURL h |}).

Definition emit (e : Console.entry) : M unit :=
  fun h => (JS.Normal tt,
            {| document := document h; console := e :: console h;
               downloads := downloads h; objectURL := objectURL h |}).

(** The anchor element with [href] the blob's URL and [download] the file
    name is appended, clicked and removed: the browser saves the blob. *)
Definition save (b : Blob) (filename : string) : M unit :=
  fun h => (JS.Normal tt,
            {| document := document h; console := console h;
               downloads := {| download := filename; blob := b |} :: downloads h;
               objectURL := objectURL h |}).

Definition createObjectURL (b : Blob) : M string :=
  fun h => (JS.Normal (objectURL h), h).

Definition nat_toString (n : nat) : string := JS.Z_to_string (Z.of_nat n).

(* ================================================================== *)
(** * Utility modules *)
(* ================================================================== *)

Module Logger.

Definition log (text : string) : M unit := emit (Console.log text).
Definition warn (text : string) : M unit := emit (Console.warn text).
Definition error (text : string) : M unit := emit (Console.error text).
Definition debug (obj : DOM.attributes) : M unit := emit (Console.dir obj).

End Logger.

Module DOMUtils.

Definition querySelector {A : Type} (sel : DOM.selector A) (description : string)
  : M (option A) :=
  d <- getDocument ;;
  let element := DOM.querySelector sel d in
  match element with
  | Some _ => Logger.log ("Found " ++ description ++ ".")
  | None =>
      Logger.error ("Could not find " ++ description ++ " with selector: "
                    ++ DOM.selectorText sel)
  end ;;
  ret element.

(** The styling of the button is not represented. *)
Definition createStyledButton (text id : string) (clickHandler : DOM.listener)
  : DOM.Button :=
  {| DOM.textContent := text; DOM.id := id; DOM.clickListeners := [clickHandler] |}.

Definition logElementAttributes (attrs : DOM.attributes) (description : string)
  : M unit :=
  Logger.log ("Inspecting " ++ description ++ " attributes:") ;;
  Logger.debug attrs.

End DOMUtils.

Module FileUtils.

(** The literal the first regular expression starts with. *)
Definition marker : string := " : r/".

(** What a greedy [.*] leaves of [s]: everything from the first line
    terminator on. *)
Fixpoint afterLine (s : string) : string :=
  match s with
  | EmptyString => EmptyString
  | String c s' => if JS.isLineTerminator c then s else afterLine s'
  end.

Fixpoint drop (n : nat) (s : string) : string :=
  match n, s with
  | O, _ => s
  | S n', String _ s' => drop n' s'
  | S _, EmptyString => EmptyString
  end.

(** [s.replace(/ : r\/.*/, "")]: the leftmost match is removed, once. *)
Fixpoint stripSubreddit (s : string) : string :=
  match s with
  | EmptyString => EmptyString
  | String c s' =>
      if prefix marker s then afterLine (drop (length marker) s)
      else String c (stripSubreddit s')
  end.

(** [s.replace(/[^a-z0-9]/gi, "_")]. *)
Definition sanitize (s : string) : string :=
  JS.map (fun c => if JS.isAlnum c then c else "_"%char) s.

(** The constant [threadTitle], as a function of [document.title]. *)
Definition threadTitle (title : string) : string :=
  JS.toLowerCase (sanitize (stripSubreddit title)).

(** The template literal [`${threadTitle}.md`]. *)
Definition filename (title : string) : string := threadTitle title ++ ".md".

Definition generateFilename : M string :=
  d <- getDocument ;;
  ret (filename (DOM.title d)).

Definition downloadMarkdown (content filename : string) : M unit :=
  Logger.log "Creating Blob for download..." ;;
  let blob := {| parts := content; type := "text/markdown;charset=utf-8" |} in
  Logger.log "Blob created:" ;;
  url <- createObjectURL blob ;;
  Logger.log ("Object URL created: " ++ url) ;;
  Logger.log "Initiating download via temporary anchor element..." ;;
  save blob filename.

End FileUtils.

Module PostData.
Record t : Type := {
  title : JS.value;
  author : JS.value;
  subreddit : JS.value;
  score : JS.value;
  content : string
}.
End PostData.

Module CommentData.
Record t : Type := {
  author : JS.value;
  score : JS.value;
  content : string;
  depth : JS.number
}.
End CommentData.

Module MarkdownUtils.

Definition formatPostHeader (postData : PostData.t) : string :=
  let markdown := "# " ++ JS.toString (PostData.title postData) ++ LF ++ LF in
  let markdown :=
    markdown ++ "**Subreddit:** r/" ++ JS.toString (PostData.subreddit postData) ++ LF in
  let markdown :=
    markdown ++ "**Author:** u/" ++ JS.toString (PostData.author postData) ++ LF in
  let markdown :=
    markdown ++ "**Score:** " ++ JS.toString (PostData.score postData) ++ LF ++ LF in
  markdown.

Definition formatComment (commentData : CommentData.t) : JS.completion string :=
  let author := CommentData.author commentData in
  let score := CommentData.score commentData in
  let content := CommentData.content commentData in
  let depth := CommentData.depth commentData in
  match JS.repeat "  " (JS.mul depth (JS.Int 2)) with
  | JS.Throw e => JS.Throw e
  | JS.Normal indent =>
      let markdown :=
        indent ++ "- **u/" ++ JS.toString author ++ "** (*"
               ++ JS.toString score ++ " points*):" ++ LF in
      let markdown :=
        markdown ++ indent ++ "  > "
                 ++ JS.replaceNewlines content (LF ++ indent ++ "  > ")
                 ++ LF ++ LF in
      JS.Normal markdown
  end.

End MarkdownUtils.

(* ================================================================== *)
(** * Data extraction modules *)
(* ================================================================== *)

Module PostExtractor.

Definition extractPostData (postElement : option DOM.ShredditPost)
  : M (option PostData.t) :=
  match postElement with
  | None =>
      Logger.error "No post element provided for extraction." ;;
      ret None
  | Some postElement =>
      DOMUtils.logElementAttributes (DOM.postAttributes postElement)
                                    "shreddit-post element" ;;
      let getAttribute := DOM.getAttribute (DOM.postAttributes postElement) in
      let title := JS.or (DOM.postTitle postElement) (getAttribute "post-title") in
      let author := JS.or (DOM.author postElement) (getAttribute "author") in
      let subreddit :=
        JS.or (DOM.subredditName postElement) (getAttribute "subreddit-name") in
      let score := JS.or (DOM.score postElement) (getAttribute "score") in
      Logger.log ("  - Title: " ++ JS.toString title) ;;
      Logger.log ("  - Author: u/" ++ JS.toString author) ;;
      Logger.log ("  - Subreddit: r/" ++ JS.toString subreddit) ;;
      Logger.log ("  - Score: " ++ JS.toString score) ;;
      content <-
        match DOM.postBody postElement with
        | Some innerText =>
            let content := JS.trim innerText in
            Logger.log ("  - Post body found with length: "
                        ++ nat_toString (length content)) ;;
            ret content
        | None =>
            Logger.warn "  - Post body content element not found." ;;
            ret ""
        end ;;
      ret (Some {| PostData.title := title; PostData.author := author;
                   PostData.subreddit := subreddit; PostData.score := score;
                   PostData.content := content |})
  end.

End PostExtractor.

Module CommentExtractor.

Definition extractCommentData (commentElement : DOM.ShredditComment)
  : M (option CommentData.t) :=
  let getAttribute := DOM.getAttribute (DOM.commentAttributes commentElement) in
  let depth := JS.orZero (JS.parseInt (getAttribute "depth")) in
  let author := getAttribute "author" in
  let score := getAttribute "score" in
  let contentElement := DOM.contentElement commentElement in
  match JS.toBoolean author, contentElement with
  | true, Some innerText =>
      let content := JS.trim innerText in
      ret (Some {| CommentData.author := author; CommentData.score := score;
                   CommentData.content := content; CommentData.depth := depth |})
  | _, _ =>
      Logger.warn "Could not extract full details from a comment." ;;
      ret None
  end.

(** The [for] loop of [extractAllComments], from index [i] on. *)
Fixpoint extractEach (comments : list DOM.ShredditComment) (i len : nat)
         (commentData : list CommentData.t) : M (list CommentData.t) :=
  match comments with
  | [] => ret commentData
  | commentElement :: rest =>
      Logger.log ("  - Processing comment " ++ nat_toString (i + 1) ++ " of "
                  ++ nat_toString len ++ "...") ;;
      data <- extractCommentData commentElement ;;
      extractEach rest (S i) len
        match data with
        | Some data => (commentData ++ [data])%list
        | None => commentData
        end
  end.

Definition extractAllComments : M (list CommentData.t) :=
  commentTree <- DOMUtils.querySelector DOM.shreddit_comment_tree "comment tree" ;;
  match commentTree with
  | None => ret []
  | Some commentTree =>
      let comments := DOM.querySelectorAll commentTree in
      Logger.log ("  - Found " ++ nat_toString (List.length comments)
                  ++ " comment elements to process.") ;;
      extractEach comments 0 (List.length comments) []
  end.

End CommentExtractor.

(* ================================================================== *)
(** * Main application logic *)
(* ================================================================== *)

Definition scrapeButtonId : string := "scrape-to-markdown-btn".

(** [document.getElementById(id)], over the elements that carry an id in
    this model: the children of the credit bar. *)
Definition getElementById (id : string) (d : DOM.Document) : option DOM.Button :=
  match DOM.shredditPost d with
  | Some postElement =>
      match DOM.creditBar postElement with
      | Some children => List.find (fun b => (DOM.id b =? id)%string) children
      | None => None
      end
  | None => None
  end.

(** [buttonContainer.appendChild(button)], the container being the credit
    bar of the post element. *)
Definition appendChild (button : DOM.Button) : M unit :=
  d <- getDocument ;;
  match DOM.shredditPost d with
  | Some p =>
      match DOM.creditBar p with
      | Some children =>
          setDocument
            {| DOM.titleElement := DOM.titleElement d;
               DOM.shredditPost :=
                 Some {| DOM.postTitle := DOM.postTitle p;
                         DOM.author := DOM.author p;
                         DOM.subredditName := DOM.subredditName p;
                         DOM.score := DOM.score p;
                         DOM.postAttributes := DOM.postAttributes p;
                         DOM.postBody := DOM.postBody p;
                         DOM.creditBar := Some (children ++ [button])%list |};
               DOM.commentTree := DOM.commentTree d |}
      | None => ret tt
      end
  | None => ret tt
  end.

Definition addScrapeButton : M unit :=
  Logger.log "Attempting to add scrape button..." ;;
  postElement <- DOMUtils.querySelector DOM.shreddit_post "shreddit-post element" ;;
  match postElement with
  | None => Logger.error "Execution stopped: Could not find shreddit-post element."
  | Some postElement =>
      match DOM.creditBar postElement with
      | None =>
          Logger.error
            "Execution stopped: Could not find the button container (#pdp-credit-bar)."
      | Some _ =>
          Logger.log "Found button container (#pdp-credit-bar). Creating button..." ;;
          let scrapeButton :=
            DOMUtils.createStyledButton "Scrape to Markdown" scrapeButtonId
                                        DOM.ScrapeThread in
          appendChild scrapeButton ;;
          Logger.log "Successfully created and appended scrape button."
      end
  end.

(** The loop [for (const commentData of commentsData)] of [scrapeThread]. *)
Fixpoint formatEach (commentsData : list CommentData.t) (markdownContent : string)
  : M string :=
  match commentsData with
  | [] => ret markdownContent
  | commentData :: rest =>
      s <- eval (MarkdownUtils.formatComment commentData) ;;
      formatEach rest (markdownContent ++ s)
  end.

Definition scrapeThread : M unit :=
  Logger.log "--- SCRAPE PROCESS INITIATED ---" ;;
  let markdownContent := "" in
  Logger.log "Step 1: Scraping main post..." ;;
  postElement <- DOMUtils.querySelector DOM.shreddit_post "main post element" ;;
  match postElement with
  | None =>
      Logger.error "Execution stopped: Could not find the main post element during scrape."
  | Some postElement =>
      postData <- PostExtractor.extractPostData (Some postElement) ;;
      match postData with
      | None => Logger.error "Execution stopped: Could not extract post data."
      | Some postData =>
          let markdownContent :=
            markdownContent ++ MarkdownUtils.formatPostHeader postData in
          let markdownContent :=
            if JS.toBoolean (JS.Str (PostData.content postData))
            then markdownContent ++ PostData.content postData ++ LF ++ LF
            else markdownContent in
          Logger.log "Step 1: Main post scraping complete." ;;
          let markdownContent :=
            markdownContent ++ "---" ++ LF ++ LF ++ "## Comments" ++ LF ++ LF in
          Logger.log "Step 2: Scraping comments..." ;;
          commentsData <- CommentExtractor.extractAllComments ;;
          markdownContent <- formatEach commentsData markdownContent ;;
          Logger.log "Step 2: Comment scraping complete." ;;
          Logger.log "Step 3: Preparing file for download..." ;;
          filename <- FileUtils.generateFilename ;;
          Logger.log ("  - Filename set to: " ++ filename) ;;
          Logger.log ("  - Total markdown content length: "
                      ++ nat_toString (length markdownContent)) ;;
          FileUtils.downloadMarkdown markdownContent filename ;;
          Logger.log ("--- SCRAPE PROCESS COMPLETE: Download initiated for "
                      ++ filename ++ " ---")
      end
  end.

(** The callback [initializeScript] hands to [setTimeout] from the [load]
    listener. *)
Definition onTimer : M unit :=
  Logger.log "Timer finished. Checking for existing button..." ;;
  d <- getDocument ;;
  match getElementById scrapeButtonId d with
  | None => addScrapeButton
  | Some _ => Logger.log "Scrape button already exists. No action taken."
  end.

(** ** Event dispatch

    A listener runs to its end before the next event is dispatched.
    [scrapeThread] is an [async] function without [await]: its body runs
    inside the dispatch, and an exception rejects the promise it returns
    instead of reaching the dispatcher. *)

Definition settle (m : M unit) : M unit :=
  fun h => (JS.Normal tt, snd (m h)).

Definition listenerBody (l : DOM.listener) : M unit :=
  match l with
  | DOM.ScrapeThread => settle scrapeThread
  end.

Fixpoint dispatch (ls : list DOM.listener) : M unit :=
  match ls with
  | [] => ret tt
  | l :: rest => listenerBody l ;; dispatch rest
  end.

Inductive event : Type :=
| Load                (* the page's [load] event *)
| Timer               (* the two-second timer set by the [load] listener *)
| Click.              (* a click on the scrape button *)

Definition handle (e : event) : M unit :=
  match e with
  | Load =>
      Logger.log "'load' event fired. Waiting 2 seconds for page to stabilize..."
  | Timer => onTimer
  | Click =>
      d <- getDocument ;;
      match getElementById scrapeButtonId d with
      | Some button => dispatch (DOM.clickListeners button)
      | None => ret tt
      end
  end.

Fixpoint run (es : list event) (h : Host) : Host :=
  match es with
  | [] => h
  | e :: rest => run rest (snd (handle e h))
  end.

(** [initializeScript()], preceded by the script's first log line. *)
Definition start (h : Host) : Host :=
  snd ((Logger.log "Userscript loaded and initialized." ;;
        Logger.log "Setting up load listener...") h).

(* ================================================================== *)
(** * The monolithic revision *)
(* ================================================================== *)

Module Legacy.

Definition processComment (commentElement : DOM.ShredditComment) : M string :=
  let commentMarkdown := "" in
  let getAttribute := DOM.getAttribute (DOM.commentAttributes commentElement) in
  let depth := JS.orZero (JS.parseInt (getAttribute "depth")) in
  indent <- eval (JS.repeat "  " (JS.mul depth (JS.Int 2))) ;;
  let author := getAttribute "author" in
  let score := getAttribute "score" in
  let contentElement := DOM.contentElement commentElement in
  match JS.toBoolean author, contentElement with
  | true, Some innerText =>
      let content := JS.trim innerText in
      let commentMarkdown :=
        commentMarkdown ++ indent ++ "- **u/" ++ JS.toString author ++ "** (*"
                        ++ JS.toString score ++ " points*):" ++ LF in
      let commentMarkdown :=
        commentMarkdown ++ indent ++ "  > "
                        ++ JS.replaceNewlines content (LF ++ indent ++ "  > ")
                        ++ LF ++ LF in
      ret commentMarkdown
  | _, _ =>
      Logger.warn "    - Could not extract full details from a comment." ;;
      ret commentMarkdown
  end.

(** The [for] loop over the comment elements, from index [i] on. *)
Fixpoint processEach (comments : list DOM.ShredditComment) (i len : nat)
         (markdownContent : string) : M string :=
  match comments with
  | [] => ret markdownContent
  | comment :: rest =>
      Logger.log ("  - Processing comment " ++ nat_toString (i + 1) ++ " of "
                  ++ nat_toString len ++ "...") ;;
      s <- processComment comment ;;
      processEach rest (S i) len (markdownContent ++ s)
  end.

Definition scrapeThread : M unit :=
  Logger.log "--- SCRAPE PROCESS INITIATED ---" ;;
  let markdownContent := "" in
  Logger.log "Step 1: Scraping main post..." ;;
  d <- getDocument ;;
  match DOM.querySelector DOM.shreddit_post d with
  | None =>
      Logger.error
        "Execution stopped: Could not find the main post element during scrape."
  | Some postElement =>
      Logger.log "Inspecting shreddit-post element attributes:" ;;
      Logger.debug (DOM.postAttributes postElement) ;;
      let getAttribute := DOM.getAttribute (DOM.postAttributes postElement) in
      let title := JS.or (DOM.postTitle postElement) (getAttribute "post-title") in
      let author := JS.or (DOM.author postElement) (getAttribute "author") in
      let subreddit :=
        JS.or (DOM.subredditName postElement) (getAttribute "subreddit-name") in
      let score := JS.or (DOM.score postElement) (getAttribute "score") in
      Logger.log ("  - Title: " ++ JS.toString title) ;;
      Logger.log ("  - Author: u/" ++ JS.toString author) ;;
      Logger.log ("  - Subreddit: r/" ++ JS.toString subreddit) ;;
      Logger.log ("  - Score: " ++ JS.toString score) ;;
      let markdownContent := markdownContent ++ "# " ++ JS.toString title ++ LF ++ LF in
      let markdownContent :=
        markdownContent ++ "**Subreddit:** r/" ++ JS.toString subreddit ++ LF in
      let markdownContent :=
        markdownContent ++ "**Author:** u/" ++ JS.toString author ++ LF in
      let markdownContent :=
        markdownContent ++ "**Score:** " ++ JS.toString score ++ LF ++ LF in
      markdownContent <-
        match DOM.postBody postElement with
        | Some innerText =>
            let postText := JS.trim innerText in
            let markdownContent := markdownContent ++ postText ++ LF ++ LF in
            Logger.log ("  - Post body found with length: "
                        ++ nat_toString (length postText)) ;;
            ret markdownContent
        | None =>
            Logger.warn "  - Post body content element not found." ;;
            ret markdownContent
        end ;;
      Logger.log "Step 1: Main post scraping complete." ;;
      let markdownContent :=
        markdownContent ++ "---" ++ LF ++ LF ++ "## Comments" ++ LF ++ LF in
      Logger.log "Step 2: Scraping comments..." ;;
      d <- getDocument ;;
      markdownContent <-
        match DOM.querySelector DOM.shreddit_comment_tree d with
        | Some commentTree =>
            let comments := DOM.querySelectorAll commentTree in
            Logger.log ("  - Found " ++ nat_toString (List.length comments)
                        ++ " comment elements to process.") ;;
            markdownContent <-
              processEach comments 0 (List.length comments) markdownContent ;;
            Logger.log "Step 2: Comment scraping complete." ;;
            ret markdownContent
        | None =>
            Logger.error "Execution stopped: Could not find the comment tree." ;;
            ret markdownContent
        end ;;
      Logger.log "Step 3: Preparing file for download..." ;;
      d <- getDocument ;;
      let threadTitle := FileUtils.threadTitle (DOM.title d) in
      let filename := threadTitle ++ ".md" in
      Logger.log ("  - Filename set to: " ++ filename) ;;
      Logger.log ("  - Total markdown content length: "
                  ++ nat_toString (length markdownContent)) ;;
      Logger.log "Creating Blob for download..." ;;
      let blob := {| parts := markdownContent; type := "text/markdown;charset=utf-8" |} in
      Logger.log "Blob created:" ;;
      url <- createObjectURL blob ;;
      Logger.log ("Object URL created: " ++ url) ;;
      Logger.log "Initiating download via temporary anchor element..." ;;
      save blob filename ;;
      Logger.log ("--- SCRAPE PROCESS COMPLETE: Download initiated for "
                  ++ filename ++ " ---")
  end.

End Legacy.

(* ================================================================== *)
(** * What a run computes, as functions of the document *)
(* ================================================================== *)

(** The record [extractCommentData] returns for an element, [None] when it
    returns [null]. *)
Definition commentDataOf (c : DOM.ShredditComment) : option CommentData.t :=
  let getAttribute := DOM.getAttribute (DOM.commentAttributes c) in
  match JS.toBoolean (getAttribute "author"), DOM.contentElement c with
  | true, Some innerText =>
      Some {| CommentData.author := getAttribute "author";
              CommentData.score := getAttribute "score";
              CommentData.content := JS.trim innerText;
              CommentData.depth := JS.orZero (JS.parseInt (getAttribute "depth")) |}
  | _, _ => None
  end.

(** The array [extractAllComments] builds from the comment elements. *)
Fixpoint commentsDataOf (comments : list DOM.ShredditComment) : list CommentData.t :=
  match comments with
  | [] => []
  | c :: rest =>
      match commentDataOf c with
      | Some data => data :: commentsDataOf rest
      | None => commentsDataOf rest
      end
  end.

(** The comment elements of a document: none when the tree is absent. *)
Definition commentElements (d : DOM.Document) : list DOM.ShredditComment :=
  match DOM.commentTree d with
  | Some commentTree => DOM.querySelectorAll commentTree
  | None => []
  end.

(** The record [extractPostData] returns for a post element. *)
Definition postDataOf (p : DOM.ShredditPost) : PostData.t :=
  let getAttribute := DOM.getAttribute (DOM.postAttributes p) in
  {| PostData.title := JS.or (DOM.postTitle p) (getAttribute "post-title");
     PostData.author := JS.or (DOM.author p) (getAttribute "author");
     PostData.subreddit := JS.or (DOM.subredditName p) (getAttribute "subreddit-name");
     PostData.score := JS.or (DOM.score p) (getAttribute "score");
     PostData.content :=
       match DOM.postBody p with
       | Some innerText => JS.trim innerText
       | None => ""
       end |}.

(** The block [formatComment] builds for a record once it has the
    indentation: its two template literals. *)
Definition commentBlock (indent : string) (commentData : CommentData.t) : string :=
  (indent ++ "- **u/" ++ JS.toString (CommentData.author commentData) ++ "** (*"
          ++ JS.toString (CommentData.score commentData) ++ " points*):" ++ LF)
    ++ indent ++ "  > "
    ++ JS.replaceNewlines (CommentData.content commentData) (LF ++ indent ++ "  > ")
    ++ LF ++ LF.

(** The concatenation of the comment blocks, in order; the first comment
    whose formatting throws makes the whole throw. *)
Fixpoint formatAll (commentsData : list CommentData.t) : JS.completion string :=
  match commentsData with
  | [] => JS.Normal ""
  | commentData :: rest =>
      match MarkdownUtils.formatComment commentData with
      | JS.Throw e => JS.Throw e
      | JS.Normal s =>
          match formatAll rest with
          | JS.Throw e => JS.Throw e
          | JS.Normal t => JS.Normal (s ++ t)
          end
      end
  end.

Definition separator : string := "---" ++ LF ++ LF ++ "## Comments" ++ LF ++ LF.

(** The paragraph [scrapeThread] adds for the post body. *)
Definition bodyParagraph (content : string) : string :=
  if (content =? "")%string then "" else content ++ LF ++ LF.

(** The value of [markdownContent] when [scrapeThread] reaches the download
    step, from the records. *)
Definition renderThread (postData : PostData.t) (commentsData : list CommentData.t)
  : JS.completion string :=
  match formatAll commentsData with
  | JS.Throw e => JS.Throw e
  | JS.Normal comments =>
      JS.Normal (MarkdownUtils.formatPostHeader postData
                 ++ bodyParagraph (PostData.content postData)
                 ++ separator ++ comments)
  end.

Definition markdownBlob (markdownContent : string) : Blob :=
  {| parts := markdownContent; type := "text/markdown;charset=utf-8" |}.

Definition filenameOf (d : DOM.Document) : string :=
  FileUtils.filename (DOM.title d).

(** The host after some console entries [es] and some downloads [ds], both
    newest first. *)
Definition after (es : list Console.entry) (ds : list Download) (h : Host) : Host :=
  {| document := document h;
     console := (es ++ console h)%list;
     downloads := (ds ++ downloads h)%list;
     objectURL := objectURL h |}.

(** [m], started in [h], ends with [v], leaves the document alone, writes
    to the console and hands [ds] to the download machinery. *)
Definition runs {A : Type} (m : M A) (h : Host) (v : JS.completion A)
           (ds : list Download) : Prop :=
  exists es, m h = (v, after es ds h).

(** The same, the first entry written being [e]. *)
Definition starts {A : Type} (e : Console.entry) (m : M A) (h : Host)
           (v : JS.completion A) (ds : list Download) : Prop :=
  exists es, m h = (v, after (es ++ [e]) ds h).

(* ================================================================== *)
(** * The file name as the specification words it *)
(* ================================================================== *)

(** [deriveFilename] written after the specification: "strip a trailing
    [ : r/<subreddit>] suffix if present; replace every character that is
    not an ASCII letter or digit with [_]; lowercase the result; append
    [.md]".  The suffix is the last [ : r/] of the title with what follows
    it. *)
Module Spec.

Definition suffixStart : string := " : r/".

(** [m] occurs somewhere in [s]. *)
Fixpoint occurs (m s : string) : bool :=
  prefix m s ||
  match s with
  | EmptyString => false
  | String _ s' => occurs m s'
  end.

Fixpoint stripSuffix (s : string) : string :=
  match s with
  | EmptyString => EmptyString
  | String c s' =>
      if prefix suffixStart s && negb (occurs suffixStart s') then EmptyString
      else String c (stripSuffix s')
  end.

Definition isAsciiLetter (c : ascii) : bool :=
  JS.between 65 90 c || JS.between 97 122 c.

Definition isAsciiDigit (c : ascii) : bool := JS.between 48 57 c.

Definition replaceOthers (s : string) : string :=
  JS.map (fun c => if isAsciiLetter c || isAsciiDigit c then c else "_"%char) s.

Definition lowercase (s : string) : string :=
  JS.map (fun c => if JS.between 65 90 c then ascii_of_N (JS.code c + 32) else c) s.

Definition deriveFilename (pageTitle : string) : string :=
  lowercase (replaceOthers (stripSuffix pageTitle)) ++ ".md".

End Spec.

(** A lower-case letter, a digit or an underscore. *)
Definition isNameChar (c : ascii) : bool :=
  JS.isLower c || JS.isDigit c || (JS.code c =? 95)%N.

(** No line terminator in [s]. *)
Fixpoint singleLine (s : string) : bool :=
  match s with
  | EmptyString => true
  | String c s' => negb (JS.isLineTerminator c) && singleLine s'
  end.

(** [s] is empty or begins with a line terminator. *)
Definition atLineEnd (s : string) : bool :=
  match s with
  | EmptyString => true
  | String c _ => JS.isLineTerminator c
  end.

(** What a run started on document [d] ends with, and what it hands to the
    download machinery. *)
Definition outcome (d : DOM.Document) : JS.completion unit * list Download :=
  match DOM.shredditPost d with
  | None => (JS.Normal tt, [])
  | Some p =>
      match renderThread (postDataOf p) (commentsDataOf (commentElements d)) with
      | JS.Normal markdownContent =>
          (JS.Normal tt,
           [{| download := filenameOf d; blob := markdownBlob markdownContent |}])
      | JS.Throw e => (JS.Throw e, [])
      end
  end.

(** The host with other top-level comment elements under the comment
    tree. *)
Definition withComments (comments : list DOM.ShredditComment) (h : Host) : Host :=
  {| document :=
       {| DOM.titleElement := DOM.titleElement (document h);
          DOM.shredditPost := DOM.shredditPost (document h);
          DOM.commentTree := Some comments |};
     console := console h;
     downloads := downloads h;
     objectURL := objectURL h |}.

Definition initiated : Console.entry := Console.log "--- SCRAPE PROCESS INITIATED ---".

(** ** Sample pages *)

Module Sample.

(** A comment element without replies, with or without body content
    node. *)
Definition comment (attrs : DOM.attributes) (text : option string)
  : DOM.ShredditComment :=
  {| DOM.commentAttributes := attrs;
     DOM.childNodes :=
       match text with
       | Some innerText => [DOM.Content innerText]
       | None => []
       end |}.

Definition bob : DOM.ShredditComment :=
  comment [("author", "bob"); ("score", "5"); ("depth", "0")] (Some "Hi").

Definition carol : DOM.ShredditComment :=
  comment [("author", "carol"); ("score", "2"); ("depth", "1")] (Some "Re: hi").

(** An author, no body content node. *)
Definition noBody : DOM.ShredditComment :=
  comment [("author", "dave"); ("score", "1"); ("depth", "1")] None.

(** An author and no body content node of its own; the reply below it
    has one. *)
Definition bodilessParent : DOM.ShredditComment :=
  {| DOM.commentAttributes := [("author", "dave"); ("score", "1"); ("depth", "0")];
     DOM.childNodes := [DOM.Reply carol] |}.

(** No score attribute. *)
Definition noScore : DOM.ShredditComment :=
  comment [("author", "bob"); ("depth", "0")] (Some "Hi").

(** A negative nesting level. *)
Definition negativeDepth : DOM.ShredditComment :=
  comment [("author", "bob"); ("score", "5"); ("depth", "-1")] (Some "Hi").

(** The post element of the specification's example: the typed score is
    0 and the score attribute ["10"]; no body, no credit bar. *)
Definition post : DOM.ShredditPost :=
  {| DOM.postTitle := JS.Str "Hello World";
     DOM.author := JS.Str "alice";
     DOM.subredditName := JS.Str "test";
     DOM.score := JS.Num (JS.Int 0);
     DOM.postAttributes := [("post-title", "Hello"); ("score", "10")];
     DOM.postBody := None;
     DOM.creditBar := Some [] |}.

Definition page (comments : option (list DOM.ShredditComment)) : Host :=
  {| document :=
       {| DOM.titleElement := Some "Hello World : r/test";
          DOM.shredditPost := Some post;
          DOM.commentTree := comments |};
     console := [];
     downloads := [];
     objectURL := "blob:https://www.reddit.com/0" |}.

(** A page with the sample post, no comment and the given [title] element. *)
Definition titled (text : option string) : Host :=
  {| document :=
       {| DOM.titleElement := text;
          DOM.shredditPost := Some post;
          DOM.commentTree := Some [] |};
     console := [];
     downloads := [];
     objectURL := "blob:https://www.reddit.com/0" |}.

Definition helloWorld : PostData.t :=
  {| PostData.title := JS.Str "Hello World";
     PostData.author := JS.Str "alice";
     PostData.subreddit := JS.Str "test";
     PostData.score := JS.Str "10";
     PostData.content := "" |}.

Definition helloWorldMarkdown : string :=
  "# Hello World" ++ LF ++ LF
  ++ "**Subreddit:** r/test" ++ LF
  ++ "**Author:** u/alice" ++ LF
  ++ "**Score:** 10" ++ LF ++ LF
  ++ "---" ++ LF ++ LF
  ++ "## Comments" ++ LF ++ LF.

(** The page once the script has loaded and the timer has fired: the
    scrape button is in the credit bar. *)
Definition installed : Host :=
  run [Load; Timer] (start (page (Some [bob; carol]))).

End Sample.

Definition isInitiated (e : Console.entry) : bool :=
  match e with
  | Console.log text => (text =? "--- SCRAPE PROCESS INITIATED ---")%string
  | _ => false
  end.

(** How many runs the console shows to have been started. *)
Definition runsStarted (h : Host) : nat :=
  List.length (List.filter isInitiated (console h)).

(** [m], started in [h], writes entry [e] to the console, among others. *)
Definition logs {A : Type} (e : Console.entry) (m : M A) (h : Host)
           (v : JS.completion A) (ds : list Download) : Prop :=
  exists es, In e es /\ m h = (v, after es ds h).

Definition noCommentTree : Console.entry :=
  Console.error "Could not find comment tree with selector: shreddit-comment-tree".

(** ** What a run of the monolithic revision computes *)

Definition depthOf (c : DOM.ShredditComment) : JS.number :=
  JS.orZero (JS.parseInt (DOM.getAttribute (DOM.commentAttributes c) "depth")).

(** The text [Legacy.processComment] returns: the indentation is computed
    before the element is looked at. *)
Definition legacyBlock (c : DOM.ShredditComment) : JS.completion string :=
  match JS.repeat "  " (JS.mul (depthOf c) (JS.Int 2)) with
  | JS.Throw e => JS.Throw e
  | JS.Normal _ =>
      match commentDataOf c with
      | Some r => MarkdownUtils.formatComment r
      | None => JS.Normal ""
      end
  end.

Fixpoint legacyBlocks (comments : list DOM.ShredditComment) : JS.completion string :=
  match comments with
  | [] => JS.Normal ""
  | c :: rest =>
      match legacyBlock c with
      | JS.Throw e => JS.Throw e
      | JS.Normal s =>
          match legacyBlocks rest with
          | JS.Throw e => JS.Throw e
          | JS.Normal t => JS.Normal (s ++ t)
          end
      end
  end.

(** The body paragraph of the monolithic revision: written whenever the
    body element exists. *)
Definition legacyBody (p : DOM.ShredditPost) : string :=
  match DOM.postBody p with
  | Some innerText => JS.trim innerText ++ LF ++ LF
  | None => ""
  end.

Definition legacyOutcome (d : DOM.Document) : JS.completion unit * list Download :=
  match DOM.shredditPost d with
  | None => (JS.Normal tt, [])
  | Some p =>
      match legacyBlocks (commentElements d) with
      | JS.Normal comments =>
          (JS.Normal tt,
           [{| download := filenameOf d;
               blob := markdownBlob (MarkdownUtils.formatPostHeader (postDataOf p)
                                     ++ legacyBody p ++ separator ++ comments) |}])
      | JS.Throw e => (JS.Throw e, [])
      end
  end.
(* ================================================================== *)
(** * Notions used by the further properties *)
(* ================================================================== *)

(** The value of a decimal numeral read from its first digit on, [acc]
    being the value of the digits read before. *)
Fixpoint horner (d : Decimal.uint) (acc : Z) : Z :=
  match d with
  | Decimal.Nil => acc
  | Decimal.D0 d => horner d (10 * acc)
  | Decimal.D1 d => horner d (10 * acc + 1)
  | Decimal.D2 d => horner d (10 * acc + 2)
  | Decimal.D3 d => horner d (10 * acc + 3)
  | Decimal.D4 d => horner d (10 * acc + 4)
  | Decimal.D5 d => horner d (10 * acc + 5)
  | Decimal.D6 d => horner d (10 * acc + 6)
  | Decimal.D7 d => horner d (10 * acc + 7)
  | Decimal.D8 d => horner d (10 * acc + 8)
  | Decimal.D9 d => horner d (10 * acc + 9)
  end.

Definition startsWithWhiteSpace (s : string) : bool :=
  match s with
  | EmptyString => false
  | String c _ => JS.isWhiteSpace c
  end.

Fixpoint endsWithWhiteSpace (s : string) : bool :=
  match s with
  | EmptyString => false
  | String c EmptyString => JS.isWhiteSpace c
  | String _ s' => endsWithWhiteSpace s'
  end.

(** The lines of [s]: the pieces between its line feeds. *)
Fixpoint lines (s : string) : list string :=
  match s with
  | EmptyString => [EmptyString]
  | String c s' =>
      if (JS.code c =? 10)%N then EmptyString :: lines s'
      else match lines s' with
           | l :: ls => String c l :: ls
           | [] => [String c EmptyString]
           end
  end.

(** No line feed in [s]. *)
Fixpoint noLineFeed (s : string) : bool :=
  match s with
  | EmptyString => true
  | String c s' => negb (JS.code c =? 10)%N && noLineFeed s'
  end.

(** The lines of the block of a comment indented by [4 * d] spaces: the
    bullet line, the lines of the content behind the quote marker, and two
    empty lines. *)
Definition blockLines (d : Z) (r : CommentData.t) : list string :=
  ((JS.repeat_nat " " (Z.to_nat (4 * d))
      ++ "- **u/" ++ JS.toString (CommentData.author r)
      ++ "** (*" ++ JS.toString (CommentData.score r) ++ " points*):")%string
     :: List.map
          (fun l => (JS.repeat_nat " " (Z.to_nat (4 * d)) ++ "  > " ++ l)%string)
          (lines (CommentData.content r))
     ++ [""; ""])%list.

(** The block of a record whose depth is an integer [d >= 0]: the one
    [formatComment] builds after [d * 2] indent units. *)
Definition blockOf (r : CommentData.t) : string :=
  match CommentData.depth r with
  | JS.Int d => commentBlock (JS.repeat_nat "  " (Z.to_nat (d * 2))) r
  | _ => ""
  end.

Fixpoint blocksOf (commentsData : list CommentData.t) : string :=
  match commentsData with
  | [] => ""
  | r :: rest => blockOf r ++ blocksOf rest
  end.

(** The document of a thread whose comments all have such a depth. *)
Definition threadMarkdown (postData : PostData.t) (commentsData : list CommentData.t)
  : string :=
  MarkdownUtils.formatPostHeader postData
    ++ bodyParagraph (PostData.content postData)
    ++ separator ++ blocksOf commentsData.

(** Every character of [s] is a lower-case letter, a digit or an
    underscore. *)
Fixpoint allNameChars (s : string) : bool :=
  match s with
  | EmptyString => true
  | String c s' => isNameChar c && allNameChars s'
  end.

Definition mainPostNotFound : list Console.entry :=
  [Console.error "Execution stopped: Could not find the main post element during scrape.";
   Console.error "Could not find main post element with selector: shreddit-post";
   Console.log "Step 1: Scraping main post...";
   Console.log "--- SCRAPE PROCESS INITIATED ---"].

Definition legacyMainPostNotFound : list Console.entry :=
  [Console.error "Execution stopped: Could not find the main post element during scrape.";
   Console.log "Step 1: Scraping main post...";
   Console.log "--- SCRAPE PROCESS INITIATED ---"].

(** The button [addScrapeButton] creates. *)
Definition scrapeButton : DOM.Button :=
  DOMUtils.createStyledButton "Scrape to Markdown" scrapeButtonId DOM.ScrapeThread.

(** The document with the scrape button appended to the credit bar of the
    post element; the document itself when it has no post element or no
    credit bar. *)
Definition withButton (d : DOM.Document) : DOM.Document :=
  match DOM.shredditPost d with
  | Some p =>
      match DOM.creditBar p with
      | Some children =>
          {| DOM.titleElement := DOM.titleElement d;
             DOM.shredditPost :=
               Some {| DOM.postTitle := DOM.postTitle p;
                       DOM.author := DOM.author p;
                       DOM.subredditName := DOM.subredditName p;
                       DOM.score := DOM.score p;
                       DOM.postAttributes := DOM.postAttributes p;
                       DOM.postBody := DOM.postBody p;
                       DOM.creditBar := Some (children ++ [scrapeButton])%list |};
             DOM.commentTree := DOM.commentTree d |}
      | None => d
      end
  | None => d
  end.

(** The document once the timer callback has run. *)
Definition afterTimer (d : DOM.Document) : DOM.Document :=
  match getElementById scrapeButtonId d with
  | Some _ => d
  | None => withButton d
  end.

Definition isTimer (e : event) : bool :=
  match e with
  | Timer => true
  | _ => false
  end.

Definition isClick (e : event) : bool :=
  match e with
  | Click => true
  | _ => false
  end.

(** The host with another document and more console entries. *)
Definition withDocument (d : DOM.Document) (es : list Console.entry) (h : Host) : Host :=
  {| document := d;
     console := (es ++ console h)%list;
     downloads := downloads h;
     objectURL := objectURL h |}.

(** An element and the record extracted from it. *)
Definition recordOf (c : DOM.ShredditComment) (r : CommentData.t) : Prop :=
  CommentData.author r = DOM.getAttribute (DOM.commentAttributes c) "author" /\
  CommentData.score r = DOM.getAttribute (DOM.commentAttributes c) "score" /\
  CommentData.depth r
  = JS.orZero (JS.parseInt (DOM.getAttribute (DOM.commentAttributes c) "depth")) /\
  exists innerText,
    DOM.contentElement c = Some innerText /\ CommentData.content r = JS.trim innerText.

(** ** The console entries of a run *)

(** What [extractPostData] writes, oldest first. *)
Definition postLog (p : DOM.ShredditPost) : list Console.entry :=
  [Console.log "Inspecting shreddit-post element attributes:";
   Console.dir (DOM.postAttributes p);
   Console.log ("  - Title: " ++ JS.toString (PostData.title (postDataOf p)));
   Console.log ("  - Author: u/" ++ JS.toString (PostData.author (postDataOf p)));
   Console.log ("  - Subreddit: r/" ++ JS.toString (PostData.subreddit (postDataOf p)));
   Console.log ("  - Score: " ++ JS.toString (PostData.score (postDataOf p)));
   match DOM.postBody p with
   | Some innerText =>
       Console.log ("  - Post body found with length: "
                    ++ nat_toString (length (JS.trim innerText)))
   | None => Console.warn "  - Post body content element not found."
   end].

(** What [extractCommentData] writes. *)
Definition commentLog (c : DOM.ShredditComment) : list Console.entry :=
  match commentDataOf c with
  | Some _ => []
  | None => [Console.warn "Could not extract full details from a comment."]
  end.

(** What the loop of [extractAllComments] writes from index [i] on. *)
Fixpoint commentsLog (comments : list DOM.ShredditComment) (i len : nat)
  : list Console.entry :=
  match comments with
  | [] => []
  | c :: rest =>
      (Console.log ("  - Processing comment " ++ nat_toString (i + 1) ++ " of "
                    ++ nat_toString len ++ "...")
         :: commentLog c ++ commentsLog rest (S i) len)%list
  end.

(** What [extractAllComments] writes. *)
Definition treeLog (d : DOM.Document) : list Console.entry :=
  match DOM.commentTree d with
  | None => [noCommentTree]
  | Some commentTree =>
      let comments := DOM.querySelectorAll commentTree in
      Console.log "Found comment tree."
        :: Console.log ("  - Found " ++ nat_toString (List.length comments)
                        ++ " comment elements to process.")
        :: commentsLog comments 0 (List.length comments)
  end.

(** What [scrapeThread] writes once the comments are formatted. *)
Definition downloadLog (filename url markdownContent : string) : list Console.entry :=
  [Console.log "Step 2: Comment scraping complete.";
   Console.log "Step 3: Preparing file for download...";
   Console.log ("  - Filename set to: " ++ filename);
   Console.log ("  - Total markdown content length: "
                ++ nat_toString (length markdownContent));
   Console.log "Creating Blob for download...";
   Console.log "Blob created:";
   Console.log ("Object URL created: " ++ url);
   Console.log "Initiating download via temporary anchor element...";
   Console.log ("--- SCRAPE PROCESS COMPLETE: Download initiated for "
                ++ filename ++ " ---")].

(** What a run of [scrapeThread] writes after its first entry, on document
    [d], [url] being the object URL the host answers. *)
Definition runLogAfterStart (d : DOM.Document) (url : string) : list Console.entry :=
  Console.log "Step 1: Scraping main post..."
    :: match DOM.shredditPost d with
       | None =>
           [Console.error "Could not find main post element with selector: shreddit-post";
            Console.error
              "Execution stopped: Could not find the main post element during scrape."]
       | Some p =>
           (Console.log "Found main post element."
              :: postLog p
              ++ Console.log "Step 1: Main post scraping complete."
              :: Console.log "Step 2: Scraping comments..."
              :: treeLog d
              ++ match renderThread (postDataOf p)
                                    (commentsDataOf (commentElements d)) with
                 | JS.Normal markdownContent =>
                     downloadLog (filenameOf d) url markdownContent
                 | JS.Throw _ => []
                 end)%list
       end.

(** All that a run writes, oldest first. *)
Definition runLog (d : DOM.Document) (url : string) : list Console.entry :=
  initiated :: runLogAfterStart d url.

(** [m], started in [h], ends with [v], has written exactly the entries
    [es], oldest first, has handed over [ds] and has left the document
    alone. *)
Definition writes {A : Type} (m : M A) (h : Host) (v : JS.completion A)
           (es : list Console.entry) (ds : list Download) : Prop :=
  m h = (v, after (List.rev es) ds h).

(** How many runs a list of entries shows to have been started. *)
Definition started (es : list Console.entry) : nat :=
  List.length (List.filter isInitiated es).

(** [h] is a host state inside a run of [scrapeThread] that was started in
    [g]: the run has written the entries [es1] and is still to write the
    entries [es2] (both newest first); it has not touched the document. *)
Definition running (g h : Host) : Prop :=
  exists es1 es2,
    console (snd (scrapeThread g)) = (es2 ++ es1 ++ console g)%list /\
    es1 <> [] /\ es2 <> [] /\
    document h = document g /\
    objectURL h = objectURL g /\
    console h = (es1 ++ console g)%list.


(** ** The button of the monolithic revision *)

Module LegacyTrigger.

Definition addScrapeButton : M unit :=
  Logger.log "Attempting to add scrape button..." ;;
  d <- getDocument ;;
  match DOM.querySelector DOM.shreddit_post d with
  | None => Logger.error "Execution stopped: Could not find shreddit-post element."
  | Some postElement =>
      Logger.log "Found shreddit-post element." ;;
      match DOM.creditBar postElement with
      | Some _ =>
          Logger.log "Found button container (#pdp-credit-bar). Creating button..." ;;
          let scrapeButton :=
            {| DOM.textContent := "Scrape to Markdown";
               DOM.id := "scrape-to-markdown-btn";
               DOM.clickListeners := [DOM.ScrapeThread] |} in
          appendChild scrapeButton ;;
          Logger.log "Successfully created and appended scrape button."
      | None =>
          Logger.error
            "Execution stopped: Could not find the button container (#pdp-credit-bar)."
      end
  end.

(** The callback handed to [setTimeout]. *)
Definition onTimer : M unit :=
  Logger.log "Timer finished. Checking for existing button..." ;;
  d <- getDocument ;;
  match getElementById "scrape-to-markdown-btn" d with
  | None => addScrapeButton
  | Some _ => Logger.log "Scrape button already exists. No action taken."
  end.

End LegacyTrigger.
(* ================================================================== *)
(** * Strings *)
(* ================================================================== *)

Lemma append_nil_r (s : string) : s ++ "" = s.
Proof. induction s; simpl; congruence. Qed.

Lemma append_assoc (a b c : string) : (a ++ b) ++ c = a ++ b ++ c.
Proof. induction a; simpl; congruence. Qed.

Lemma length_append (a b : string) : length (a ++ b) = (length a + length b)%nat.
Proof. induction a; simpl; congruence. Qed.

(** A conjunction of closed equations, each settled by evaluation. *)
Ltac by_computation :=
  intros; repeat match goal with |- _ /\ _ => split end; vm_compute; reflexivity.

(** A closed inequality between integers. *)
Ltac by_comparison := vm_compute; discriminate.
(* ================================================================== *)
(** * Numbers *)
(* ================================================================== *)

Lemma log2_below_53 a : 0 <= a < 2 ^ 53 -> Z.log2 a - 52 <= 0.
Proof.
  intros [H0 H]. destruct (Z.eq_dec a 0) as [->|N]; [cbn; lia|].
  assert (Z.log2 a < 53) by (apply Z.log2_lt_pow2; lia). lia.
Qed.

(** An integer of magnitude up to [2^53] is a double. *)
Lemma numberOf_exact z : Z.abs z <= 2 ^ 53 -> JS.numberOf z = JS.Int z.
Proof.
  intros H. destruct (Z.eq_dec (Z.abs z) (2 ^ 53)) as [E|N].
  - destruct (Z.abs_eq_or_opp z) as [A|A]; rewrite A in E.
    + rewrite E. reflexivity.
    + replace z with (- 2 ^ 53) by lia. reflexivity.
  - unfold JS.numberOf. cbv zeta.
    pose proof (log2_below_53 (Z.abs z)) as L.
    destruct (Z.leb_spec (Z.log2 (Z.abs z) - 52) 0); [reflexivity | lia].
Qed.

(** Where it rounds, the significand keeps 53 bits: the result is at least
    [2^53]. *)
Lemma rounded_large a e :
  0 < e -> e = Z.log2 a - 52 -> 2 ^ 53 <= Z.shiftl (JS.roundShift a e) e.
Proof.
  intros He E.
  assert (Ha : 0 < a).
  { destruct (Z.ltb_spec 0 a) as [|N]; [assumption|].
    rewrite (Z.log2_nonpos a) in E by lia. lia. }
  pose proof (Z.log2_spec a Ha) as [L _].
  replace (Z.log2 a) with (52 + e) in L by lia.
  rewrite Z.pow_add_r in L by lia.
  assert (Q : 2 ^ 52 <= Z.shiftr a e).
  { rewrite Z.shiftr_div_pow2 by lia.
    apply Z.div_le_lower_bound; [apply Z.pow_pos_nonneg; lia | lia]. }
  assert (R : Z.shiftr a e <= JS.roundShift a e).
  { unfold JS.roundShift. cbv zeta.
    destruct (_ <? _)%Z; [lia|]. destruct (_ <? _)%Z; [lia|].
    destruct (Z.even _); lia. }
  rewrite Z.shiftl_mul_pow2 by lia.
  assert (P : 2 <= 2 ^ e).
  { change 2 with (2 ^ 1) at 1. apply Z.pow_le_mono_r; lia. }
  change (2 ^ 53) with (2 ^ 52 * 2). nia.
Qed.

(** A result of small magnitude was not rounded. *)
Lemma numberOf_small z y :
  JS.numberOf z = JS.Int y -> Z.abs y < 2 ^ 53 -> y = z.
Proof.
  unfold JS.numberOf. cbv zeta.
  destruct (Z.leb_spec (Z.log2 (Z.abs z) - 52) 0) as [Hle|He].
  - intros E _. now injection E.
  - destruct (_ <? 2 ^ 1024)%Z; [|discriminate].
    intros E Hy. injection E as <-.
    pose proof (rounded_large (Z.abs z) _ He eq_refl) as M.
    exfalso. rewrite Z.abs_mul in Hy.
    assert (Z.abs (Z.sgn z) = 1).
    { destruct z; cbn in *; try reflexivity.
      cbn in He. lia. }
    rewrite (Z.abs_eq (Z.shiftl _ _)) in Hy by lia. lia.
Qed.

Lemma numberOf_negative z : z < 0 -> JS.isNegative (JS.numberOf z) = true.
Proof.
  intros H. unfold JS.numberOf. cbv zeta.
  destruct (Z.leb_spec (Z.log2 (Z.abs z) - 52) 0) as [|He]; cbn [JS.isNegative].
  - now apply Z.ltb_lt.
  - pose proof (rounded_large (Z.abs z) _ He eq_refl) as M.
    destruct (_ <? 2 ^ 1024)%Z; cbn [JS.isNegative]; apply Z.ltb_lt; [|assumption].
    rewrite (Z.sgn_neg z H). lia.
Qed.

Lemma numberOf_nonNegative z : 0 <= z -> JS.isNegative (JS.numberOf z) = false.
Proof.
  intros H. unfold JS.numberOf. cbv zeta.
  destruct (Z.leb_spec (Z.log2 (Z.abs z) - 52) 0) as [|He]; cbn [JS.isNegative].
  - now apply Z.ltb_ge.
  - pose proof (rounded_large (Z.abs z) _ He eq_refl) as M.
    destruct (_ <? 2 ^ 1024)%Z; cbn [JS.isNegative]; apply Z.ltb_ge; [|assumption].
    assert (0 <= Z.sgn z) by (destruct z; cbn; lia). nia.
Qed.

(** Doubling keeps the sign. *)
Lemma mul_two_isNegative n :
  JS.isNegative (JS.mul n (JS.Int 2)) = JS.isNegative n.
Proof.
  destruct n as [|z|negative]; cbn [JS.mul JS.isNegative].
  - reflexivity.
  - destruct (Z.ltb_spec z 0).
    + apply numberOf_negative. lia.
    + apply numberOf_nonNegative. lia.
  - change (2 =? 0)%Z with false. change (2 <? 0)%Z with false.
    cbn iota. now rewrite xorb_false_r.
Qed.

Lemma orZero_isNegative n : JS.isNegative (JS.orZero n) = JS.isNegative n.
Proof.
  destruct n as [|z|negative]; try reflexivity.
  unfold JS.orZero. cbn [JS.toBoolean].
  destruct (Z.eqb_spec z 0) as [->|]; reflexivity.
Qed.

(** A negative count, finite or not, makes [repeat] throw. *)
Lemma repeat_negative s count :
  JS.isNegative count = true -> JS.repeat s count = JS.Throw JS.RangeError.
Proof.
  destruct count as [|n|negative]; cbn [JS.isNegative JS.repeat]; intros H.
  - discriminate H.
  - now rewrite H.
  - reflexivity.
Qed.

Lemma repeat_infinite s negative :
  JS.repeat s (JS.Infinity negative) = JS.Throw JS.RangeError.
Proof. reflexivity. Qed.

(** A count that is neither negative nor too large. *)
Lemma repeat_fits s n :
  0 <= n -> Z.of_nat (length s) * n <= JS.maxStringLength ->
  JS.repeat s (JS.Int n) = JS.Normal (JS.repeat_nat s (Z.to_nat n)).
Proof.
  intros H0 H. cbn [JS.repeat].
  destruct (Z.ltb_spec n 0); [lia|].
  destruct (Z.ltb_spec JS.maxStringLength (Z.of_nat (length s) * n)); [lia | reflexivity].
Qed.

(** When [repeat] returns, the count was [NaN] or such an integer. *)
Lemma repeat_Normal s count t :
  JS.repeat s count = JS.Normal t ->
  (count = JS.NaN /\ t = "") \/
  exists n, count = JS.Int n /\ 0 <= n /\
            Z.of_nat (length s) * n <= JS.maxStringLength /\
            t = JS.repeat_nat s (Z.to_nat n).
Proof.
  destruct count as [|n|negative]; cbn [JS.repeat]; intros H.
  - left. split; [reflexivity|]. now injection H.
  - right. destruct (Z.ltb_spec n 0); [discriminate H|].
    destruct (Z.ltb_spec JS.maxStringLength (Z.of_nat (length s) * n));
      [discriminate H|].
    exists n. repeat split; try lia. now injection H.
  - discriminate H.
Qed.

(** The indentation of a comment of depth [d]: [d * 2] units. *)
Lemma indent_fits d :
  0 <= d -> 4 * d <= JS.maxStringLength ->
  JS.repeat "  " (JS.mul (JS.Int d) (JS.Int 2))
  = JS.Normal (JS.repeat_nat "  " (Z.to_nat (d * 2))).
Proof.
  intros H0 H. cbn [JS.mul].
  assert (M : JS.maxStringLength < 2 ^ 53) by reflexivity.
  rewrite numberOf_exact by lia.
  apply repeat_fits; [lia|]. cbn [length]. lia.
Qed.

Lemma indent_Normal depth indent :
  JS.repeat "  " (JS.mul depth (JS.Int 2)) = JS.Normal indent ->
  (depth = JS.NaN /\ indent = "") \/
  exists d, depth = JS.Int d /\ 0 <= d /\ 4 * d <= JS.maxStringLength /\
            indent = JS.repeat_nat "  " (Z.to_nat (d * 2)).
Proof.
  intros H. apply repeat_Normal in H as [[Hc Ht]|[n [Hc [H0 [Hm Ht]]]]].
  - left. split; [|exact Ht].
    destruct depth as [|z|negative]; [reflexivity| |].
    + cbn [JS.mul] in Hc. exfalso.
      pose proof (numberOf_negative (z * 2)) as N.
      pose proof (numberOf_nonNegative (z * 2)) as P.
      unfold JS.numberOf in Hc. cbv zeta in Hc.
      destruct (_ <=? 0)%Z; [discriminate Hc|].
      destruct (_ <? 2 ^ 1024)%Z; discriminate Hc.
    + cbn in Hc. discriminate Hc.
  - right. cbn [length] in Hm.
    assert (M : JS.maxStringLength < 2 ^ 53) by reflexivity.
    destruct depth as [|z|negative].
    + discriminate Hc.
    + cbn [JS.mul] in Hc. apply numberOf_small in Hc; [|lia].
      exists z. subst n. repeat split; try lia. exact Ht.
    + cbn in Hc. discriminate Hc.
Qed.
(* ================================================================== *)
(** * Reasoning about runs *)
(* ================================================================== *)

Section Runs.

Context {A B : Type}.

Lemma after_after es1 ds1 es2 ds2 h :
  after es2 ds2 (after es1 ds1 h) = after (es2 ++ es1) (ds2 ++ ds1) h.
Proof.
  unfold after; simpl. now rewrite <- !app_assoc.
Qed.

Lemma runs_ret (a : A) h : runs (ret a) h (JS.Normal a) [].
Proof. exists []. destruct h; reflexivity. Qed.

Lemma runs_eval (c : JS.completion A) h : runs (eval c) h c [].
Proof. exists []. destruct h; reflexivity. Qed.

Lemma runs_bind (m : M A) (k : A -> M B) h a ds1 v ds2 :
  runs m h (JS.Normal a) ds1 ->
  (forall h1, document h1 = document h -> runs (k a) h1 v ds2) ->
  runs (bind m k) h v (ds2 ++ ds1).
Proof.
  intros [es1 H1] Hk.
  destruct (Hk (after es1 ds1 h) eq_refl) as [es2 H2].
  exists (es2 ++ es1)%list. unfold bind. rewrite H1, H2.
  now rewrite after_after.
Qed.

Lemma runs_bind_throw (m : M A) (k : A -> M B) h e ds :
  runs m h (JS.Throw e) ds -> runs (bind m k) h (JS.Throw e) ds.
Proof.
  intros [es H]. exists es. unfold bind. now rewrite H.
Qed.

(** A step that hands nothing over, followed by the rest. *)
Lemma runs_seq (m : M A) (k : A -> M B) h a v ds :
  runs m h (JS.Normal a) [] ->
  (forall h1, document h1 = document h -> runs (k a) h1 v ds) ->
  runs (bind m k) h v ds.
Proof.
  intros Hm Hk. rewrite <- (app_nil_r ds). now apply runs_bind with (a := a).
Qed.

End Runs.

Lemma runs_document {A : Type} (m : M A) h v ds :
  runs m h v ds -> document (snd (m h)) = document h.
Proof. intros [es H]. now rewrite H. Qed.

Lemma runs_downloads {A : Type} (m : M A) h v ds :
  runs m h v ds -> downloads (snd (m h)) = (ds ++ downloads h)%list.
Proof. intros [es H]. now rewrite H. Qed.

Lemma runs_completion {A : Type} (m : M A) h v ds :
  runs m h v ds -> fst (m h) = v.
Proof. intros [es H]. now rewrite H. Qed.

Lemma runs_emit e h : runs (emit e) h (JS.Normal tt) [].
Proof. exists [e]. reflexivity. Qed.

Lemma runs_getDocument h : runs getDocument h (JS.Normal (document h)) [].
Proof. exists []. destruct h; reflexivity. Qed.

Lemma runs_save b filename h :
  runs (save b filename) h (JS.Normal tt) [{| download := filename; blob := b |}].
Proof. exists []. reflexivity. Qed.

Lemma runs_createObjectURL b h :
  runs (createObjectURL b) h (JS.Normal (objectURL h)) [].
Proof. exists []. destruct h; reflexivity. Qed.

(** One logging statement, at the head of a sequence or on its own. *)
Ltac log_step :=
  lazymatch goal with
  | |- runs (bind (Logger.log _) _) _ _ _ =>
      apply runs_seq with (a := tt); [apply runs_emit | intros ? _]
  | |- runs (bind (Logger.warn _) _) _ _ _ =>
      apply runs_seq with (a := tt); [apply runs_emit | intros ? _]
  | |- runs (bind (Logger.error _) _) _ _ _ =>
      apply runs_seq with (a := tt); [apply runs_emit | intros ? _]
  | |- runs (bind (Logger.debug _) _) _ _ _ =>
      apply runs_seq with (a := tt); [apply runs_emit | intros ? _]
  | |- runs (Logger.log _) _ _ _ => apply runs_emit
  | |- runs (Logger.warn _) _ _ _ => apply runs_emit
  | |- runs (Logger.error _) _ _ _ => apply runs_emit
  | |- runs (Logger.debug _) _ _ _ => apply runs_emit
  end.

(** A step justified by [lem], keeping [Hd : document h = d] for the
    current host [h]. *)
Ltac step_with lem Hd :=
  eapply runs_seq;
  [ apply lem
  | let h' := fresh "h" in
    let S := fresh "S" in
    intros h' S; try rewrite Hd in *; clear Hd; rename S into Hd ].

Ltac log_in Hd := step_with runs_emit Hd.

Lemma querySelector_runs {A : Type} (sel : DOM.selector A) description h :
  runs (DOMUtils.querySelector sel description) h
       (JS.Normal (DOM.querySelector sel (document h))) [].
Proof.
  unfold DOMUtils.querySelector.
  apply runs_seq with (a := document h); [apply runs_getDocument | intros h1 _].
  destruct (DOM.querySelector sel (document h)); log_step; apply runs_ret.
Qed.

Lemma extractCommentData_runs c h :
  runs (CommentExtractor.extractCommentData c) h (JS.Normal (commentDataOf c)) [].
Proof.
  unfold CommentExtractor.extractCommentData, commentDataOf.
  destruct (JS.toBoolean _); destruct (DOM.contentElement c);
    try apply runs_ret; log_step; apply runs_ret.
Qed.

Lemma extractEach_runs comments : forall i len commentData h,
  runs (CommentExtractor.extractEach comments i len commentData) h
       (JS.Normal (commentData ++ commentsDataOf comments)%list) [].
Proof.
  induction comments as [|c rest IH]; intros i len acc h; simpl.
  - rewrite app_nil_r. apply runs_ret.
  - log_step.
    apply runs_seq with (a := commentDataOf c); [apply extractCommentData_runs|].
    intros h2 _. destruct (commentDataOf c) as [data|].
    + replace (acc ++ data :: commentsDataOf rest)%list
        with ((acc ++ [data]) ++ commentsDataOf rest)%list
        by now rewrite <- app_assoc.
      apply IH.
    + apply IH.
Qed.

Lemma extractAllComments_runs h :
  runs CommentExtractor.extractAllComments h
       (JS.Normal (commentsDataOf (commentElements (document h)))) [].
Proof.
  unfold CommentExtractor.extractAllComments, commentElements.
  eapply runs_seq; [apply querySelector_runs|]. simpl.
  intros h1 _. destruct (DOM.commentTree (document h)) as [comments|].
  - cbv zeta. log_step. apply (extractEach_runs (DOM.querySelectorAll comments) 0 _ []).
  - apply runs_ret.
Qed.

Lemma extractPostData_runs p h :
  runs (PostExtractor.extractPostData (Some p)) h (JS.Normal (Some (postDataOf p))) [].
Proof.
  unfold PostExtractor.extractPostData, DOMUtils.logElementAttributes, postDataOf.
  apply runs_seq with (a := tt).
  { log_step. log_step. }
  intros h1 _. do 4 log_step.
  destruct (DOM.postBody p) as [innerText|].
  - apply runs_seq with (a := JS.trim innerText).
    + log_step. apply runs_ret.
    + intros; apply runs_ret.
  - apply runs_seq with (a := "").
    + log_step. apply runs_ret.
    + intros; apply runs_ret.
Qed.

Lemma formatEach_runs commentsData : forall markdownContent h,
  runs (formatEach commentsData markdownContent) h
       match formatAll commentsData with
       | JS.Normal s => JS.Normal (markdownContent ++ s)
       | JS.Throw e => JS.Throw e
       end [].
Proof.
  induction commentsData as [|r rest IH]; intros md h; simpl.
  - rewrite append_nil_r. apply runs_ret.
  - destruct (MarkdownUtils.formatComment r) as [s|e].
    + apply runs_seq with (a := s); [apply runs_eval|].
      intros h1 _. specialize (IH (md ++ s) h1).
      destruct (formatAll rest) as [t|e]; [|exact IH].
      now rewrite <- append_assoc.
    + apply runs_bind_throw. apply runs_eval.
Qed.

Lemma generateFilename_runs h :
  runs FileUtils.generateFilename h (JS.Normal (filenameOf (document h))) [].
Proof.
  unfold FileUtils.generateFilename.
  eapply runs_seq; [apply runs_getDocument|]. intros; apply runs_ret.
Qed.

Lemma downloadMarkdown_runs content filename h :
  runs (FileUtils.downloadMarkdown content filename) h (JS.Normal tt)
       [{| download := filename; blob := markdownBlob content |}].
Proof.
  unfold FileUtils.downloadMarkdown. do 2 log_step.
  eapply runs_seq; [apply runs_createObjectURL|]. intros h2 _.
  do 2 log_step. apply runs_save.
Qed.

(** What [scrapeThread] has in [markdownContent] before the comments. *)
Lemma post_markdown postData :
  (if JS.toBoolean (JS.Str (PostData.content postData))
   then ("" ++ MarkdownUtils.formatPostHeader postData)
          ++ PostData.content postData ++ LF ++ LF
   else "" ++ MarkdownUtils.formatPostHeader postData)
    ++ "---" ++ LF ++ LF ++ "## Comments" ++ LF ++ LF
  = MarkdownUtils.formatPostHeader postData
      ++ bodyParagraph (PostData.content postData) ++ separator.
Proof.
  unfold bodyParagraph, separator. cbn [JS.toBoolean].
  destruct (PostData.content postData =? "")%string; cbn [negb].
  - reflexivity.
  - cbn [append]. now rewrite append_assoc.
Qed.

Lemma starts_runs {A : Type} e (m : M A) h v ds : starts e m h v ds -> runs m h v ds.
Proof. intros [es H]. now exists (es ++ [e])%list. Qed.

Lemma starts_emit {B : Type} e (k : unit -> M B) h v ds :
  (forall h1, document h1 = document h -> runs (k tt) h1 v ds) ->
  starts e (bind (emit e) k) h v ds.
Proof.
  intros Hk. destruct (Hk (after [e] [] h) eq_refl) as [es H].
  exists es. unfold bind. cbn [emit]. change (k tt (after [e] [] h) = (v, after (es ++ [e]) ds h)).
  rewrite H, after_after. now rewrite app_nil_r.
Qed.

(** The first statement of a run, keeping [Hd : document h = d]. *)
Ltac first_log Hd :=
  apply starts_emit;
  let h' := fresh "h" in
  let S := fresh "S" in
  intros h' S; try rewrite Hd in *; clear Hd; rename S into Hd.

(** A run on a page with a post element: either the formatting of some
    comment throws and nothing is handed over, or exactly one file is. *)
Lemma scrapeThread_post h p :
  DOM.shredditPost (document h) = Some p ->
  match renderThread (postDataOf p) (commentsDataOf (commentElements (document h))) with
  | JS.Normal markdownContent =>
      starts initiated scrapeThread h (JS.Normal tt)
             [{| download := filenameOf (document h);
                 blob := markdownBlob markdownContent |}]
  | JS.Throw e => starts initiated scrapeThread h (JS.Throw e) []
  end.
Proof.
  remember (document h) as d eqn:Hd. symmetry in Hd. intros Hp.
  unfold renderThread.
  pose proof (formatEach_runs (commentsDataOf (commentElements d))) as F.
  destruct (formatAll (commentsDataOf (commentElements d))) as [s|e];
    unfold scrapeThread.
  - replace (MarkdownUtils.formatPostHeader (postDataOf p)
               ++ bodyParagraph (PostData.content (postDataOf p)) ++ separator ++ s)
      with ((MarkdownUtils.formatPostHeader (postDataOf p)
               ++ bodyParagraph (PostData.content (postDataOf p)) ++ separator) ++ s)
      by now rewrite !append_assoc.
    first_log Hd. log_in Hd.
    step_with (@querySelector_runs DOM.ShredditPost) Hd. simpl DOM.querySelector.
    rewrite Hp. step_with extractPostData_runs Hd. cbv zeta.
    do 2 log_in Hd. step_with extractAllComments_runs Hd.
    eapply runs_seq; [rewrite post_markdown; apply F|].
    intros h8 S. rewrite Hd in S. clear Hd. rename S into Hd.
    do 2 log_in Hd. step_with generateFilename_runs Hd.
    do 2 log_in Hd.
    rewrite <- (app_nil_l [_]).
    eapply runs_bind; [apply downloadMarkdown_runs|].
    intros; log_step.
  - first_log Hd. log_in Hd.
    step_with (@querySelector_runs DOM.ShredditPost) Hd. simpl DOM.querySelector.
    rewrite Hp. step_with extractPostData_runs Hd. cbv zeta.
    do 2 log_in Hd. step_with extractAllComments_runs Hd.
    apply runs_bind_throw. rewrite post_markdown. apply F.
Qed.

(** A run on a page without post element stops after three log lines. *)
Lemma scrapeThread_no_post h :
  DOM.shredditPost (document h) = None ->
  starts initiated scrapeThread h (JS.Normal tt) [].
Proof.
  remember (document h) as d eqn:Hd. symmetry in Hd. intros Hp.
  unfold scrapeThread. first_log Hd. log_in Hd.
  step_with (@querySelector_runs DOM.ShredditPost) Hd. simpl DOM.querySelector.
  rewrite Hp. log_step.
Qed.

(** Every run begins by logging its start, leaves the document alone and
    ends as [outcome] says: all of it depends on the document only. *)
Lemma scrapeThread_outcome h :
  starts initiated scrapeThread h
         (fst (outcome (document h))) (snd (outcome (document h))).
Proof.
  unfold outcome. destruct (DOM.shredditPost (document h)) as [p|] eqn:Hp.
  - pose proof (scrapeThread_post h p Hp) as H.
    destruct (renderThread _ _); exact H.
  - now apply scrapeThread_no_post.
Qed.

Lemma scrapeThread_runs h :
  runs scrapeThread h (fst (outcome (document h))) (snd (outcome (document h))).
Proof. eapply starts_runs, scrapeThread_outcome. Qed.

(* ================================================================== *)
(** * Comments: indentation, depth, score *)
(* ================================================================== *)

Lemma length_repeat_nat s n : length (JS.repeat_nat s n) = (n * length s)%nat.
Proof.
  induction n as [|n IH]; simpl; [reflexivity|]. now rewrite length_append, IH.
Qed.

Lemma formatComment_block r indent :
  JS.repeat "  " (JS.mul (CommentData.depth r) (JS.Int 2)) = JS.Normal indent ->
  MarkdownUtils.formatComment r = JS.Normal (commentBlock indent r).
Proof.
  intros E. unfold MarkdownUtils.formatComment. rewrite E. reflexivity.
Qed.

Lemma formatComment_throws r e :
  JS.repeat "  " (JS.mul (CommentData.depth r) (JS.Int 2)) = JS.Throw e ->
  MarkdownUtils.formatComment r = JS.Throw e.
Proof.
  intros E. unfold MarkdownUtils.formatComment. now rewrite E.
Qed.

(** The block is at least as long as its indentation. *)
Lemma commentBlock_length indent r :
  (length indent <= length (commentBlock indent r))%nat.
Proof.
  unfold commentBlock. rewrite !length_append. lia.
Qed.

Lemma fits_indent d r :
  0 <= d ->
  JS.fits (commentBlock (JS.repeat_nat "  " (Z.to_nat (d * 2))) r) = true ->
  4 * d <= JS.maxStringLength.
Proof.
  intros H0 F. unfold JS.fits in F. apply Z.leb_le in F.
  pose proof (commentBlock_length (JS.repeat_nat "  " (Z.to_nat (d * 2))) r) as L.
  rewrite length_repeat_nat in L. cbn [length] in L. lia.
Qed.

(** C4.  For a comment record whose depth is the integer [d]: whenever the
    renderer returns, [d] is not negative and the indentation is [d * 2]
    copies of the two-character unit, [d * 4] characters in all, which is
    what the bullet line and the quoted lines start with; and the renderer
    does return when [d] is not negative and the block is no longer than a
    string may be. *)
Theorem formatComment_indent (commentData : CommentData.t) (d : Z) :
  CommentData.depth commentData = JS.Int d ->
  length "  " = 2%nat /\
  (forall markdown,
      MarkdownUtils.formatComment commentData = JS.Normal markdown ->
      0 <= d /\
      exists indent,
        JS.repeat "  " (JS.mul (JS.Int d) (JS.Int 2)) = JS.Normal indent /\
        indent = JS.repeat_nat "  " (Z.to_nat (d * 2)) /\
        Z.of_nat (length indent) = d * 4 /\
        markdown
        = (indent ++ "- **u/" ++ JS.toString (CommentData.author commentData)
                  ++ "** (*" ++ JS.toString (CommentData.score commentData)
                  ++ " points*):" ++ LF)
            ++ indent ++ "  > "
            ++ JS.replaceNewlines (CommentData.content commentData)
                                  (LF ++ indent ++ "  > ")
            ++ LF ++ LF) /\
  (0 <= d ->
   JS.fits (commentBlock (JS.repeat_nat "  " (Z.to_nat (d * 2))) commentData) = true ->
   exists indent,
     JS.repeat "  " (JS.mul (JS.Int d) (JS.Int 2)) = JS.Normal indent /\
     indent = JS.repeat_nat "  " (Z.to_nat (d * 2)) /\
     Z.of_nat (length indent) = d * 4 /\
     MarkdownUtils.formatComment commentData
     = JS.Normal
         ((indent ++ "- **u/" ++ JS.toString (CommentData.author commentData)
                  ++ "** (*" ++ JS.toString (CommentData.score commentData)
                  ++ " points*):" ++ LF)
            ++ indent ++ "  > "
            ++ JS.replaceNewlines (CommentData.content commentData)
                                  (LF ++ indent ++ "  > ")
            ++ LF ++ LF)).
Proof.
  intros Hd. split; [reflexivity|]. split.
  - intros markdown Hm.
    destruct (JS.repeat "  " (JS.mul (CommentData.depth commentData) (JS.Int 2)))
      as [indent|e] eqn:E.
    + rewrite (formatComment_block _ _ E) in Hm. injection Hm as <-.
      rewrite Hd in E.
      destruct (indent_Normal _ _ E) as [[N _]|[d' [Ed [H0 [Hm Hi]]]]];
        [discriminate N|].
      injection Ed as <-. split; [exact H0|].
      exists indent. split; [exact E|]. split; [exact Hi|]. split; [|reflexivity].
      rewrite Hi, length_repeat_nat. cbn [length]. lia.
    + rewrite (formatComment_throws _ _ E) in Hm. discriminate Hm.
  - intros H0 F. pose proof (fits_indent d commentData H0 F) as Hm.
    pose proof (indent_fits d H0 Hm) as E.
    eexists. split; [exact E|]. split; [reflexivity|]. split.
    + rewrite length_repeat_nat. cbn [length]. lia.
    + apply formatComment_block. now rewrite Hd.
Qed.

Lemma formatComment_indent_witness :
  exists indent,
    JS.repeat "  " (JS.mul (JS.Int 1) (JS.Int 2)) = JS.Normal indent /\
    indent = JS.repeat_nat "  " (Z.to_nat (1 * 2)) /\
    Z.of_nat (length indent) = 1 * 4 /\
    MarkdownUtils.formatComment
      {| CommentData.author := JS.Str "carol"; CommentData.score := JS.Str "2";
         CommentData.content := "Re: hi"; CommentData.depth := JS.Int 1 |}
    = JS.Normal
        ((indent ++ "- **u/" ++ "carol" ++ "** (*" ++ "2" ++ " points*):" ++ LF)
           ++ indent ++ "  > "
           ++ JS.replaceNewlines "Re: hi" (LF ++ indent ++ "  > ")
           ++ LF ++ LF).
Proof.
  apply (proj2 (proj2 (formatComment_indent
                         {| CommentData.author := JS.Str "carol";
                            CommentData.score := JS.Str "2";
                            CommentData.content := "Re: hi";
                            CommentData.depth := JS.Int 1 |} 1 eq_refl))).
  - lia.
  - reflexivity.
Defined.

(** A negative depth makes the renderer throw. *)
Lemma formatComment_negative_depth (commentData : CommentData.t) :
  JS.isNegative (CommentData.depth commentData) = true ->
  MarkdownUtils.formatComment commentData = JS.Throw JS.RangeError.
Proof.
  intros H. apply formatComment_throws, repeat_negative.
  now rewrite mul_two_isNegative.
Qed.

(** And so does an infinite one. *)
Lemma formatComment_infinite_depth (commentData : CommentData.t) negative :
  CommentData.depth commentData = JS.Infinity negative ->
  MarkdownUtils.formatComment commentData = JS.Throw JS.RangeError.
Proof.
  intros H. apply formatComment_throws. rewrite H. reflexivity.
Qed.

(** The depth of an extracted record is what [parseInt] reads, 0 for [NaN]. *)
Lemma extracted_depth c r :
  commentDataOf c = Some r ->
  CommentData.depth r
  = JS.orZero (JS.parseInt (DOM.getAttribute (DOM.commentAttributes c) "depth")).
Proof.
  unfold commentDataOf.
  destruct (JS.toBoolean _); [|discriminate].
  destruct (DOM.contentElement c); [|discriminate].
  intros H. injection H as <-. reflexivity.
Qed.

(** An absent depth attribute reads as 0. *)
Lemma extracted_depth_absent c r :
  commentDataOf c = Some r ->
  DOM.getAttribute (DOM.commentAttributes c) "depth" = JS.null ->
  CommentData.depth r = JS.Int 0.
Proof.
  intros H E. rewrite (extracted_depth c r H), E. reflexivity.
Qed.

(** C9 at the failing input: a comment element with [depth="-1"] is
    extracted with depth [-1]; formatting it throws [RangeError], and the run
    on a page holding it ends with that exception and no download. *)
Theorem negative_depth_aborts_run :
  fst (CommentExtractor.extractCommentData Sample.negativeDepth (Sample.page None))
  = JS.Normal (Some {| CommentData.author := JS.Str "bob";
                       CommentData.score := JS.Str "5";
                       CommentData.content := "Hi";
                       CommentData.depth := JS.Int (-1) |}) /\
  MarkdownUtils.formatComment
    {| CommentData.author := JS.Str "bob"; CommentData.score := JS.Str "5";
       CommentData.content := "Hi"; CommentData.depth := JS.Int (-1) |}
  = JS.Throw JS.RangeError /\
  fst (scrapeThread (Sample.page (Some [Sample.bob; Sample.negativeDepth])))
  = JS.Throw JS.RangeError /\
  downloads (snd (scrapeThread (Sample.page (Some [Sample.bob; Sample.negativeDepth]))))
  = [].
Proof. by_computation. Qed.

Lemma formatAll_throws commentsData r :
  In r commentsData ->
  MarkdownUtils.formatComment r = JS.Throw JS.RangeError ->
  formatAll commentsData = JS.Throw JS.RangeError.
Proof.
  induction commentsData as [|r0 rest IH]; intros Hin Hr; [contradiction|].
  cbn [formatAll].
  destruct (MarkdownUtils.formatComment r0) as [s|[]] eqn:E; [|reflexivity].
  destruct Hin as [->|Hin].
  - rewrite Hr in E. discriminate E.
  - now rewrite IH.
Qed.

Lemma formatAll_negative_depth commentsData r :
  In r commentsData -> JS.isNegative (CommentData.depth r) = true ->
  formatAll commentsData = JS.Throw JS.RangeError.
Proof.
  intros Hin Hneg. apply (formatAll_throws _ r Hin).
  now apply formatComment_negative_depth.
Qed.

Lemma commentsDataOf_In comments c r :
  In c comments -> commentDataOf c = Some r -> In r (commentsDataOf comments).
Proof.
  induction comments as [|c0 rest IH]; intros Hin Hr; [contradiction|].
  cbn [commentsDataOf]. destruct Hin as [->|Hin].
  - rewrite Hr. now left.
  - destruct (commentDataOf c0); [right|]; auto.
Qed.

(** In general: one extracted comment of negative depth anywhere in the tree
    makes the whole run end with [RangeError], and nothing is downloaded. *)
Lemma negative_depth_run_throws h p c r :
  DOM.shredditPost (document h) = Some p ->
  In c (commentElements (document h)) ->
  commentDataOf c = Some r ->
  JS.isNegative (CommentData.depth r) = true ->
  fst (scrapeThread h) = JS.Throw JS.RangeError /\
  downloads (snd (scrapeThread h)) = downloads h.
Proof.
  intros Hp Hin Hr Hneg.
  pose proof (scrapeThread_runs h) as R. unfold outcome, renderThread in R.
  rewrite Hp in R.
  rewrite (formatAll_negative_depth _ r (commentsDataOf_In _ c r Hin Hr) Hneg) in R.
  split.
  - apply (runs_completion _ _ _ _ R).
  - apply (runs_downloads _ _ _ _ R).
Qed.

(** The two comments of the specification's example keep their order; the
    first is not indented, the second by four characters. *)
Example two_comments_in_order :
  formatAll (commentsDataOf [Sample.bob; Sample.carol])
  = JS.Normal ("- **u/bob** (*5 points*):" ++ LF
               ++ "  > Hi" ++ LF ++ LF
               ++ "    - **u/carol** (*2 points*):" ++ LF
               ++ "      > Re: hi" ++ LF ++ LF).
Proof. vm_compute. reflexivity. Qed.

(** C2, as the specification states it, fails on a comment without score
    attribute: the extracted score is [null], not 0, and the rendered bullet
    line reads [null points]. *)
Lemma missing_score_counterexample :
  DOM.getAttribute (DOM.commentAttributes Sample.noScore) "score" = JS.null /\
  fst (CommentExtractor.extractCommentData Sample.noScore (Sample.page None))
  = JS.Normal (Some {| CommentData.author := JS.Str "bob";
                       CommentData.score := JS.null;
                       CommentData.content := "Hi";
                       CommentData.depth := JS.Int 0 |}) /\
  JS.null <> JS.Num (JS.Int 0) /\
  MarkdownUtils.formatComment
    {| CommentData.author := JS.Str "bob"; CommentData.score := JS.null;
       CommentData.content := "Hi"; CommentData.depth := JS.Int 0 |}
  = JS.Normal ("- **u/bob** (*null points*):" ++ LF ++ "  > Hi" ++ LF ++ LF).
Proof.
  split; [vm_compute; reflexivity|]. split; [vm_compute; reflexivity|].
  split; [discriminate | vm_compute; reflexivity].
Qed.

(** A score attribute that is not a number is kept and rendered as it is. *)
Lemma non_numeric_score_kept :
  let c := Sample.comment [("author", "bob"); ("score", "many")] (Some "Hi") in
  fst (CommentExtractor.extractCommentData c (Sample.page None))
  = JS.Normal (Some {| CommentData.author := JS.Str "bob";
                       CommentData.score := JS.Str "many";
                       CommentData.content := "Hi";
                       CommentData.depth := JS.Int 0 |}) /\
  MarkdownUtils.formatComment
    {| CommentData.author := JS.Str "bob"; CommentData.score := JS.Str "many";
       CommentData.content := "Hi"; CommentData.depth := JS.Int 0 |}
  = JS.Normal ("- **u/bob** (*many points*):" ++ LF ++ "  > Hi" ++ LF ++ LF).
Proof. by_computation. Qed.

Lemma extracted_score c r :
  commentDataOf c = Some r ->
  CommentData.score r = DOM.getAttribute (DOM.commentAttributes c) "score".
Proof.
  unfold commentDataOf.
  destruct (JS.toBoolean _); [|discriminate].
  destruct (DOM.contentElement c); [|discriminate].
  intros H. injection H as <-. reflexivity.
Qed.

(** Whether an element is kept does not depend on its score attribute. *)
Lemma kept_whatever_score c :
  (exists r, commentDataOf c = Some r) <->
  JS.toBoolean (DOM.getAttribute (DOM.commentAttributes c) "author") = true /\
  DOM.contentElement c <> None.
Proof.
  unfold commentDataOf.
  destruct (JS.toBoolean _); destruct (DOM.contentElement c); split;
    try (intros [r H]; discriminate H); try (intros [H1 H2]; congruence).
  - intros _. split; [reflexivity | discriminate].
  - intros _. eexists; reflexivity.
Qed.

Lemma formatComment_bullet r indent :
  JS.repeat "  " (JS.mul (CommentData.depth r) (JS.Int 2)) = JS.Normal indent ->
  MarkdownUtils.formatComment r
  = JS.Normal (indent ++ "- **u/" ++ JS.toString (CommentData.author r)
                      ++ "** (*" ++ JS.toString (CommentData.score r)
                      ++ " points*):" ++ LF
                      ++ indent ++ "  > "
                      ++ JS.replaceNewlines (CommentData.content r)
                                            (LF ++ indent ++ "  > ")
                      ++ LF ++ LF).
Proof.
  intros E. unfold MarkdownUtils.formatComment. rewrite E. cbv zeta.
  now rewrite !append_assoc.
Qed.

(** C2 (amended).  Extracting a comment never fails, whatever its score
    attribute is.  The score of the record is the score attribute as it
    stands, [null] when the attribute is absent: it is neither parsed nor
    defaulted, and it has no part in whether the element is kept.  The bullet
    line shows it converted to a string, an absent score as [null]. *)
Theorem comment_score_is_raw_attribute (c : DOM.ShredditComment) (h : Host) :
  exists data h',
    CommentExtractor.extractCommentData c h = (JS.Normal data, h') /\
    ((exists r, data = Some r) <->
     JS.toBoolean (DOM.getAttribute (DOM.commentAttributes c) "author") = true /\
     DOM.contentElement c <> None) /\
    forall r, data = Some r ->
      CommentData.score r = DOM.getAttribute (DOM.commentAttributes c) "score" /\
      forall markdown, MarkdownUtils.formatComment r = JS.Normal markdown ->
        exists indent rest,
          markdown = indent ++ "- **u/" ++ JS.toString (CommentData.author r)
                            ++ "** (*"
                            ++ JS.toString
                                 (DOM.getAttribute (DOM.commentAttributes c) "score")
                            ++ " points*):" ++ LF ++ rest.
Proof.
  destruct (extractCommentData_runs c h) as [es H].
  exists (commentDataOf c), (after es [] h). split; [exact H|].
  split; [apply kept_whatever_score|].
  intros r Hr. split; [now apply extracted_score|].
  intros markdown Hm. rewrite <- (extracted_score c r Hr).
  destruct (JS.repeat "  " (JS.mul (CommentData.depth r) (JS.Int 2)))
    as [indent|e] eqn:E.
  - rewrite (formatComment_bullet r indent E) in Hm.
    exists indent,
      (indent ++ "  > "
              ++ JS.replaceNewlines (CommentData.content r) (LF ++ indent ++ "  > ")
              ++ LF ++ LF).
    injection Hm as Hm. symmetry. exact Hm.
  - unfold MarkdownUtils.formatComment in Hm. rewrite E in Hm. discriminate Hm.
Qed.
(* ================================================================== *)
(** * The file name *)
(* ================================================================== *)

Lemma afterLine_line l r :
  singleLine l = true -> atLineEnd r = true -> FileUtils.afterLine (l ++ r) = r.
Proof.
  intros Hl Hr. induction l as [|c l IH]; simpl in *.
  - destruct r as [|c r]; simpl in *; [reflexivity | now rewrite Hr].
  - apply andb_prop in Hl as [Hc Hl].
    destruct (JS.isLineTerminator c); [discriminate | auto].
Qed.

(** The first regular expression cuts at the first [ : r/], as [index]
    finds it. *)
Lemma stripSubreddit_first p : forall s,
  index 0 FileUtils.marker (p ++ FileUtils.marker ++ s) = Some (length p) ->
  FileUtils.stripSubreddit (p ++ FileUtils.marker ++ s) = p ++ FileUtils.afterLine s.
Proof.
  induction p as [|c p IH]; intros s H.
  - destruct s; reflexivity.
  - change ((String c p) ++ FileUtils.marker ++ s)
      with (String c (p ++ FileUtils.marker ++ s)) in *.
    cbn [index FileUtils.stripSubreddit] in *.
    destruct (prefix FileUtils.marker (String c (p ++ FileUtils.marker ++ s))).
    + discriminate H.
    + destruct (index 0 FileUtils.marker (p ++ FileUtils.marker ++ s)) as [n|] eqn:E;
        [|discriminate H].
      injection H as H. subst n. now rewrite (IH s E).
Qed.

Lemma stripSubreddit_none t :
  index 0 FileUtils.marker t = None -> FileUtils.stripSubreddit t = t.
Proof.
  induction t as [|c t IH]; intros H; [reflexivity|].
  cbn [index FileUtils.stripSubreddit] in *.
  destruct (prefix FileUtils.marker (String c t)); [discriminate H|].
  destruct (index 0 FileUtils.marker t); [discriminate H|].
  now rewrite IH.
Qed.

Lemma lowerChar_sanitized c :
  JS.lowerChar (if JS.isAlnum c then c else "_"%char)
  = (fun c => if JS.between 65 90 c then ascii_of_N (JS.code c + 32) else c)
      (if Spec.isAsciiLetter c || Spec.isAsciiDigit c then c else "_"%char).
Proof.
  destruct c as [[] [] [] [] [] [] [] []]; reflexivity.
Qed.

(** On what the second replacement leaves, [toLowerCase] only touches the
    letters [A] to [Z]. *)
Lemma toLowerCase_sanitize s :
  JS.toLowerCase (FileUtils.sanitize s) = Spec.lowercase (Spec.replaceOthers s).
Proof.
  unfold JS.toLowerCase, FileUtils.sanitize, Spec.lowercase, Spec.replaceOthers.
  induction s as [|c s IH]; [reflexivity|].
  cbn [JS.map]. rewrite IH. f_equal. apply lowerChar_sanitized.
Qed.

Lemma singleLine_afterLine s : singleLine s = true -> FileUtils.afterLine s = "".
Proof.
  intros H. rewrite <- (append_nil_r s) at 1. now apply afterLine_line.
Qed.

Lemma stripSuffix_last p : forall s,
  index 0 FileUtils.marker (p ++ FileUtils.marker ++ s) = Some (length p) ->
  Spec.occurs Spec.suffixStart s = false ->
  Spec.stripSuffix (p ++ FileUtils.marker ++ s) = p.
Proof.
  induction p as [|c p IH]; intros s H Hs.
  - cbn. destruct s as [|c s]; [reflexivity|].
    cbn in Hs. apply orb_false_elim in Hs as [Hs1 Hs2].
    cbn. rewrite Hs1, Hs2. reflexivity.
  - change ((String c p) ++ FileUtils.marker ++ s)
      with (String c (p ++ FileUtils.marker ++ s)) in *.
    cbn [index Spec.stripSuffix] in *.
    change Spec.suffixStart with FileUtils.marker in *.
    destruct (prefix FileUtils.marker (String c (p ++ FileUtils.marker ++ s))).
    + discriminate H.
    + destruct (index 0 FileUtils.marker (p ++ FileUtils.marker ++ s)) as [n|] eqn:E;
        [|discriminate H].
      injection H as H. subst n. cbn [andb]. now rewrite (IH s E Hs).
Qed.

Lemma stripSuffix_none t :
  index 0 FileUtils.marker t = None -> Spec.stripSuffix t = t.
Proof.
  induction t as [|c t IH]; intros H; [reflexivity|].
  cbn [index Spec.stripSuffix] in *.
  change Spec.suffixStart with FileUtils.marker in *.
  destruct (prefix FileUtils.marker (String c t)); [discriminate H|].
  destruct (index 0 FileUtils.marker t); [discriminate H|].
  cbn [andb]. now rewrite IH.
Qed.

(** On a one-line title with a single [ : r/] the script computes the
    reference name. *)
Lemma filename_reference_one_suffix p s :
  index 0 FileUtils.marker (p ++ FileUtils.marker ++ s) = Some (length p) ->
  Spec.occurs Spec.suffixStart s = false ->
  singleLine s = true ->
  FileUtils.filename (p ++ FileUtils.marker ++ s)
  = Spec.deriveFilename (p ++ FileUtils.marker ++ s).
Proof.
  intros H Hs Hl. unfold FileUtils.filename, FileUtils.threadTitle, Spec.deriveFilename.
  rewrite stripSubreddit_first, stripSuffix_last by assumption.
  rewrite singleLine_afterLine, append_nil_r by assumption.
  now rewrite toLowerCase_sanitize.
Qed.

Lemma filename_reference_no_suffix t :
  index 0 FileUtils.marker t = None ->
  FileUtils.filename t = Spec.deriveFilename t.
Proof.
  intros H. unfold FileUtils.filename, FileUtils.threadTitle, Spec.deriveFilename.
  rewrite stripSubreddit_none, stripSuffix_none by assumption.
  now rewrite toLowerCase_sanitize.
Qed.

Lemma lowerChar_nameChar c :
  isNameChar (JS.lowerChar (if JS.isAlnum c then c else "_"%char)) = true.
Proof.
  destruct c as [[] [] [] [] [] [] [] []]; reflexivity.
Qed.

(** Whatever the title, the name is made of lower-case letters, digits and
    underscores, followed by [.md]. *)
Lemma threadTitle_nameChars title :
  forall c, In c (list_ascii_of_string (FileUtils.threadTitle title)) ->
            isNameChar c = true.
Proof.
  unfold FileUtils.threadTitle, JS.toLowerCase, FileUtils.sanitize.
  induction (FileUtils.stripSubreddit title) as [|c0 s IH]; intros c Hin;
    [contradiction|].
  cbn in Hin. destruct Hin as [<-|Hin]; [apply lowerChar_nameChar | auto].
Qed.





(** A title without white space to strip or collapse is returned as it
    is. *)
Example title_unchanged :
  DOM.title (document (Sample.page None)) = "Hello World : r/test" /\
  DOM.title (document (Sample.titled (Some ("  My" ++ LF ++ " Thread  "))))
  = "My Thread" /\
  DOM.title (document (Sample.titled None)) = "".
Proof. repeat split; reflexivity. Qed.



(* ================================================================== *)
(** * Comments that cannot be extracted *)
(* ================================================================== *)

Lemma querySelectorAll_app before behind :
  DOM.querySelectorAll (before ++ behind)
  = (DOM.querySelectorAll before ++ DOM.querySelectorAll behind)%list.
Proof. apply flat_map_app. Qed.

Lemma commentsDataOf_app before behind :
  commentsDataOf (before ++ behind) = (commentsDataOf before ++ commentsDataOf behind)%list.
Proof.
  induction before as [|c before IH]; simpl; [reflexivity|].
  destruct (commentDataOf c); simpl; now rewrite IH.
Qed.

Lemma commentsDataOf_dropped c before behind :
  commentDataOf c = None ->
  commentsDataOf (before ++ c :: behind) = commentsDataOf (before ++ behind).
Proof.
  intros H. rewrite !commentsDataOf_app. simpl. now rewrite H.
Qed.

Lemma commentDataOf_Some c r :
  commentDataOf c = Some r ->
  JS.toBoolean (DOM.getAttribute (DOM.commentAttributes c) "author") = true /\
  DOM.contentElement c <> None.
Proof.
  intros H. apply kept_whatever_score. now exists r.
Qed.

Lemma commentDataOf_None c :
  DOM.getAttribute (DOM.commentAttributes c) "author" = JS.null \/
  DOM.contentElement c = None ->
  commentDataOf c = None.
Proof.
  unfold commentDataOf. intros [H|H]; rewrite H; [reflexivity|].
  now destruct (JS.toBoolean _).
Qed.

Lemma outcome_withComments h comments :
  commentsDataOf (commentElements (document h))
  = commentsDataOf (DOM.querySelectorAll comments) ->
  outcome (document (withComments comments h)) = outcome (document h).
Proof.
  intros H. unfold outcome, filenameOf, DOM.title.
  cbn [withComments document DOM.shredditPost DOM.titleElement].
  destruct (DOM.shredditPost (document h)) as [p|]; [|reflexivity].
  unfold commentElements at 1. cbn [DOM.commentTree]. now rewrite H.
Qed.

(** An element for which the search finds no body content node, or which
    has no author, is answered with [null] without an exception; among
    elements without replies, a run on the page gives the same completion
    and the same download as a run on the page without that element. *)
Lemma unextractable_comment_dropped (c : DOM.ShredditComment) :
  DOM.getAttribute (DOM.commentAttributes c) "author" = JS.null \/
  DOM.contentElement c = None ->
  (forall h, exists h',
      CommentExtractor.extractCommentData c h = (JS.Normal None, h') /\
      document h' = document h /\ downloads h' = downloads h) /\
  (DOM.descendants c = [] ->
   forall h before behind,
     DOM.commentTree (document h) = Some (before ++ c :: behind)%list ->
     fst (scrapeThread h) = fst (scrapeThread (withComments (before ++ behind) h)) /\
     downloads (snd (scrapeThread h))
     = downloads (snd (scrapeThread (withComments (before ++ behind) h)))).
Proof.
  intros Hc. apply commentDataOf_None in Hc. split.
  - intros h. destruct (extractCommentData_runs c h) as [es E].
    rewrite Hc in E. exists (after es [] h). now rewrite E.
  - intros Hleaf h before behind Ht.
    assert (Hsame : commentsDataOf (commentElements (document h))
                    = commentsDataOf (DOM.querySelectorAll (before ++ behind))).
    { unfold commentElements. rewrite Ht. rewrite !querySelectorAll_app.
      change (DOM.querySelectorAll (c :: behind))
        with (c :: DOM.descendants c ++ DOM.querySelectorAll behind)%list.
      rewrite Hleaf. now apply commentsDataOf_dropped. }
    split.
    + rewrite (runs_completion _ _ _ _ (scrapeThread_runs h)).
      rewrite (runs_completion _ _ _ _ (scrapeThread_runs (withComments _ h))).
      now rewrite outcome_withComments.
    + rewrite (runs_downloads _ _ _ _ (scrapeThread_runs h)).
      rewrite (runs_downloads _ _ _ _ (scrapeThread_runs (withComments _ h))).
      now rewrite outcome_withComments.
Qed.

(** The specification's example: the element without body leaves no trace
    in the document, and the blocks of its neighbours are unchanged. *)
Example dropped_comment_rendering :
  downloads (snd (scrapeThread (Sample.page (Some [Sample.bob; Sample.noBody; Sample.carol]))))
  = [{| download := "hello_world.md";
        blob := markdownBlob
                  (Sample.helloWorldMarkdown
                   ++ "- **u/bob** (*5 points*):" ++ LF
                   ++ "  > Hi" ++ LF ++ LF
                   ++ "    - **u/carol** (*2 points*):" ++ LF
                   ++ "      > Re: hi" ++ LF ++ LF) |}].
Proof. vm_compute. reflexivity. Qed.

(** C7 at the failing input: a comment element with an author and no body
    content node of its own that holds a reply.  The query for the body
    searches all descendants and finds the body of the reply, so the
    element is not dropped: it is extracted with the text of the reply, and
    the document shows that text twice, in both revisions.  In the
    monolithic revision, moreover, an element without author whose depth is
    negative ends the run instead of being dropped. *)
Theorem bodiless_parent_takes_reply_body :
  DOM.childNodes Sample.bodilessParent = [DOM.Reply Sample.carol] /\
  DOM.querySelectorAll [Sample.bodilessParent] = [Sample.bodilessParent; Sample.carol] /\
  DOM.contentElement Sample.bodilessParent = Some "Re: hi" /\
  fst (CommentExtractor.extractCommentData Sample.bodilessParent (Sample.page None))
  = JS.Normal (Some {| CommentData.author := JS.Str "dave";
                       CommentData.score := JS.Str "1";
                       CommentData.content := "Re: hi";
                       CommentData.depth := JS.Int 0 |}) /\
  downloads (snd (scrapeThread (Sample.page (Some [Sample.bodilessParent]))))
  = [{| download := "hello_world.md";
        blob := markdownBlob
                  (Sample.helloWorldMarkdown
                   ++ "- **u/dave** (*1 points*):" ++ LF
                   ++ "  > Re: hi" ++ LF ++ LF
                   ++ "    - **u/carol** (*2 points*):" ++ LF
                   ++ "      > Re: hi" ++ LF ++ LF) |}] /\
  downloads (snd (Legacy.scrapeThread (Sample.page (Some [Sample.bodilessParent]))))
  = downloads (snd (scrapeThread (Sample.page (Some [Sample.bodilessParent])))) /\
  fst (Legacy.scrapeThread
         (Sample.page (Some [Sample.comment [("depth", "-1")] (Some "Hi")])))
  = JS.Throw JS.RangeError.
Proof. by_computation. Qed.
(* ================================================================== *)
(** * Repeated runs *)
(* ================================================================== *)

(** The files of a run, without their names, are determined by the
    records the extraction yields. *)
Lemma same_records_same_markdown h1 h2 p1 p2 :
  DOM.shredditPost (document h1) = Some p1 ->
  DOM.shredditPost (document h2) = Some p2 ->
  postDataOf p1 = postDataOf p2 ->
  commentsDataOf (commentElements (document h1))
  = commentsDataOf (commentElements (document h2)) ->
  fst (outcome (document h1)) = fst (outcome (document h2)) /\
  List.map blob (snd (outcome (document h1)))
  = List.map blob (snd (outcome (document h2))).
Proof.
  intros Hp1 Hp2 Hp Hc. unfold outcome. rewrite Hp1, Hp2, Hp, Hc.
  destruct (renderThread _ _); split; reflexivity.
Qed.

(** C8.  The rendering is a function of the records: two runs whose
    extraction yields the same post record and the same comment records end
    alike and hand over the same text.  What a run computes depends on the
    document alone: runs on hosts that show the same document hand over the
    same files, a run leaves the document as it found it, and running again
    hands over the same files a second time. *)
Theorem scrapeThread_deterministic (h1 h2 : Host) :
  (forall p1 p2,
      DOM.shredditPost (document h1) = Some p1 ->
      DOM.shredditPost (document h2) = Some p2 ->
      fst (PostExtractor.extractPostData (Some p1) h1)
      = fst (PostExtractor.extractPostData (Some p2) h2) ->
      fst (CommentExtractor.extractAllComments h1)
      = fst (CommentExtractor.extractAllComments h2) ->
      fst (scrapeThread h1) = fst (scrapeThread h2) /\
      exists files1 files2,
        downloads (snd (scrapeThread h1)) = (files1 ++ downloads h1)%list /\
        downloads (snd (scrapeThread h2)) = (files2 ++ downloads h2)%list /\
        List.map blob files1 = List.map blob files2) /\
  (document h1 = document h2 ->
   fst (scrapeThread h1) = fst (scrapeThread h2) /\
   document (snd (scrapeThread h1)) = document h1 /\
   exists files,
     downloads (snd (scrapeThread h1)) = (files ++ downloads h1)%list /\
     downloads (snd (scrapeThread h2)) = (files ++ downloads h2)%list /\
     downloads (snd (scrapeThread (snd (scrapeThread h1))))
     = (files ++ files ++ downloads h1)%list).
Proof.
  pose proof (scrapeThread_runs h1) as R1.
  pose proof (scrapeThread_runs h2) as R2.
  split.
  - intros p1 p2 Hp1 Hp2 Hpost Hcomments.
    rewrite (runs_completion _ _ _ _ (extractPostData_runs p1 h1)) in Hpost.
    rewrite (runs_completion _ _ _ _ (extractPostData_runs p2 h2)) in Hpost.
    rewrite (runs_completion _ _ _ _ (extractAllComments_runs h1)) in Hcomments.
    rewrite (runs_completion _ _ _ _ (extractAllComments_runs h2)) in Hcomments.
    assert (Hp : postDataOf p1 = postDataOf p2) by congruence.
    assert (Hc : commentsDataOf (commentElements (document h1))
                 = commentsDataOf (commentElements (document h2))) by congruence.
    destruct (same_records_same_markdown h1 h2 p1 p2 Hp1 Hp2 Hp Hc) as [Hv Hb].
    rewrite (runs_completion _ _ _ _ R1), (runs_completion _ _ _ _ R2).
    split; [exact Hv|].
    exists (snd (outcome (document h1))), (snd (outcome (document h2))).
    rewrite (runs_downloads _ _ _ _ R1), (runs_downloads _ _ _ _ R2). auto.
  - intros Hd.
    pose proof (scrapeThread_runs (snd (scrapeThread h1))) as R3.
    pose proof (runs_document _ _ _ _ R1) as D1.
    rewrite D1 in R3. rewrite <- Hd in R2.
    split; [|split; [exact D1|]].
    + rewrite (runs_completion _ _ _ _ R1). now rewrite (runs_completion _ _ _ _ R2).
    + exists (snd (outcome (document h1))).
      rewrite (runs_downloads _ _ _ _ R3).
      rewrite (runs_downloads _ _ _ _ R1).
      now rewrite (runs_downloads _ _ _ _ R2).
Qed.

Lemma scrapeThread_deterministic_witness :
  fst (scrapeThread (Sample.page (Some [Sample.bob; Sample.carol])))
  = fst (scrapeThread (snd (scrapeThread (Sample.page (Some [Sample.bob; Sample.carol]))))) /\
  document (snd (scrapeThread (Sample.page (Some [Sample.bob; Sample.carol]))))
  = document (Sample.page (Some [Sample.bob; Sample.carol])) /\
  exists files,
    downloads (snd (scrapeThread (Sample.page (Some [Sample.bob; Sample.carol]))))
    = (files ++ downloads (Sample.page (Some [Sample.bob; Sample.carol])))%list /\
    downloads (snd (scrapeThread
                      (snd (scrapeThread (Sample.page (Some [Sample.bob; Sample.carol]))))))
    = (files ++ downloads
                  (snd (scrapeThread (Sample.page (Some [Sample.bob; Sample.carol])))))%list /\
    downloads (snd (scrapeThread
                      (snd (scrapeThread (Sample.page (Some [Sample.bob; Sample.carol]))))))
    = (files ++ files ++ downloads (Sample.page (Some [Sample.bob; Sample.carol])))%list.
Proof.
  apply (proj2 (scrapeThread_deterministic
                  (Sample.page (Some [Sample.bob; Sample.carol]))
                  (snd (scrapeThread (Sample.page (Some [Sample.bob; Sample.carol])))))).
  reflexivity.
Defined.

(** The same page run twice: the two files are identical. *)
Example rerun_same_file :
  downloads (run [Click; Click] Sample.installed)
  = (downloads (run [Click] Sample.installed)
       ++ downloads (run [Click] Sample.installed))%list.
Proof. vm_compute. reflexivity. Qed.

(* ================================================================== *)
(** * The trigger *)
(* ================================================================== *)

Lemma click_starts h button :
  getElementById scrapeButtonId (document h) = Some button ->
  DOM.clickListeners button = [DOM.ScrapeThread] ->
  starts initiated (handle Click) h (JS.Normal tt) (snd (outcome (document h))).
Proof.
  intros Hb Hc. destruct (scrapeThread_outcome h) as [es H]. exists es.
  unfold handle, bind, getDocument. rewrite Hb, Hc.
  cbn [dispatch listenerBody]. unfold bind, settle. rewrite H. reflexivity.
Qed.

Lemma clicks_run h button :
  getElementById scrapeButtonId (document h) = Some button ->
  DOM.clickListeners button = [DOM.ScrapeThread] ->
  forall n,
    document (run (List.repeat Click n) h) = document h /\
    downloads (run (List.repeat Click n) h)
    = (List.concat (List.repeat (snd (outcome (document h))) n) ++ downloads h)%list.
Proof.
  intros Hb Hc n. revert h Hb.
  induction n as [|n IH]; intros h Hb; [split; reflexivity|].
  cbn [List.repeat run].
  destruct (click_starts h button Hb Hc) as [es H]. rewrite H. cbn [snd].
  destruct (IH (after (es ++ [initiated]) (snd (outcome (document h))) h) Hb)
    as [IHd IHf].
  cbn [after document] in IHd, IHf. split; [exact IHd|].
  rewrite IHf. cbn [downloads List.concat].
  clear. induction n as [|n IHn]; cbn [List.repeat List.concat].
  - now rewrite app_nil_r.
  - rewrite <- !app_assoc. f_equal. rewrite !app_assoc in *. now rewrite IHn.
Qed.

(** Two clicks in a row: two runs, two files. *)
Example two_clicks_two_files :
  List.length (downloads (run [Click; Click] Sample.installed)) = 2%nat /\
  runsStarted (run [Click; Click] Sample.installed) = 2%nat.
Proof. by_computation. Qed.

(** The one guard of the script sits in the timer callback: it keeps a
    second button from being added. *)
Lemma timer_with_button h button :
  getElementById scrapeButtonId (document h) = Some button ->
  handle Timer h
  = (JS.Normal tt,
     after [Console.log "Scrape button already exists. No action taken.";
            Console.log "Timer finished. Checking for existing button..."] [] h).
Proof.
  intros Hb. unfold handle, onTimer, bind, getDocument. cbn. now rewrite Hb.
Qed.

Example button_added_once :
  option_map (@List.length DOM.Button)
    (match DOM.shredditPost (document (run [Load; Timer; Timer] (start (Sample.page None)))) with
     | Some p => DOM.creditBar p
     | None => None
     end) = Some 1%nat.
Proof. reflexivity. Qed.
(* ================================================================== *)
(** * The post: fallback of the fields, rendering *)
(* ================================================================== *)

(** C10.  Each of title, author, subreddit and score of the extracted post
    is the typed property when that is truthy and the string attribute
    otherwise, also when the typed property is present and falsy: a typed
    score of 0 or a typed title [""] gives way to the attribute. *)
Theorem post_field_falls_back_when_falsy (p : DOM.ShredditPost) (h : Host) :
  exists postData h',
    PostExtractor.extractPostData (Some p) h = (JS.Normal (Some postData), h') /\
    PostData.title postData
    = (if JS.toBoolean (DOM.postTitle p) then DOM.postTitle p
       else DOM.getAttribute (DOM.postAttributes p) "post-title") /\
    PostData.author postData
    = (if JS.toBoolean (DOM.author p) then DOM.author p
       else DOM.getAttribute (DOM.postAttributes p) "author") /\
    PostData.subreddit postData
    = (if JS.toBoolean (DOM.subredditName p) then DOM.subredditName p
       else DOM.getAttribute (DOM.postAttributes p) "subreddit-name") /\
    PostData.score postData
    = (if JS.toBoolean (DOM.score p) then DOM.score p
       else DOM.getAttribute (DOM.postAttributes p) "score") /\
    (DOM.score p = JS.Num (JS.Int 0) ->
     PostData.score postData = DOM.getAttribute (DOM.postAttributes p) "score") /\
    (DOM.postTitle p = JS.Str "" ->
     PostData.title postData = DOM.getAttribute (DOM.postAttributes p) "post-title").
Proof.
  destruct (extractPostData_runs p h) as [es H].
  exists (postDataOf p), (after es [] h). split; [exact H|].
  unfold postDataOf, JS.or. cbn [PostData.title PostData.author PostData.subreddit
                                   PostData.score].
  repeat split; try reflexivity; intros E; rewrite E; reflexivity.
Qed.

(** The sample post element has the typed score 0 and the score attribute
    ["10"]: the record holds the attribute. *)
Example post_score_zero_falls_back :
  fst (PostExtractor.extractPostData (Some Sample.post) (Sample.page None))
  = JS.Normal (Some Sample.helloWorld).
Proof. reflexivity. Qed.



(** A body that is not empty is followed by a blank line. *)
Example post_with_body :
  renderThread
    {| PostData.title := JS.Str "T"; PostData.author := JS.Str "a";
       PostData.subreddit := JS.Str "s"; PostData.score := JS.Str "1";
       PostData.content := "Body" |} []
  = JS.Normal ("# T" ++ LF ++ LF ++ "**Subreddit:** r/s" ++ LF ++ "**Author:** u/a" ++ LF
               ++ "**Score:** 1" ++ LF ++ LF ++ "Body" ++ LF ++ LF
               ++ "---" ++ LF ++ LF ++ "## Comments" ++ LF ++ LF).
Proof. reflexivity. Qed.

(* ================================================================== *)
(** * A page without comment tree *)
(* ================================================================== *)

Section Logs.

Context {A B : Type}.

Lemma logs_bind_left e (m : M A) (k : A -> M B) h a ds1 v ds2 :
  logs e m h (JS.Normal a) ds1 ->
  (forall h1, document h1 = document h -> runs (k a) h1 v ds2) ->
  logs e (bind m k) h v (ds2 ++ ds1).
Proof.
  intros [es1 [Hin H1]] Hk.
  destruct (Hk (after es1 ds1 h) eq_refl) as [es2 H2].
  exists (es2 ++ es1)%list. split; [apply in_or_app; now right|].
  unfold bind. rewrite H1, H2. now rewrite after_after.
Qed.

Lemma logs_bind_right e (m : M A) (k : A -> M B) h a v ds :
  runs m h (JS.Normal a) [] ->
  (forall h1, document h1 = document h -> logs e (k a) h1 v ds) ->
  logs e (bind m k) h v ds.
Proof.
  intros [es1 H1] Hk.
  destruct (Hk (after es1 [] h) eq_refl) as [es2 [Hin H2]].
  exists (es2 ++ es1)%list. split; [apply in_or_app; now left|].
  unfold bind. rewrite H1, H2. rewrite after_after. now rewrite app_nil_r.
Qed.

End Logs.

Lemma extractAllComments_no_tree h :
  DOM.commentTree (document h) = None ->
  CommentExtractor.extractAllComments h = (JS.Normal [], after [noCommentTree] [] h).
Proof.
  intros H. unfold CommentExtractor.extractAllComments, DOMUtils.querySelector, bind.
  cbn. rewrite H. reflexivity.
Qed.

Ltac skip_with lem Hd :=
  eapply logs_bind_right;
  [ apply lem
  | let h' := fresh "h" in
    let S := fresh "S" in
    intros h' S; try rewrite Hd in *; clear Hd; rename S into Hd ].

Lemma scrapeThread_no_tree h p :
  DOM.shredditPost (document h) = Some p ->
  DOM.commentTree (document h) = None ->
  logs noCommentTree scrapeThread h (JS.Normal tt)
       [{| download := filenameOf (document h);
           blob := markdownBlob
                     (MarkdownUtils.formatPostHeader (postDataOf p)
                      ++ bodyParagraph (PostData.content (postDataOf p))
                      ++ separator) |}].
Proof.
  remember (document h) as d eqn:Hd. symmetry in Hd. intros Hp Ht.
  unfold scrapeThread. do 2 skip_with runs_emit Hd.
  skip_with (@querySelector_runs DOM.ShredditPost) Hd. simpl DOM.querySelector.
  rewrite Hp. skip_with extractPostData_runs Hd. cbv zeta.
  do 2 skip_with runs_emit Hd.
  rewrite <- (app_nil_r [_]).
  eapply logs_bind_left.
  { exists [noCommentTree]. split; [now left|].
    apply extractAllComments_no_tree. now rewrite Hd. }
  intros h8 S. rewrite Hd in S. clear Hd. rename S into Hd.
  eapply runs_seq.
  { rewrite post_markdown. apply (formatEach_runs []). }
  intros h9 S. rewrite Hd in S. clear Hd. rename S into Hd. cbn [formatAll].
  rewrite append_nil_r.
  do 2 log_in Hd. step_with generateFilename_runs Hd.
  do 2 log_in Hd.
  rewrite <- (app_nil_l [_]).
  eapply runs_bind; [apply downloadMarkdown_runs|].
  intros; log_step.
Qed.

(** C1, as the specification states it, fails on the sample page without
    comment tree: the extraction answers the empty array, the run completes
    and the document with the post and no comment is downloaded. *)
Lemma missing_comment_tree_counterexample :
  DOM.commentTree (document (Sample.page None)) = None /\
  fst (CommentExtractor.extractAllComments (Sample.page None)) = JS.Normal [] /\
  fst (scrapeThread (Sample.page None)) = JS.Normal tt /\
  downloads (snd (scrapeThread (Sample.page None)))
  = [{| download := "hello_world.md";
        blob := markdownBlob Sample.helloWorldMarkdown |}].
Proof. repeat split; reflexivity. Qed.

(** C1 (amended).  On a page with the post element and without comment
    tree, the extraction of the comments writes an error to the console and
    answers the empty array.  The run is not aborted: it completes, its
    console holds that error, and it hands over one document, made of the
    post and the separator block, with no comment. *)
Theorem missing_comment_tree_empty_thread (h : Host) (p : DOM.ShredditPost) :
  DOM.shredditPost (document h) = Some p ->
  DOM.commentTree (document h) = None ->
  CommentExtractor.extractAllComments h
  = (JS.Normal [], after [noCommentTree] [] h) /\
  exists es,
    In noCommentTree es /\
    scrapeThread h
    = (JS.Normal tt,
       after es
         [{| download := filenameOf (document h);
             blob := markdownBlob
                       (MarkdownUtils.formatPostHeader (postDataOf p)
                        ++ bodyParagraph (PostData.content (postDataOf p))
                        ++ separator) |}] h).
Proof.
  intros Hp Ht. split.
  - now apply extractAllComments_no_tree.
  - now apply scrapeThread_no_tree.
Qed.

Lemma missing_comment_tree_empty_thread_witness :
  CommentExtractor.extractAllComments (Sample.page None)
  = (JS.Normal [], after [noCommentTree] [] (Sample.page None)).
Proof.
  apply (missing_comment_tree_empty_thread (Sample.page None) Sample.post);
    reflexivity.
Defined.

(* ================================================================== *)
(** * The monolithic revision against the modular one *)
(* ================================================================== *)

Lemma commentDataOf_depth c r : commentDataOf c = Some r -> CommentData.depth r = depthOf c.
Proof. apply extracted_depth. Qed.

Lemma processComment_runs c h : runs (Legacy.processComment c) h (legacyBlock c) [].
Proof.
  unfold Legacy.processComment, legacyBlock.
  change (JS.orZero (JS.parseInt (DOM.getAttribute (DOM.commentAttributes c) "depth")))
    with (depthOf c).
  destruct (JS.repeat "  " (JS.mul (depthOf c) (JS.Int 2))) as [indent|e] eqn:E.
  - apply runs_seq with (a := indent); [apply runs_eval|]. intros h1 _.
    destruct (commentDataOf c) as [r|] eqn:Hr.
    + pose proof (commentDataOf_depth c r Hr) as Hd.
      unfold MarkdownUtils.formatComment. rewrite Hd, E.
      unfold commentDataOf in Hr.
      destruct (JS.toBoolean _); [|discriminate].
      destruct (DOM.contentElement c); [|discriminate].
      injection Hr as <-. apply runs_ret.
    + unfold commentDataOf in Hr.
      destruct (JS.toBoolean _); destruct (DOM.contentElement c);
        try discriminate; log_step; apply runs_ret.
  - apply runs_bind_throw, runs_eval.
Qed.

Lemma processEach_runs comments : forall i len markdownContent h,
  runs (Legacy.processEach comments i len markdownContent) h
       match legacyBlocks comments with
       | JS.Normal s => JS.Normal (markdownContent ++ s)
       | JS.Throw e => JS.Throw e
       end [].
Proof.
  induction comments as [|c rest IH]; intros i len md h; simpl.
  - rewrite append_nil_r. apply runs_ret.
  - log_step. destruct (legacyBlock c) as [s|e] eqn:E.
    + apply runs_seq with (a := s); [rewrite <- E; apply processComment_runs|].
      intros h2 _. specialize (IH (S i) len (md ++ s) h2).
      destruct (legacyBlocks rest) as [t|e]; [|exact IH].
      now rewrite <- append_assoc.
    + apply runs_bind_throw. rewrite <- E. apply processComment_runs.
Qed.

(** The header the monolithic revision writes is [formatPostHeader] of the
    record the modular one extracts. *)
Lemma legacy_header p :
  ((("" ++ "# " ++ JS.toString (PostData.title (postDataOf p)) ++ LF ++ LF)
      ++ "**Subreddit:** r/" ++ JS.toString (PostData.subreddit (postDataOf p)) ++ LF)
     ++ "**Author:** u/" ++ JS.toString (PostData.author (postDataOf p)) ++ LF)
    ++ "**Score:** " ++ JS.toString (PostData.score (postDataOf p)) ++ LF ++ LF
  = MarkdownUtils.formatPostHeader (postDataOf p).
Proof. reflexivity. Qed.

Lemma legacy_scrapeThread_runs h :
  runs Legacy.scrapeThread h
       (fst (legacyOutcome (document h))) (snd (legacyOutcome (document h))).
Proof.
  remember (document h) as d eqn:Hd. symmetry in Hd.
  unfold legacyOutcome, Legacy.scrapeThread. do 2 log_in Hd.
  step_with runs_getDocument Hd. simpl DOM.querySelector.
  destruct (DOM.shredditPost d) as [p|] eqn:Hp; [|log_step].
  pose proof (processEach_runs (commentElements d) 0 (List.length (commentElements d)))
    as F.
  do 6 log_in Hd. cbv zeta.
  set (header := ((("" ++ "# " ++ _ ++ LF ++ LF) ++ _) ++ _) ++ _).
  assert (Hh : header = MarkdownUtils.formatPostHeader (postDataOf p)) by reflexivity.
  clearbody header. subst header.
  eapply runs_seq with (a := MarkdownUtils.formatPostHeader (postDataOf p) ++ legacyBody p).
  { unfold legacyBody. destruct (DOM.postBody p) as [innerText|].
    - log_step. apply runs_ret.
    - log_step. rewrite append_nil_r. apply runs_ret. }
  intros ? S. rewrite Hd in S. clear Hd. rename S into Hd.
  do 2 log_in Hd. step_with runs_getDocument Hd. simpl DOM.querySelector.
  unfold commentElements in *.
  destruct (DOM.commentTree d) as [comments|] eqn:Ht.
  - specialize (F ((MarkdownUtils.formatPostHeader (postDataOf p) ++ legacyBody p)
                     ++ separator)).
    cbv zeta. destruct (legacyBlocks (DOM.querySelectorAll comments)) as [s|e].
    + replace (MarkdownUtils.formatPostHeader (postDataOf p) ++ legacyBody p
                 ++ separator ++ s)
        with (((MarkdownUtils.formatPostHeader (postDataOf p) ++ legacyBody p)
                 ++ separator) ++ s)
        by now rewrite !append_assoc.
      eapply runs_seq.
      { log_step. eapply runs_seq; [apply F|]. intros ? _. log_step. apply runs_ret. }
      intros ? S. rewrite Hd in S. clear Hd. rename S into Hd.
      log_in Hd. step_with runs_getDocument Hd. do 4 log_in Hd.
      eapply runs_seq; [apply runs_createObjectURL|]. intros ? _.
      do 2 log_step.
      rewrite <- (app_nil_l [_]).
      eapply runs_bind; [apply runs_save|]. intros; log_step.
    + apply runs_bind_throw. log_step. apply runs_bind_throw. apply F.
  - cbn [legacyBlocks]. rewrite append_nil_r.
    replace (MarkdownUtils.formatPostHeader (postDataOf p) ++ legacyBody p ++ separator)
      with ((MarkdownUtils.formatPostHeader (postDataOf p) ++ legacyBody p) ++ separator)
      by now rewrite !append_assoc.
    eapply runs_seq.
    { log_step. apply runs_ret. }
    intros ? S. rewrite Hd in S. clear Hd. rename S into Hd.
    log_in Hd. step_with runs_getDocument Hd. do 4 log_in Hd.
    eapply runs_seq; [apply runs_createObjectURL|]. intros ? _.
    do 2 log_step.
    rewrite <- (app_nil_l [_]).
    eapply runs_bind; [apply runs_save|]. intros; log_step.
Qed.

Lemma legacyBlocks_formatAll comments :
  Forall (fun c => exists d, depthOf c = JS.Int d /\ 0 <= d
                             /\ 4 * d <= JS.maxStringLength) comments ->
  legacyBlocks comments = formatAll (commentsDataOf comments).
Proof.
  induction 1 as [|c rest [d [Hd [H0 Hm]]] _ IH]; [reflexivity|].
  cbn [legacyBlocks commentsDataOf]. unfold legacyBlock.
  rewrite Hd, (indent_fits d H0 Hm).
  destruct (commentDataOf c) as [r|]; cbn [formatAll]; rewrite IH.
  - reflexivity.
  - now destruct (formatAll (commentsDataOf rest)).
Qed.

Lemma legacyBody_bodyParagraph p :
  (forall innerText, DOM.postBody p = Some innerText -> JS.trim innerText <> "") ->
  legacyBody p = bodyParagraph (PostData.content (postDataOf p)).
Proof.
  intros H. unfold legacyBody, bodyParagraph, postDataOf. cbn [PostData.content].
  destruct (DOM.postBody p) as [innerText|]; [|reflexivity].
  specialize (H innerText eq_refl).
  destruct (String.eqb_spec (JS.trim innerText) ""); [contradiction | reflexivity].
Qed.

(** X15.  The two revisions hand over the same file and end alike on every
    page whose post body, if the element exists, is not blank and whose
    comment elements, extracted or not, all have a depth [d] that is not
    negative and an indentation, of [4 * d] characters, that is no longer
    than a string may be. *)
Theorem legacy_agrees (h : Host) :
  (forall p innerText,
      DOM.shredditPost (document h) = Some p ->
      DOM.postBody p = Some innerText -> JS.trim innerText <> "") ->
  Forall (fun c => exists d, depthOf c = JS.Int d /\ 0 <= d
                             /\ 4 * d <= JS.maxStringLength)
         (commentElements (document h)) ->
  fst (Legacy.scrapeThread h) = fst (scrapeThread h) /\
  downloads (snd (Legacy.scrapeThread h)) = downloads (snd (scrapeThread h)).
Proof.
  intros Hbody Hdepth.
  rewrite (runs_completion _ _ _ _ (legacy_scrapeThread_runs h)).
  rewrite (runs_completion _ _ _ _ (scrapeThread_runs h)).
  rewrite (runs_downloads _ _ _ _ (legacy_scrapeThread_runs h)).
  rewrite (runs_downloads _ _ _ _ (scrapeThread_runs h)).
  assert (E : legacyOutcome (document h) = outcome (document h)).
  { unfold legacyOutcome, outcome, renderThread.
    destruct (DOM.shredditPost (document h)) as [p|]; [|reflexivity].
    rewrite legacyBlocks_formatAll by assumption.
    rewrite legacyBody_bodyParagraph by (intros; eapply Hbody; eauto).
    now destruct (formatAll _). }
  now rewrite E.
Qed.

Lemma legacy_agrees_witness :
  fst (Legacy.scrapeThread (Sample.page (Some [Sample.bob; Sample.noBody; Sample.carol])))
  = fst (scrapeThread (Sample.page (Some [Sample.bob; Sample.noBody; Sample.carol]))) /\
  downloads (snd (Legacy.scrapeThread
                    (Sample.page (Some [Sample.bob; Sample.noBody; Sample.carol]))))
  = downloads (snd (scrapeThread
                      (Sample.page (Some [Sample.bob; Sample.noBody; Sample.carol])))).
Proof.
  apply legacy_agrees.
  - intros p innerText Hp Hb. injection Hp as <-. discriminate Hb.
  - change (commentElements _) with [Sample.bob; Sample.noBody; Sample.carol].
    repeat apply Forall_cons; [exists 0 | exists 1 | exists 1 | apply Forall_nil];
      (split; [reflexivity | split; by_comparison]).
Defined.

(** Without comment tree the monolithic revision logs that execution
    stopped and goes on to hand over the document all the same. *)
Example legacy_missing_comment_tree :
  In (Console.error "Execution stopped: Could not find the comment tree.")
     (console (snd (Legacy.scrapeThread (Sample.page None)))) /\
  fst (Legacy.scrapeThread (Sample.page None)) = JS.Normal tt /\
  downloads (snd (Legacy.scrapeThread (Sample.page None)))
  = [{| download := "hello_world.md";
        blob := markdownBlob Sample.helloWorldMarkdown |}].
Proof.
  split; [|by_computation].
  vm_compute. do 8 right. now left.
Qed.

(** Where the revisions part: an element without author and with a
    negative depth is dropped by the modular revision, and makes the
    monolithic one throw before it looks at the author. *)
Example legacy_negative_depth_dropped_element :
  let c := Sample.comment [("depth", "-1")] (Some "Hi") in
  fst (scrapeThread (Sample.page (Some [c]))) = JS.Normal tt /\
  fst (Legacy.scrapeThread (Sample.page (Some [c]))) = JS.Throw JS.RangeError.
Proof. by_computation. Qed.

(** And a body element whose text is blank: the modular revision leaves
    the paragraph out, the monolithic one writes an empty one. *)
Example legacy_blank_body :
  let h :=
    {| document :=
         {| DOM.titleElement := Some "t";
            DOM.shredditPost :=
              Some {| DOM.postTitle := JS.Str "T"; DOM.author := JS.Str "a";
                      DOM.subredditName := JS.Str "s"; DOM.score := JS.Str "1";
                      DOM.postAttributes := []; DOM.postBody := Some "  ";
                      DOM.creditBar := None |};
            DOM.commentTree := Some [] |};
       console := []; downloads := []; objectURL := "" |} in
  List.map (fun f => parts (blob f)) (downloads (snd (scrapeThread h)))
  = ["# T" ++ LF ++ LF ++ "**Subreddit:** r/s" ++ LF ++ "**Author:** u/a" ++ LF
     ++ "**Score:** 1" ++ LF ++ LF ++ "---" ++ LF ++ LF ++ "## Comments" ++ LF ++ LF] /\
  List.map (fun f => parts (blob f)) (downloads (snd (Legacy.scrapeThread h)))
  = ["# T" ++ LF ++ LF ++ "**Subreddit:** r/s" ++ LF ++ "**Author:** u/a" ++ LF
     ++ "**Score:** 1" ++ LF ++ LF ++ LF ++ LF
     ++ "---" ++ LF ++ LF ++ "## Comments" ++ LF ++ LF].
Proof. by_computation. Qed.

(* ================================================================== *)
(** * Reading the depth *)
(* ================================================================== *)

Lemma digits_numeral d : forall z,
  JS.digits (NilEmpty.string_of_uint d) (Some z) = Some (horner d z).
Proof.
  induction d; intros z; cbn [NilEmpty.string_of_uint horner];
    try reflexivity;
    cbn [JS.digits]; change (JS.isDigit _) with true; cbn iota;
    rewrite IHd; f_equal; f_equal;
    unfold JS.digitValue; cbn; lia.
Qed.

Lemma horner_pos d : forall acc,
  horner d (Z.pos acc) = Z.pos (Pos.of_uint_acc d acc).
Proof.
  induction d; intros acc; cbn [horner Pos.of_uint_acc]; try reflexivity;
    rewrite <- IHd; f_equal; lia.
Qed.

Lemma horner_zero d : horner d 0 = Z.of_uint d.
Proof.
  unfold Z.of_uint.
  induction d; cbn [horner Pos.of_uint]; try reflexivity;
    try (change (10 * 0) with 0; exact IHd);
    cbn [Z.mul Z.add]; rewrite horner_pos; reflexivity.
Qed.

(** The digits of a numeral, read from the start. *)
Lemma digits_uint d :
  JS.digits (NilZero.string_of_uint d) None = Some (Z.of_uint d).
Proof.
  rewrite <- horner_zero.
  destruct d; cbn [NilZero.string_of_uint NilEmpty.string_of_uint];
    try reflexivity;
    cbn [JS.digits]; change (JS.isDigit _) with true; cbn iota;
    rewrite digits_numeral; reflexivity.
Qed.

Lemma uint_first_char d :
  exists c s, NilZero.string_of_uint d = String c s /\ JS.isDigit c = true.
Proof.
  destruct d; cbn [NilZero.string_of_uint NilEmpty.string_of_uint];
    eexists; eexists; split; reflexivity.
Qed.

(** [parseInt] reads the decimal numeral of an integer as the double
    nearest to that integer. *)
Lemma parseInt_numeral (z : Z) :
  JS.parseInt (JS.Str (JS.Z_to_string z)) = JS.numberOf z.
Proof.
  rewrite <- (DecimalZ.of_to z) at 2.
  unfold JS.Z_to_string, JS.parseInt. cbn [JS.toString].
  destruct (Z.to_int z) as [d|d]; cbn [NilZero.string_of_int Z.of_int].
  - destruct (uint_first_char d) as [c [s [E D]]].
    pose proof (digits_uint d) as U. rewrite E in *.
    cbn [JS.trimStart].
    assert (W : JS.isWhiteSpace c = false).
    { destruct c as [[] [] [] [] [] [] [] []]; try reflexivity; discriminate D. }
    rewrite W.
    assert (M : match String c s with
                | String "-" s0 => JS.signed true (JS.digits s0 None)
                | String "+" s0 => JS.signed false (JS.digits s0 None)
                | s0 => JS.signed false (JS.digits s0 None)
                end = JS.signed false (JS.digits (String c s) None)).
    { destruct c as [[] [] [] [] [] [] [] []]; try reflexivity; discriminate D. }
    rewrite M, U. reflexivity.
  - cbn [JS.trimStart]. change (JS.isWhiteSpace "-"%char) with false. cbn iota.
    rewrite digits_uint. reflexivity.
Qed.

Lemma digits_nonNegative s : forall acc m,
  JS.digits s acc = Some m ->
  (forall a, acc = Some a -> 0 <= a) ->
  0 <= m.
Proof.
  induction s as [|c s IH]; intros acc m H A; cbn [JS.digits] in H; [now apply A|].
  destruct (JS.isDigit c) eqn:E; [|now apply A].
  assert (D : 0 <= JS.digitValue c).
  { unfold JS.isDigit, JS.between in E. apply andb_prop in E as [E _].
    apply N.leb_le in E. unfold JS.digitValue. clear - E. lia. }
  apply (IH _ _ H). intros a0 Ha.
  replace a0 with (10 * match acc with Some a => a | None => 0 end + JS.digitValue c)
    by congruence.
  destruct acc as [a|]; [specialize (A a eq_refl)|]; lia.
Qed.

Lemma signed_nonNegative s : JS.isNegative (JS.signed false (JS.digits s None)) = false.
Proof.
  destruct (JS.digits s None) as [m|] eqn:E; cbn [JS.signed]; [|reflexivity].
  apply numberOf_nonNegative. apply (digits_nonNegative s None m E). discriminate.
Qed.

(** What [parseInt] reads is negative only behind a minus sign. *)
Lemma parseInt_negative v :
  JS.isNegative (JS.orZero (JS.parseInt v)) = true ->
  exists s, JS.trimStart (JS.toString v) = String "-" s.
Proof.
  rewrite orZero_isNegative. unfold JS.parseInt. intros H.
  destruct (JS.trimStart (JS.toString v)) as [|c s].
  - rewrite signed_nonNegative in H. discriminate H.
  - pose proof (signed_nonNegative s) as P1.
    pose proof (signed_nonNegative (String c s)) as P2.
    destruct c as [[] [] [] [] [] [] [] []];
      try (now exists s); exfalso;
      first [rewrite P1 in H | rewrite P2 in H]; discriminate H.
Qed.
(* ================================================================== *)
(** * Trimmed text *)
(* ================================================================== *)

Lemma trimStart_starts s : startsWithWhiteSpace (JS.trimStart s) = false.
Proof.
  induction s as [|c s IH]; cbn [JS.trimStart]; [reflexivity|].
  destruct (JS.isWhiteSpace c) eqn:E; [exact IH | exact E].
Qed.

Lemma trimEnd_starts s :
  startsWithWhiteSpace s = false -> startsWithWhiteSpace (JS.trimEnd s) = false.
Proof.
  destruct s as [|c s]; cbn [JS.trimEnd startsWithWhiteSpace]; [reflexivity|].
  intros E. rewrite E. exact E.
Qed.

Lemma trimEnd_ends s : endsWithWhiteSpace (JS.trimEnd s) = false.
Proof.
  induction s as [|c s IH]; cbn [JS.trimEnd]; [reflexivity|].
  destruct (JS.trimEnd s) as [|c' r] eqn:R.
  - destruct (JS.isWhiteSpace c) eqn:E; cbn; [reflexivity | exact E].
  - rewrite andb_false_r. exact IH.
Qed.

Lemma trimStart_fixed s : startsWithWhiteSpace s = false -> JS.trimStart s = s.
Proof.
  destruct s as [|c s]; cbn; [reflexivity|]. now intros ->.
Qed.

Lemma trimEnd_fixed s : endsWithWhiteSpace s = false -> JS.trimEnd s = s.
Proof.
  induction s as [|c s IH]; [reflexivity|].
  cbn [JS.trimEnd endsWithWhiteSpace]. destruct s as [|c' s'].
  - cbn. now intros ->.
  - intros E. rewrite (IH E). now rewrite andb_false_r.
Qed.

(** [trim] leaves no white space at either end, and leaves alone a string
    that has none there. *)
Lemma trim_trimmed s :
  startsWithWhiteSpace (JS.trim s) = false /\
  endsWithWhiteSpace (JS.trim s) = false /\
  JS.trim (JS.trim s) = JS.trim s.
Proof.
  assert (S : startsWithWhiteSpace (JS.trim s) = false)
    by (apply trimEnd_starts, trimStart_starts).
  assert (E : endsWithWhiteSpace (JS.trim s) = false) by apply trimEnd_ends.
  repeat split; try assumption.
  unfold JS.trim at 1. rewrite (trimStart_fixed _ S). now apply trimEnd_fixed.
Qed.

Lemma getAttribute_value attrs name :
  DOM.getAttribute attrs name = JS.null \/
  exists v, DOM.getAttribute attrs name = JS.Str v.
Proof.
  induction attrs as [|[n v] rest IH]; cbn [DOM.getAttribute]; [now left|].
  destruct (n =? name)%string; [right; now exists v | exact IH].
Qed.

(* ================================================================== *)
(** * The extracted records *)
(* ================================================================== *)

(** X1.  Every comment record the extraction returns has a non-empty string
    as author, [null] or a string as score, a content without white space at
    either end, and a depth that is negative only if the depth attribute,
    after leading white space, begins with a minus sign. *)
Theorem extracted_comment_invariant (c : DOM.ShredditComment) (h h' : Host)
        (r : CommentData.t) :
  CommentExtractor.extractCommentData c h = (JS.Normal (Some r), h') ->
  (exists a, CommentData.author r = JS.Str a /\ a <> "") /\
  (CommentData.score r = JS.null \/ exists s, CommentData.score r = JS.Str s) /\
  startsWithWhiteSpace (CommentData.content r) = false /\
  endsWithWhiteSpace (CommentData.content r) = false /\
  (JS.isNegative (CommentData.depth r) = true ->
   exists s,
     JS.trimStart (JS.toString (DOM.getAttribute (DOM.commentAttributes c) "depth"))
     = String "-" s).
Proof.
  intros H. destruct (extractCommentData_runs c h) as [es E]. rewrite E in H.
  injection H as H _. clear E.
  pose proof (extracted_depth c r H) as Hd.
  pose proof (extracted_score c r H) as Hs.
  unfold commentDataOf in H.
  destruct (JS.toBoolean _) eqn:Ha; [|discriminate].
  destruct (DOM.contentElement c) as [innerText|]; [|discriminate].
  injection H as <-. cbn [CommentData.author CommentData.score CommentData.content
                           CommentData.depth] in *.
  split; [|split; [|split; [|split]]].
  - destruct (getAttribute_value (DOM.commentAttributes c) "author") as [N|[a Ea]].
    + rewrite N in Ha. discriminate Ha.
    + exists a. split; [exact Ea|]. intros ->. rewrite Ea in Ha. discriminate Ha.
  - apply getAttribute_value.
  - apply trim_trimmed.
  - apply trim_trimmed.
  - apply parseInt_negative.
Qed.

Lemma extracted_comment_invariant_witness :
  (exists a, JS.Str "carol" = JS.Str a /\ a <> "") /\
  (JS.Str "2" = JS.null \/ exists s, JS.Str "2" = JS.Str s) /\
  startsWithWhiteSpace "Re: hi" = false /\
  endsWithWhiteSpace "Re: hi" = false /\
  (JS.isNegative (JS.Int 1) = true ->
   exists s,
     JS.trimStart (JS.toString (DOM.getAttribute (DOM.commentAttributes Sample.carol) "depth"))
     = String "-" s).
Proof.
  apply (extracted_comment_invariant Sample.carol (Sample.page None) (Sample.page None)
           {| CommentData.author := JS.Str "carol"; CommentData.score := JS.Str "2";
              CommentData.content := "Re: hi"; CommentData.depth := JS.Int 1 |}).
  reflexivity.
Defined.

Lemma repeat_two_spaces n : JS.repeat_nat "  " n = JS.repeat_nat " " (2 * n).
Proof.
  induction n as [|n IH]; [reflexivity|].
  replace (2 * S n)%nat with (S (S (2 * n))) by lia.
  cbn [JS.repeat_nat]. rewrite IH. reflexivity.
Qed.

Lemma numberOf_orZero z : JS.orZero (JS.numberOf z) = JS.numberOf z.
Proof.
  assert (N : JS.numberOf z <> JS.NaN).
  { unfold JS.numberOf. cbv zeta. destruct (_ <=? 0)%Z; [discriminate|].
    destruct (_ <? 2 ^ 1024)%Z; discriminate. }
  destruct (JS.numberOf z) as [|y|negative]; [contradiction | | reflexivity].
  unfold JS.orZero. cbn [JS.toBoolean].
  destruct (Z.eqb_spec y 0) as [->|]; reflexivity.
Qed.

(** X2.  A depth attribute that is the decimal numeral of [n] is read back
    as the double nearest to [n], which is [n] itself up to [2^53] in
    magnitude; for [n >= 0] the bullet line of the rendered comment then
    starts with exactly [4 * n] spaces, the block being no longer than a
    string may be. *)
Theorem depth_numeral_indentation (c : DOM.ShredditComment) (h h' : Host)
        (r : CommentData.t) (n : Z) :
  DOM.getAttribute (DOM.commentAttributes c) "depth" = JS.Str (JS.Z_to_string n) ->
  CommentExtractor.extractCommentData c h = (JS.Normal (Some r), h') ->
  CommentData.depth r = JS.numberOf n /\
  (Z.abs n <= 2 ^ 53 -> CommentData.depth r = JS.Int n) /\
  (0 <= n ->
   JS.fits (commentBlock (JS.repeat_nat "  " (Z.to_nat (n * 2))) r) = true ->
   exists rest,
     MarkdownUtils.formatComment r
     = JS.Normal (JS.repeat_nat " " (Z.to_nat (4 * n)) ++ "- **u/" ++ rest)).
Proof.
  intros Ha H. destruct (extractCommentData_runs c h) as [es E]. rewrite E in H.
  injection H as H _. clear E.
  assert (Hd : CommentData.depth r = JS.numberOf n).
  { rewrite (extracted_depth c r H), Ha, parseInt_numeral. apply numberOf_orZero. }
  split; [exact Hd|]. split.
  - intros Hn. rewrite Hd. now apply numberOf_exact.
  - intros Hn F. pose proof (fits_indent n r Hn F) as Hm.
    assert (M : JS.maxStringLength < 2 ^ 53) by reflexivity.
    assert (Hr : JS.repeat "  " (JS.mul (CommentData.depth r) (JS.Int 2))
                 = JS.Normal (JS.repeat_nat " " (Z.to_nat (4 * n)))).
    { rewrite Hd, numberOf_exact by lia. rewrite (indent_fits n Hn Hm).
      rewrite repeat_two_spaces. f_equal. f_equal. lia. }
    rewrite (formatComment_bullet r _ Hr). eexists. reflexivity.
Qed.

Lemma depth_numeral_indentation_witness :
  exists rest,
    MarkdownUtils.formatComment
      {| CommentData.author := JS.Str "carol"; CommentData.score := JS.Str "2";
         CommentData.content := "Re: hi"; CommentData.depth := JS.Int 1 |}
    = JS.Normal (JS.repeat_nat " " (Z.to_nat (4 * 1)) ++ "- **u/" ++ rest).
Proof.
  apply (proj2 (proj2 (depth_numeral_indentation
                         Sample.carol (Sample.page None) (Sample.page None)
                         {| CommentData.author := JS.Str "carol";
                            CommentData.score := JS.Str "2";
                            CommentData.content := "Re: hi";
                            CommentData.depth := JS.Int 1 |} 1 eq_refl eq_refl))).
  - lia.
  - reflexivity.
Defined.
(* ================================================================== *)
(** * The lines of a rendered comment *)
(* ================================================================== *)

Lemma lines_nonempty s : lines s <> [].
Proof.
  destruct s as [|c s]; cbn [lines]; [discriminate|].
  destruct (JS.code c =? 10)%N; [discriminate|].
  destruct (lines s); discriminate.
Qed.

Lemma replaceNewlines_lines s r : JS.replaceNewlines s r = concat r (lines s).
Proof.
  induction s as [|c s IH]; [reflexivity|].
  cbn [JS.replaceNewlines lines]. rewrite IH.
  pose proof (lines_nonempty s) as N.
  destruct (JS.code c =? 10)%N; destruct (lines s) as [|l [|l' ls]];
    try contradiction; reflexivity.
Qed.

Lemma replaceNewlines_LF s : JS.replaceNewlines s LF = s.
Proof.
  induction s as [|c s IH]; [reflexivity|].
  cbn [JS.replaceNewlines]. rewrite IH.
  destruct (JS.code c =? 10)%N eqn:E; [|reflexivity].
  apply N.eqb_eq in E. unfold JS.code in E.
  rewrite <- (ascii_N_embedding c), E. reflexivity.
Qed.

(** Joining the lines of a text with line feeds gives the text back, and no
    line holds a line feed. *)
Lemma lines_spec s :
  concat LF (lines s) = s /\ Forall (fun l => noLineFeed l = true) (lines s).
Proof.
  split; [now rewrite <- replaceNewlines_lines, replaceNewlines_LF|].
  induction s as [|c s IH]; cbn [lines]; [repeat constructor|].
  destruct (JS.code c =? 10)%N eqn:E; [constructor; [reflexivity | exact IH]|].
  destruct (lines s) as [|l ls]; [repeat constructor; cbn; now rewrite E|].
  inversion IH as [|? ? Hl Hls]; subst. constructor; [|exact Hls].
  cbn [noLineFeed]. now rewrite E, Hl.
Qed.

Lemma concat_cons sep (l l' : string) ls :
  concat sep (l :: l' :: ls) = l ++ sep ++ concat sep (l' :: ls).
Proof. reflexivity. Qed.

Lemma quoted_lines indent l ls :
  indent ++ "  > " ++ concat (LF ++ indent ++ "  > ") (l :: ls) ++ LF ++ LF
  = concat LF (List.map (fun l => (indent ++ "  > " ++ l)%string) (l :: ls) ++ [""; ""])%list.
Proof.
  revert l. induction ls as [|l' ls IH]; intros l.
  - cbn [concat List.map List.app]. rewrite !append_assoc.
    change ("" ++ LF ++ "") with (LF ++ ""). now rewrite append_nil_r.
  - rewrite concat_cons.
    change (List.map (fun l0 => (indent ++ "  > " ++ l0)%string) (l :: l' :: ls) ++ [""; ""])%list
      with ((indent ++ "  > " ++ l)%string
              :: (List.map (fun l0 => (indent ++ "  > " ++ l0)%string) (l' :: ls) ++ [""; ""]))%list.
    cbn [List.map List.app] in *. rewrite concat_cons. rewrite <- IH.
    generalize (concat (LF ++ indent ++ "  > ") (l' :: ls)). intros rest.
    now rewrite !append_assoc.
Qed.

Lemma commentBlock_lines d r :
  commentBlock (JS.repeat_nat "  " (Z.to_nat (d * 2))) r = concat LF (blockLines d r).
Proof.
  unfold commentBlock, blockLines.
  rewrite repeat_two_spaces.
  replace (2 * Z.to_nat (d * 2))%nat with (Z.to_nat (4 * d)) by lia.
  set (indent := JS.repeat_nat " " (Z.to_nat (4 * d))).
  rewrite replaceNewlines_lines.
  pose proof (lines_nonempty (CommentData.content r)) as N.
  destruct (lines (CommentData.content r)) as [|l ls]; [contradiction|].
  rewrite quoted_lines.
  cbn [List.map List.app concat]. now rewrite !append_assoc.
Qed.

(** X3.  For a record whose depth is the integer [d] the rendered block is,
    whenever the renderer returns, line by line: the bullet line, then every
    line of the content behind the indentation and the quote marker, then
    two empty lines; and the renderer returns when [d] is not negative and
    the block is no longer than a string may be.  A content of several
    lines so stays one quote, each of its lines indented like the first. *)
Theorem formatComment_lines (r : CommentData.t) (d : Z) :
  CommentData.depth r = JS.Int d ->
  (forall markdown,
      MarkdownUtils.formatComment r = JS.Normal markdown ->
      0 <= d /\ markdown = concat LF (blockLines d r)) /\
  (0 <= d ->
   JS.fits (concat LF (blockLines d r)) = true ->
   MarkdownUtils.formatComment r = JS.Normal (concat LF (blockLines d r))) /\
  concat LF (lines (CommentData.content r)) = CommentData.content r /\
  Forall (fun l => noLineFeed l = true) (lines (CommentData.content r)).
Proof.
  intros Hd. split; [|split; [|apply lines_spec]].
  - intros markdown Hm.
    destruct (JS.repeat "  " (JS.mul (CommentData.depth r) (JS.Int 2)))
      as [indent|e] eqn:E.
    + rewrite (formatComment_block _ _ E) in Hm. injection Hm as <-.
      rewrite Hd in E.
      destruct (indent_Normal _ _ E) as [[N _]|[d' [Ed [H0 [_ Hi]]]]];
        [discriminate N|].
      injection Ed as <-. split; [exact H0|].
      rewrite Hi. apply commentBlock_lines.
    + rewrite (formatComment_throws _ _ E) in Hm. discriminate Hm.
  - intros H0 F. rewrite <- commentBlock_lines in *.
    pose proof (fits_indent d r H0 F) as Hm.
    apply formatComment_block. rewrite Hd. now apply indent_fits.
Qed.

Lemma formatComment_lines_witness :
  MarkdownUtils.formatComment
    {| CommentData.author := JS.Str "carol"; CommentData.score := JS.Str "2";
       CommentData.content := "Re: hi" ++ LF ++ "more"; CommentData.depth := JS.Int 1 |}
  = JS.Normal
      (concat LF
         ["    - **u/carol** (*2 points*):"; "      > Re: hi"; "      > more"; ""; ""]).
Proof.
  apply (proj1 (proj2 (formatComment_lines
                         {| CommentData.author := JS.Str "carol";
                            CommentData.score := JS.Str "2";
                            CommentData.content := "Re: hi" ++ LF ++ "more";
                            CommentData.depth := JS.Int 1 |} 1 eq_refl))).
  - lia.
  - reflexivity.
Defined.
(* ================================================================== *)
(** * When a run succeeds *)
(* ================================================================== *)

Lemma formatComment_blockOf r d :
  CommentData.depth r = JS.Int d -> 0 <= d -> 4 * d <= JS.maxStringLength ->
  MarkdownUtils.formatComment r = JS.Normal (blockOf r).
Proof.
  intros Hd H0 Hm. unfold blockOf. rewrite Hd.
  apply formatComment_block. rewrite Hd. now apply indent_fits.
Qed.

Lemma blockOf_indent r d :
  CommentData.depth r = JS.Int d -> 0 <= d ->
  4 * d <= Z.of_nat (length (blockOf r)).
Proof.
  intros Hd H0. unfold blockOf. rewrite Hd.
  pose proof (commentBlock_length (JS.repeat_nat "  " (Z.to_nat (d * 2))) r) as L.
  rewrite length_repeat_nat in L. cbn [length] in L. lia.
Qed.

(** When the blocks together are no longer than a string may be, every
    comment of non-negative depth is rendered. *)
Lemma formatAll_blocksOf commentsData :
  (forall r, In r commentsData -> exists d, CommentData.depth r = JS.Int d /\ 0 <= d) ->
  Z.of_nat (length (blocksOf commentsData)) <= JS.maxStringLength ->
  formatAll commentsData = JS.Normal (blocksOf commentsData).
Proof.
  induction commentsData as [|r rest IH]; intros H F; [reflexivity|].
  cbn [formatAll blocksOf] in *. rewrite length_append in F.
  destruct (H r (or_introl eq_refl)) as [d [Hd H0]].
  pose proof (blockOf_indent r d Hd H0) as L.
  rewrite (formatComment_blockOf r d Hd H0) by lia.
  rewrite IH; [reflexivity | intros; apply H; now right | lia].
Qed.

Lemma formatAll_infinite_depth commentsData r negative :
  In r commentsData -> CommentData.depth r = JS.Infinity negative ->
  formatAll commentsData = JS.Throw JS.RangeError.
Proof.
  intros Hin Hd. apply (formatAll_throws _ r Hin).
  now apply (formatComment_infinite_depth r negative).
Qed.

(** X4.  A run on a page with the post element ends in one of two ways: with
    [RangeError] and nothing handed over, or normally with exactly one file
    handed over, named after the page title and of type
    [text/markdown;charset=utf-8].  It ends the first way when the depth of
    some extracted comment record is negative or infinite, and the second
    way when the depths are integers that are not negative and the document
    is no longer than a string may be. *)
Theorem run_ends (h : Host) (p : DOM.ShredditPost) (rs : list CommentData.t) :
  DOM.shredditPost (document h) = Some p ->
  fst (CommentExtractor.extractAllComments h) = JS.Normal rs ->
  ((fst (scrapeThread h) = JS.Throw JS.RangeError /\
    downloads (snd (scrapeThread h)) = downloads h) \/
   (fst (scrapeThread h) = JS.Normal tt /\
    exists markdownContent,
      downloads (snd (scrapeThread h))
      = {| download := FileUtils.filename (DOM.title (document h));
           blob := {| parts := markdownContent;
                      type := "text/markdown;charset=utf-8" |} |} :: downloads h)) /\
  ((exists r, In r rs /\
              (JS.isNegative (CommentData.depth r) = true \/
               exists negative, CommentData.depth r = JS.Infinity negative)) ->
   fst (scrapeThread h) = JS.Throw JS.RangeError /\
   downloads (snd (scrapeThread h)) = downloads h) /\
  ((forall r, In r rs -> exists d, CommentData.depth r = JS.Int d /\ 0 <= d) ->
   JS.fits (threadMarkdown (postDataOf p) rs) = true ->
   fst (scrapeThread h) = JS.Normal tt /\
   downloads (snd (scrapeThread h))
   = {| download := FileUtils.filename (DOM.title (document h));
        blob := {| parts := threadMarkdown (postDataOf p) rs;
                   type := "text/markdown;charset=utf-8" |} |} :: downloads h).
Proof.
  intros Hp Hrs.
  rewrite (runs_completion _ _ _ _ (extractAllComments_runs h)) in Hrs.
  injection Hrs as Hrs.
  pose proof (scrapeThread_runs h) as R. unfold outcome, renderThread in R.
  rewrite Hp, Hrs in R. split; [|split].
  - destruct (formatAll rs) as [s|[]].
    + right. split; [apply (runs_completion _ _ _ _ R)|].
      eexists. apply (runs_downloads _ _ _ _ R).
    + left. split; [apply (runs_completion _ _ _ _ R) | apply (runs_downloads _ _ _ _ R)].
  - intros [r [Hin Hd]].
    assert (T : formatAll rs = JS.Throw JS.RangeError).
    { destruct Hd as [Hneg|[negative Hinf]].
      - now apply (formatAll_negative_depth rs r).
      - now apply (formatAll_infinite_depth rs r negative). }
    rewrite T in R.
    split; [apply (runs_completion _ _ _ _ R) | apply (runs_downloads _ _ _ _ R)].
  - intros Hall F.
    assert (N : formatAll rs = JS.Normal (blocksOf rs)).
    { apply formatAll_blocksOf; [exact Hall|].
      unfold JS.fits, threadMarkdown in F. apply Z.leb_le in F.
      rewrite !length_append in F. lia. }
    rewrite N in R.
    split; [apply (runs_completion _ _ _ _ R) | apply (runs_downloads _ _ _ _ R)].
Qed.

Lemma run_ends_witness :
  fst (scrapeThread (Sample.page (Some [Sample.bob; Sample.carol]))) = JS.Normal tt /\
  downloads (snd (scrapeThread (Sample.page (Some [Sample.bob; Sample.carol]))))
  = {| download :=
         FileUtils.filename
           (DOM.title (document (Sample.page (Some [Sample.bob; Sample.carol]))));
       blob := {| parts := threadMarkdown (postDataOf Sample.post)
                             (commentsDataOf [Sample.bob; Sample.carol]);
                  type := "text/markdown;charset=utf-8" |} |}
      :: downloads (Sample.page (Some [Sample.bob; Sample.carol])).
Proof.
  apply (proj2 (proj2 (run_ends (Sample.page (Some [Sample.bob; Sample.carol]))
                                Sample.post
                                (commentsDataOf [Sample.bob; Sample.carol])
                                eq_refl eq_refl))).
  - intros r [<-|[<-|[]]]; [exists 0 | exists 1]; split; [reflexivity | lia | reflexivity | lia].
  - reflexivity.
Defined.

(** X5.  On a page without post element a run stops at once, in both
    revisions: it writes its two opening lines and the error (the modular
    revision also the error of [DOMUtils.querySelector]), completes
    normally, hands over nothing and leaves the document alone. *)
Theorem run_without_post (h : Host) :
  DOM.shredditPost (document h) = None ->
  scrapeThread h = (JS.Normal tt, after mainPostNotFound [] h) /\
  Legacy.scrapeThread h = (JS.Normal tt, after legacyMainPostNotFound [] h).
Proof.
  intros Hp. split.
  - unfold scrapeThread, DOMUtils.querySelector, bind, getDocument.
    cbn. rewrite Hp. reflexivity.
  - unfold Legacy.scrapeThread, bind, getDocument. cbn. rewrite Hp. reflexivity.
Qed.

Lemma run_without_post_witness :
  let h := {| document := {| DOM.titleElement := Some "t"; DOM.shredditPost := None;
                             DOM.commentTree := Some [Sample.bob] |};
              console := []; downloads := []; objectURL := "" |} in
  scrapeThread h = (JS.Normal tt, after mainPostNotFound [] h) /\
  Legacy.scrapeThread h = (JS.Normal tt, after legacyMainPostNotFound [] h).
Proof.
  apply (run_without_post
           {| document := {| DOM.titleElement := Some "t"; DOM.shredditPost := None;
                             DOM.commentTree := Some [Sample.bob] |};
              console := []; downloads := []; objectURL := "" |}).
  reflexivity.
Defined.

(* ================================================================== *)
(** * The files handed over *)
(* ================================================================== *)

Lemma threadTitle_allNameChars title :
  allNameChars (FileUtils.threadTitle title) = true.
Proof.
  unfold FileUtils.threadTitle, JS.toLowerCase, FileUtils.sanitize.
  induction (FileUtils.stripSubreddit title) as [|c s IH]; [reflexivity|].
  cbn [JS.map allNameChars]. now rewrite lowerChar_nameChar, IH.
Qed.

Lemma length_map f s : length (JS.map f s) = length s.
Proof. induction s; cbn; congruence. Qed.

Lemma length_afterLine s : (length (FileUtils.afterLine s) <= length s)%nat.
Proof.
  induction s as [|c s IH]; cbn [FileUtils.afterLine]; [lia|].
  destruct (JS.isLineTerminator c); cbn [length]; lia.
Qed.

Lemma length_drop n : forall s, (length (FileUtils.drop n s) <= length s)%nat.
Proof.
  induction n as [|n IH]; intros [|c s]; cbn [FileUtils.drop length]; try lia.
  specialize (IH s). lia.
Qed.

Lemma length_stripSubreddit s : (length (FileUtils.stripSubreddit s) <= length s)%nat.
Proof.
  induction s as [|c s IH]; [cbn; lia|].
  cbn [FileUtils.stripSubreddit].
  destruct (prefix FileUtils.marker (String c s)).
  - pose proof (length_afterLine (FileUtils.drop (length FileUtils.marker) (String c s))).
    pose proof (length_drop (length FileUtils.marker) (String c s)). lia.
  - cbn [length]. lia.
Qed.

(** X6.  Whatever the page, every file a run adds to the downloads has the
    type [text/markdown;charset=utf-8] and a name made of lower-case
    letters, digits and underscores followed by [.md], at most three
    characters longer than the page title. *)
Theorem handed_over_files (h : Host) (f : Download) :
  In f (downloads (snd (scrapeThread h))) ->
  In f (downloads h) \/
  (type (blob f) = "text/markdown;charset=utf-8" /\
   exists name,
     download f = name ++ ".md" /\
     allNameChars name = true /\
     (length name <= length (DOM.title (document h)))%nat).
Proof.
  intros Hin. rewrite (runs_downloads _ _ _ _ (scrapeThread_runs h)) in Hin.
  apply in_app_or in Hin as [Hin|Hin]; [right | now left].
  unfold outcome in Hin.
  destruct (DOM.shredditPost (document h)) as [p|]; [|contradiction].
  destruct (renderThread _ _) as [md|e]; [|contradiction].
  destruct Hin as [<-|[]]. split; [reflexivity|].
  exists (FileUtils.threadTitle (DOM.title (document h))).
  split; [reflexivity|]. split; [apply threadTitle_allNameChars|].
  unfold FileUtils.threadTitle, JS.toLowerCase, FileUtils.sanitize.
  rewrite !length_map. apply length_stripSubreddit.
Qed.

Lemma handed_over_files_witness :
  In {| download := "hello_world.md"; blob := markdownBlob Sample.helloWorldMarkdown |}
     (downloads (Sample.page None)) \/
  (type (blob {| download := "hello_world.md";
                 blob := markdownBlob Sample.helloWorldMarkdown |})
   = "text/markdown;charset=utf-8" /\
   exists name,
     download {| download := "hello_world.md";
                 blob := markdownBlob Sample.helloWorldMarkdown |} = name ++ ".md" /\
     allNameChars name = true /\
     (length name <= length (DOM.title (document (Sample.page None))))%nat).
Proof.
  apply (handed_over_files (Sample.page None)
           {| download := "hello_world.md";
              blob := markdownBlob Sample.helloWorldMarkdown |}).
  vm_compute. left. reflexivity.
Defined.

Lemma nameChar_fixed c :
  isNameChar c = true ->
  (forall s, prefix FileUtils.marker (String c s) = false) /\
  (if JS.isAlnum c then c else "_"%char) = c /\
  JS.lowerChar c = c.
Proof.
  destruct c as [[] [] [] [] [] [] [] []]; intros H; try discriminate H;
    repeat split.
Qed.

Lemma threadTitle_fixed s : allNameChars s = true -> FileUtils.threadTitle s = s.
Proof.
  unfold FileUtils.threadTitle, JS.toLowerCase, FileUtils.sanitize.
  induction s as [|c s IH]; intros H; [reflexivity|].
  cbn [allNameChars] in H. apply andb_prop in H as [Hc Hs].
  destruct (nameChar_fixed c Hc) as [Hp [Ha Hl]].
  cbn [FileUtils.stripSubreddit]. rewrite Hp. cbn [JS.map].
  rewrite Ha, Hl. f_equal. now apply IH.
Qed.

Lemma threadTitle_of_filename s :
  allNameChars s = true -> FileUtils.threadTitle (s ++ ".md") = s ++ "_md".
Proof.
  unfold FileUtils.threadTitle, JS.toLowerCase, FileUtils.sanitize.
  induction s as [|c s IH]; intros H; [reflexivity|].
  cbn [allNameChars] in H. apply andb_prop in H as [Hc Hs].
  destruct (nameChar_fixed c Hc) as [Hp [Ha Hl]].
  cbn [append FileUtils.stripSubreddit]. rewrite Hp. cbn [JS.map].
  rewrite Ha, Hl. f_equal. now apply IH.
Qed.

(** The getter leaves alone a title without white space. *)
Lemma collapse_fixed s : forall started,
  (forall c, In c (list_ascii_of_string s) -> DOM.isAsciiWhitespace c = false) ->
  DOM.collapse started false s = s.
Proof.
  induction s as [|c s IH]; intros started H; [reflexivity|].
  cbn [DOM.collapse]. rewrite (H c) by now left.
  rewrite andb_false_r. f_equal. apply IH. intros c' Hin. apply H. now right.
Qed.

Lemma nameChar_no_whitespace c : isNameChar c = true -> DOM.isAsciiWhitespace c = false.
Proof.
  destruct c as [[] [] [] [] [] [] [] []]; intros H; try discriminate H; reflexivity.
Qed.

Lemma allNameChars_In s c :
  allNameChars s = true -> In c (list_ascii_of_string s) -> isNameChar c = true.
Proof.
  induction s as [|c0 s IH]; intros H Hin; [contradiction|].
  cbn [allNameChars] in H. apply andb_prop in H as [Hc Hs].
  destruct Hin as [<-|Hin]; auto.
Qed.

Lemma In_append c a b :
  In c (list_ascii_of_string (a ++ b)) ->
  In c (list_ascii_of_string a) \/ In c (list_ascii_of_string b).
Proof.
  induction a as [|c0 a IH]; cbn [append list_ascii_of_string]; [now right|].
  intros [<-|Hin]; [left; now left|].
  destruct (IH Hin); [left; now right | now right].
Qed.

Lemma title_of_stem d s :
  allNameChars s = true ->
  DOM.titleElement d = Some s \/ DOM.titleElement d = Some (s ++ ".md") ->
  DOM.title d = match DOM.titleElement d with Some text => text | None => "" end.
Proof.
  intros H E. unfold DOM.title. apply collapse_fixed.
  destruct E as [E|E]; rewrite E; intros c Hin.
  - apply nameChar_no_whitespace. now apply (allNameChars_In s).
  - apply In_append in Hin as [Hin|Hin].
    + apply nameChar_no_whitespace. now apply (allNameChars_In s).
    + cbn in Hin. destruct Hin as [<-|[<-|[<-|[]]]]; reflexivity.
Qed.

Lemma generateFilename_value h :
  fst (FileUtils.generateFilename h)
  = JS.Normal (FileUtils.filename (DOM.title (document h))).
Proof. destruct h; reflexivity. Qed.

(** X7.  The stem of a file name, the name without [.md], is a fixed point
    of the derivation: on a page whose title is the stem derived for another
    page, [generateFilename] returns the file name of that other page, and a
    title made of lower-case letters, digits and underscores only gets [.md]
    appended.  The file name itself is no fixed point: on a page whose title
    is a file name, [generateFilename] returns the stem followed by
    [_md.md].  The stem is never longer than the title. *)
Theorem generateFilename_of_own_result (h h' : Host) :
  (DOM.titleElement (document h')
   = Some (FileUtils.threadTitle (DOM.title (document h))) ->
   fst (FileUtils.generateFilename h') = fst (FileUtils.generateFilename h)) /\
  (DOM.titleElement (document h')
   = Some (FileUtils.filename (DOM.title (document h))) ->
   fst (FileUtils.generateFilename h')
   = JS.Normal (FileUtils.threadTitle (DOM.title (document h)) ++ "_md.md")) /\
  (allNameChars (DOM.title (document h)) = true ->
   fst (FileUtils.generateFilename h) = JS.Normal (DOM.title (document h) ++ ".md")) /\
  (length (FileUtils.threadTitle (DOM.title (document h)))
   <= length (DOM.title (document h)))%nat.
Proof.
  rewrite !generateFilename_value.
  pose proof (threadTitle_allNameChars (DOM.title (document h))) as N.
  split; [|split; [|split]].
  - intros E.
    rewrite (title_of_stem _ _ N (or_introl E)), E.
    unfold FileUtils.filename. now rewrite threadTitle_fixed.
  - intros E. unfold FileUtils.filename in E.
    rewrite (title_of_stem _ _ N (or_intror E)), E.
    unfold FileUtils.filename. rewrite threadTitle_of_filename by assumption.
    now rewrite append_assoc.
  - intros H. unfold FileUtils.filename. now rewrite threadTitle_fixed.
  - unfold FileUtils.threadTitle, JS.toLowerCase, FileUtils.sanitize.
    rewrite !length_map. apply length_stripSubreddit.
Qed.

Lemma generateFilename_of_own_result_witness :
  fst (FileUtils.generateFilename (Sample.titled (Some "hello_world.md")))
  = JS.Normal (FileUtils.threadTitle (DOM.title (document (Sample.page None)))
               ++ "_md.md").
Proof.
  apply (proj1 (proj2 (generateFilename_of_own_result
                         (Sample.page None) (Sample.titled (Some "hello_world.md"))))).
  reflexivity.
Defined.
(* ================================================================== *)
(** * The button and the events *)
(* ================================================================== *)

Lemma find_app {A : Type} (f : A -> bool) (l l' : list A) :
  List.find f (l ++ l')
  = match List.find f l with
    | Some x => Some x
    | None => List.find f l'
    end.
Proof.
  induction l as [|x l IH]; cbn [List.app List.find]; [reflexivity|].
  destruct (f x); [reflexivity | exact IH].
Qed.

Lemma addScrapeButton_document h :
  exists es, addScrapeButton h = (JS.Normal tt, withDocument (withButton (document h)) es h).
Proof.
  unfold addScrapeButton, DOMUtils.querySelector, appendChild, withButton, bind,
    getDocument, withDocument.
  cbn. destruct (DOM.shredditPost (document h)) as [p|] eqn:Hp; cbn.
  - destruct (DOM.creditBar p) as [children|] eqn:Hc; cbn; rewrite ?Hp; cbn;
      rewrite ?Hc; cbn.
    + eexists [_; _; _; _]. reflexivity.
    + eexists [_; _; _]. destruct h; reflexivity.
  - eexists [_; _; _]. destruct h; reflexivity.
Qed.

Lemma getElementById_withButton d p children :
  DOM.shredditPost d = Some p ->
  DOM.creditBar p = Some children ->
  getElementById scrapeButtonId (withButton d) <> None.
Proof.
  intros Hp Hc. unfold withButton, getElementById. rewrite Hp, Hc.
  cbn [DOM.shredditPost DOM.creditBar]. rewrite find_app.
  destruct (List.find _ children); discriminate.
Qed.

(** X8.  [addScrapeButton] always completes and never touches the
    downloads.  With the post element and its credit bar on the page it
    appends the button as last child of the bar, after which the button is
    found by its id, and reports success; without one of them it leaves the
    document as it is and its last console entry is an error. *)
Theorem addScrapeButton_effect (h : Host) :
  exists h',
    addScrapeButton h = (JS.Normal tt, h') /\
    downloads h' = downloads h /\
    document h' = withButton (document h) /\
    (forall p children,
        DOM.shredditPost (document h) = Some p ->
        DOM.creditBar p = Some children ->
        (exists p',
            DOM.shredditPost (document h') = Some p' /\
            DOM.creditBar p' = Some (children ++ [scrapeButton])%list) /\
        getElementById scrapeButtonId (document h') <> None /\
        List.hd_error (console h')
        = Some (Console.log "Successfully created and appended scrape button.")) /\
    ((DOM.shredditPost (document h) = None \/
      exists p, DOM.shredditPost (document h) = Some p /\ DOM.creditBar p = None) ->
     document h' = document h /\
     exists text, List.hd_error (console h') = Some (Console.error text)).
Proof.
  unfold addScrapeButton, DOMUtils.querySelector, appendChild, bind, getDocument.
  cbn. destruct (DOM.shredditPost (document h)) as [p|] eqn:Hp; cbn.
  - destruct (DOM.creditBar p) as [children|] eqn:Hc; cbn; rewrite ?Hp; cbn;
      rewrite ?Hc; cbn.
    + eexists. split; [reflexivity|]. cbn [downloads document console].
      split; [reflexivity|]. split; [unfold withButton; now rewrite Hp, Hc|].
      split.
      * intros p0 children0 E0 E1. injection E0 as <-. rewrite Hc in E1.
        injection E1 as <-. split; [eexists; split; reflexivity|].
        split; [|reflexivity].
        unfold getElementById. cbn [DOM.shredditPost DOM.creditBar].
        rewrite find_app. destruct (List.find _ children); discriminate.
      * intros [E|[p0 [E0 E1]]]; [discriminate E|].
        injection E0 as <-. rewrite Hc in E1. discriminate E1.
    + eexists. split; [reflexivity|]. cbn [downloads document console].
      split; [reflexivity|]. split; [unfold withButton; now rewrite Hp, Hc|].
      split.
      * intros p0 children0 E0 E1. injection E0 as <-. rewrite Hc in E1.
        discriminate E1.
      * intros _. split; [reflexivity | eexists; reflexivity].
  - eexists. split; [reflexivity|]. cbn [downloads document console].
    split; [reflexivity|]. split; [unfold withButton; now rewrite Hp|].
    split.
    + intros p0 children0 E0. discriminate E0.
    + intros _. split; [reflexivity | eexists; reflexivity].
Qed.

Lemma afterTimer_idempotent d : afterTimer (afterTimer d) = afterTimer d.
Proof.
  unfold afterTimer.
  destruct (getElementById scrapeButtonId d) as [b|] eqn:E; [now rewrite E|].
  destruct (getElementById scrapeButtonId (withButton d)) eqn:E'; [reflexivity|].
  destruct (DOM.shredditPost d) as [p|] eqn:Hp.
  - destruct (DOM.creditBar p) as [children|] eqn:Hc.
    + exfalso. exact (getElementById_withButton d p children Hp Hc E').
    + assert (W : withButton d = d) by (unfold withButton; now rewrite Hp, Hc).
      now rewrite !W.
  - assert (W : withButton d = d) by (unfold withButton; now rewrite Hp).
    now rewrite !W.
Qed.

Lemma timer_document h :
  document (snd (handle Timer h)) = afterTimer (document h) /\
  downloads (snd (handle Timer h)) = downloads h.
Proof.
  unfold handle, onTimer, afterTimer, bind, Logger.log, emit, getDocument.
  cbv beta iota. cbn [document].
  destruct (getElementById scrapeButtonId (document h)) as [b|];
    [split; reflexivity|].
  match goal with
  | |- context [addScrapeButton ?h1] =>
      destruct (addScrapeButton_document h1) as [es H]; rewrite H
  end.
  split; reflexivity.
Qed.

Lemma dispatch_document ls : forall h,
  document (snd (dispatch ls h)) = document h.
Proof.
  induction ls as [|[] ls IH]; intros h; cbn [dispatch]; [reflexivity|].
  unfold bind. cbn [listenerBody]. unfold settle. rewrite IH. cbn [snd].
  apply (runs_document _ _ _ _ (scrapeThread_runs h)).
Qed.

Lemma click_document h : document (snd (handle Click h)) = document h.
Proof.
  unfold handle, bind, getDocument.
  destruct (getElementById scrapeButtonId (document h)) as [b|]; [|reflexivity].
  apply dispatch_document.
Qed.

Lemma outcome_withButton d : outcome (withButton d) = outcome d.
Proof.
  unfold withButton.
  destruct (DOM.shredditPost d) as [p|] eqn:Hp; [|reflexivity].
  destruct (DOM.creditBar p) as [children|]; [|reflexivity].
  unfold outcome. rewrite Hp. reflexivity.
Qed.

Lemma outcome_afterTimer d : outcome (afterTimer d) = outcome d.
Proof.
  unfold afterTimer. destruct (getElementById scrapeButtonId d); [reflexivity|].
  apply outcome_withButton.
Qed.

Lemma run_document (es : list event) : forall h,
  document (run es h)
  = (if List.existsb isTimer es then afterTimer (document h) else document h).
Proof.
  induction es as [|e es IH]; intros h; [reflexivity|].
  cbn [run List.existsb]. rewrite IH. destruct e; cbn [isTimer orb].
  - reflexivity.
  - destruct (timer_document h) as [Hd _]. rewrite Hd.
    rewrite afterTimer_idempotent. now destruct (List.existsb isTimer es).
  - now rewrite click_document.
Qed.

(** Many timers are one timer. *)
Lemma timers_add_one_button n h :
  document (run (List.repeat Timer (S n)) h) = document (run [Timer] h).
Proof. now rewrite !run_document. Qed.

(** X9.  Whatever events are handled, in whatever order and number, the
    document is the one the script found as long as no timer has fired, and
    from the first timer on that document with the button added once (or
    unchanged, if an element with the button's id was there, or no credit
    bar).  A second timer adds nothing, and what a run computes from the
    page is never affected. *)
Theorem page_after_events (es : list event) (h : Host) :
  document (run es h)
  = (if List.existsb isTimer es then afterTimer (document h) else document h) /\
  afterTimer (afterTimer (document h)) = afterTimer (document h) /\
  outcome (document (run es h)) = outcome (document h).
Proof.
  split; [apply run_document|]. split; [apply afterTimer_idempotent|].
  rewrite run_document.
  destruct (List.existsb isTimer es); [apply outcome_afterTimer | reflexivity].
Qed.

(** X10.  Without a click nothing is ever handed over: loading the page
    and the timer, however often, leave the downloads as they are. *)
Theorem no_download_without_click (es : list event) (h : Host) :
  List.existsb isClick es = false ->
  downloads (run es h) = downloads h.
Proof.
  revert h. induction es as [|e es IH]; intros h H; [reflexivity|].
  cbn [run List.existsb] in *. apply orb_false_elim in H as [He Hes].
  rewrite (IH _ Hes). destruct e; [reflexivity | apply timer_document | discriminate He].
Qed.

Lemma no_download_without_click_witness :
  downloads (run [Load; Timer; Timer] (start (Sample.page (Some [Sample.bob]))))
  = downloads (start (Sample.page (Some [Sample.bob]))).
Proof.
  apply (no_download_without_click [Load; Timer; Timer]
           (start (Sample.page (Some [Sample.bob])))).
  reflexivity.
Defined.

(* ================================================================== *)
(** * Comments in sequence *)
(* ================================================================== *)






Lemma commentDataOf_recordOf c r : commentDataOf c = Some r -> recordOf c r.
Proof.
  unfold commentDataOf, recordOf.
  destruct (JS.toBoolean _); [|discriminate].
  destruct (DOM.contentElement c) as [innerText|]; [|discriminate].
  intros H. injection H as <-. cbn. repeat split. now exists innerText.
Qed.

Lemma commentsDataOf_length cs :
  (List.length (commentsDataOf cs) <= List.length cs)%nat.
Proof.
  induction cs as [|c cs IH]; cbn [commentsDataOf List.length]; [lia|].
  destruct (commentDataOf c); cbn [List.length]; lia.
Qed.

(** X12.  The extracted sequence never has more records than the tree has
    comment elements.  If for every element, at whatever level of the tree,
    the author is not empty and the search finds a body content node, there
    is exactly one record per element, in document order, each holding the
    author and score attributes as read, the parsed depth and the trimmed
    text of the node found. *)
Theorem extraction_pointwise (h : Host) (tree : list DOM.ShredditComment) :
  DOM.commentTree (document h) = Some tree ->
  exists rs,
    fst (CommentExtractor.extractAllComments h) = JS.Normal rs /\
    (List.length rs <= List.length (DOM.querySelectorAll tree))%nat /\
    ((forall c, In c (DOM.querySelectorAll tree) ->
                JS.toBoolean (DOM.getAttribute (DOM.commentAttributes c) "author") = true /\
                DOM.contentElement c <> None) ->
     Forall2 recordOf (DOM.querySelectorAll tree) rs).
Proof.
  intros Ht. exists (commentsDataOf (DOM.querySelectorAll tree)).
  rewrite (runs_completion _ _ _ _ (extractAllComments_runs h)).
  unfold commentElements. rewrite Ht.
  split; [reflexivity|]. split; [apply commentsDataOf_length|].
  clear Ht. induction (DOM.querySelectorAll tree) as [|c cs IH]; intros H; [constructor|].
  cbn [commentsDataOf].
  destruct (proj2 (kept_whatever_score c) (H c (or_introl eq_refl))) as [r Hr].
  rewrite Hr. constructor; [now apply commentDataOf_recordOf|].
  apply IH. intros c' Hin. apply H. now right.
Qed.

Lemma extraction_pointwise_witness :
  exists rs,
    fst (CommentExtractor.extractAllComments (Sample.page (Some [Sample.bob; Sample.carol])))
    = JS.Normal rs /\
    (List.length rs <= List.length (DOM.querySelectorAll [Sample.bob; Sample.carol]))%nat /\
    ((forall c, In c (DOM.querySelectorAll [Sample.bob; Sample.carol]) ->
                JS.toBoolean (DOM.getAttribute (DOM.commentAttributes c) "author") = true /\
                DOM.contentElement c <> None) ->
     Forall2 recordOf (DOM.querySelectorAll [Sample.bob; Sample.carol]) rs).
Proof.
  apply (extraction_pointwise (Sample.page (Some [Sample.bob; Sample.carol]))).
  reflexivity.
Defined.

(* ================================================================== *)
(** * The post record *)
(* ================================================================== *)

(** X13.  [extractPostData] never throws and touches neither document nor
    downloads.  It answers [null] exactly when it is given no element.
    Given an element it always answers a record, whatever title, author,
    subreddit and score are; the content of the record is the trimmed text
    of the body element, and the empty string, with a warning as last
    console entry, when the element has no body. *)
Theorem extractPostData_total (x : option DOM.ShredditPost) (h : Host) :
  exists v h',
    PostExtractor.extractPostData x h = (JS.Normal v, h') /\
    document h' = document h /\
    downloads h' = downloads h /\
    (v = None <-> x = None) /\
    forall p,
      x = Some p ->
      exists r,
        v = Some r /\
        PostData.content r
        = match DOM.postBody p with
          | Some innerText => JS.trim innerText
          | None => ""
          end /\
        startsWithWhiteSpace (PostData.content r) = false /\
        endsWithWhiteSpace (PostData.content r) = false /\
        (DOM.postBody p = None ->
         List.hd_error (console h')
         = Some (Console.warn "  - Post body content element not found.")).
Proof.
  destruct x as [p|].
  - exists (Some (postDataOf p)), (snd (PostExtractor.extractPostData (Some p) h)).
    pose proof (extractPostData_runs p h) as R.
    split; [|split; [|split; [|split]]].
    + rewrite <- (runs_completion _ _ _ _ R). now destruct (PostExtractor.extractPostData _ _).
    + apply (runs_document _ _ _ _ R).
    + apply (runs_downloads _ _ _ _ R).
    + split; discriminate.
    + intros p0 E. injection E as <-. exists (postDataOf p).
      split; [reflexivity|]. split; [reflexivity|].
      unfold postDataOf. cbn [PostData.content].
      destruct (DOM.postBody p) as [innerText|] eqn:Hb.
      * split; [apply trim_trimmed|]. split; [apply trim_trimmed | discriminate].
      * split; [reflexivity|]. split; [reflexivity|]. intros _.
        unfold PostExtractor.extractPostData, DOMUtils.logElementAttributes, bind.
        cbn. rewrite Hb. reflexivity.
  - eexists None, _. split; [reflexivity|]. cbn.
    split; [reflexivity|]. split; [reflexivity|]. split; [split; reflexivity|].
    intros p E. discriminate E.
Qed.

(* ================================================================== *)
(** * The button of the monolithic revision *)
(* ================================================================== *)

(** X14.  The two revisions add the button alike.  [addScrapeButton] and
    the timer callback of the monolithic revision leave the same document
    and the same downloads as those of the modular one; on a page with the
    post element they also write the same console, so that the whole host
    state is the same. *)
Theorem legacy_button_agrees (h : Host) :
  document (snd (LegacyTrigger.addScrapeButton h)) = document (snd (addScrapeButton h)) /\
  downloads (snd (LegacyTrigger.addScrapeButton h)) = downloads (snd (addScrapeButton h)) /\
  document (snd (LegacyTrigger.onTimer h)) = document (snd (onTimer h)) /\
  downloads (snd (LegacyTrigger.onTimer h)) = downloads (snd (onTimer h)) /\
  (DOM.shredditPost (document h) <> None ->
   LegacyTrigger.addScrapeButton h = addScrapeButton h /\
   LegacyTrigger.onTimer h = onTimer h).
Proof.
  assert (A : forall h,
             document (snd (LegacyTrigger.addScrapeButton h))
             = document (snd (addScrapeButton h)) /\
             downloads (snd (LegacyTrigger.addScrapeButton h))
             = downloads (snd (addScrapeButton h)) /\
             (DOM.shredditPost (document h) <> None ->
              LegacyTrigger.addScrapeButton h = addScrapeButton h)).
  { clear. intros h.
    unfold LegacyTrigger.addScrapeButton, addScrapeButton, DOMUtils.querySelector,
      appendChild, bind, getDocument.
    cbn. destruct (DOM.shredditPost (document h)) as [p|] eqn:Hp; cbn.
    - destruct (DOM.creditBar p) as [children|] eqn:Hc; cbn; rewrite ?Hp; cbn;
        rewrite ?Hc; cbn; repeat split.
    - repeat split. intros N. now contradiction N. }
  destruct (A h) as [A1 [A2 A3]].
  split; [exact A1|]. split; [exact A2|].
  assert (T : document (snd (LegacyTrigger.onTimer h)) = document (snd (onTimer h)) /\
              downloads (snd (LegacyTrigger.onTimer h)) = downloads (snd (onTimer h)) /\
              (DOM.shredditPost (document h) <> None ->
               LegacyTrigger.onTimer h = onTimer h)).
  { unfold LegacyTrigger.onTimer, onTimer, bind, Logger.log, emit, getDocument.
    cbv beta iota. cbn [document].
    change "scrape-to-markdown-btn" with scrapeButtonId.
    destruct (getElementById scrapeButtonId (document h)); [repeat split|].
    match goal with
    | |- context [addScrapeButton ?h1] => destruct (A h1) as [B1 [B2 B3]]
    end.
    split; [exact B1|]. split; [exact B2|]. exact B3. }
  destruct T as [T1 [T2 T3]]. split; [exact T1|]. split; [exact T2|].
  intros N. split; [now apply A3 | now apply T3].
Qed.

Lemma legacy_button_agrees_witness :
  LegacyTrigger.addScrapeButton (Sample.page None) = addScrapeButton (Sample.page None) /\
  LegacyTrigger.onTimer (Sample.page None) = onTimer (Sample.page None).
Proof.
  apply (legacy_button_agrees (Sample.page None)). discriminate.
Defined.

(* ================================================================== *)
(** * One comment in the two revisions *)
(* ================================================================== *)

(** X16.  [processComment] of the monolithic revision against the modular
    pair [extractCommentData], [formatComment].  It never touches document
    or downloads.  For an element whose depth is negative or infinite it
    throws [RangeError], also when the modular revision drops the element.
    For an element whose depth [d] is not negative and whose indentation, of
    [4 * d] characters, is no longer than a string may be, it returns what
    [formatComment] gives for the record the modular revision extracts, and
    the empty string for an element the modular revision drops. *)
Theorem processComment_against_modular (c : DOM.ShredditComment) (h : Host) :
  document (snd (Legacy.processComment c h)) = document h /\
  downloads (snd (Legacy.processComment c h)) = downloads h /\
  (JS.isNegative (depthOf c) = true \/ (exists negative, depthOf c = JS.Infinity negative) ->
   fst (Legacy.processComment c h) = JS.Throw JS.RangeError) /\
  (forall d,
      depthOf c = JS.Int d -> 0 <= d -> 4 * d <= JS.maxStringLength ->
      fst (Legacy.processComment c h)
      = match fst (CommentExtractor.extractCommentData c h) with
        | JS.Normal (Some r) => MarkdownUtils.formatComment r
        | JS.Normal None => JS.Normal ""
        | JS.Throw e => JS.Throw e
        end).
Proof.
  pose proof (processComment_runs c h) as R.
  split; [apply (runs_document _ _ _ _ R)|].
  split; [apply (runs_downloads _ _ _ _ R)|].
  rewrite (runs_completion _ _ _ _ R).
  rewrite (runs_completion _ _ _ _ (extractCommentData_runs c h)).
  unfold legacyBlock. split.
  - intros [H|[negative H]].
    + rewrite repeat_negative; [reflexivity|]. now rewrite mul_two_isNegative.
    + rewrite H. reflexivity.
  - intros d Hd H0 Hm. rewrite Hd, (indent_fits d H0 Hm). reflexivity.
Qed.

Lemma processComment_against_modular_witness :
  fst (Legacy.processComment Sample.noBody (Sample.page None))
  = match fst (CommentExtractor.extractCommentData Sample.noBody (Sample.page None)) with
    | JS.Normal (Some r) => MarkdownUtils.formatComment r
    | JS.Normal None => JS.Normal ""
    | JS.Throw e => JS.Throw e
    end.
Proof.
  apply (proj2 (proj2 (proj2 (processComment_against_modular Sample.noBody
                                (Sample.page None)))) 1).
  - reflexivity.
  - lia.
  - by_comparison.
Defined.
(* ================================================================== *)
(** * Runs do not overlap *)
(* ================================================================== *)

Lemma after_nil h : after [] [] h = h.
Proof. destruct h; reflexivity. Qed.

Section Writes.

Context {A B : Type}.

Lemma writes_ret (a : A) h : writes (ret a) h (JS.Normal a) [] [].
Proof. unfold writes. cbn [List.rev]. now rewrite after_nil. Qed.


Lemma writes_bind (m : M A) (k : A -> M B) h a es1 v es2 ds :
  writes m h (JS.Normal a) es1 [] ->
  (forall h1, document h1 = document h -> objectURL h1 = objectURL h ->
              writes (k a) h1 v es2 ds) ->
  writes (bind m k) h v (es1 ++ es2) ds.
Proof.
  unfold writes, bind. intros -> Hk.
  rewrite (Hk (after (List.rev es1) [] h) eq_refl eq_refl).
  now rewrite after_after, rev_app_distr, app_nil_r.
Qed.


End Writes.



Lemma writes_getDocument h : writes getDocument h (JS.Normal (document h)) [] [].
Proof. unfold writes. cbn [List.rev]. now rewrite after_nil. Qed.

Lemma writes_runs {A : Type} (m : M A) h v es ds : writes m h v es ds -> runs m h v ds.
Proof. intros H. now exists (List.rev es). Qed.









Lemma generateFilename_writes h :
  writes FileUtils.generateFilename h (JS.Normal (filenameOf (document h))) [] [].
Proof.
  unfold FileUtils.generateFilename.
  apply (writes_bind _ _ _ (document h) [] _ []); [apply writes_getDocument|].
  intros; apply writes_ret.
Qed.



(** ** The entries that start a run *)











(** ** What handling an event leaves in the console *)





(** ** No event is dispatched inside a run *)









(** The notion is not empty: a state two statements into a run of
    [scrapeThread] is a state inside that run.  By the theorem no event is
    ever dispatched there. *)
Example running_two_statements_in :
  running Sample.installed
          (snd ((Logger.log "--- SCRAPE PROCESS INITIATED ---" ;;
                 Logger.log "Step 1: Scraping main post...") Sample.installed)).
Proof.
  exists [Console.log "Step 1: Scraping main post..."; initiated].
  exists (List.rev (List.skipn 2 (runLog (document Sample.installed)
                                         (objectURL Sample.installed)))).
  split; [|split; [discriminate|split; [|split; [|split]]]].
  - vm_compute. reflexivity.
  - vm_compute. discriminate.
  - reflexivity.
  - reflexivity.
  - reflexivity.
Qed.
